(** * VuePress static build ([lib/build.js]): a shallow embedding

    The build orchestrator of [lib/build.js] is embedded as Rocq functions.
    Pure helpers ([renderHeadTag], [renderAttrs], [needsClosing],
    [renderPageMeta], the two chunk-name regular expressions) are plain
    functions on strings.  The effectful part ([compile], [renderPage],
    [workaroundEmptyStyleChunk], [build]) lives in a small state-and-exception
    monad over a world made of a file system and a trace of the observable
    operations, in the order the code performs them.  The environment
    decides what the code cannot: what [rimraf] removes, whether the
    creation of a directory or the writing of a file fails, and in which
    order the event loop resumes the page renders that are in flight. *)

From Stdlib Require Import String Ascii List Bool Arith Lia.
From stdpp Require Import base option list strings gmap fin_maps.

Import ListNotations.
Local Open Scope list_scope.

(** ** Strings *)

Module Str.

  (** The double quote character, written by its code. *)
Definition dquote : string := String (ascii_of_nat 34) EmptyString.

  (** The line feed character. *)
Definition newline : string := String (ascii_of_nat 10) EmptyString.

  (** [Array.prototype.join]: elements separated by [sep]. *)
Definition join (sep : string) (l : list string) : string :=
    String.concat sep l.

End Str.

(** ** Regular expressions of the chunk names

    [/styles\.\w{8}\.js$/] and [/app\.\w{8}\.js$/] are sequences of single
    character atoms closed by the end anchor.  [RegExp.prototype.test]
    without the sticky flag tries every start position. *)

Module Regex.

Inductive atom : Type :=
  | Lit (c : ascii)     (* a literal character, also an escaped dot *)
  | Word.               (* the class \w *)

  (** [\w] is [A-Za-z0-9_]. *)
Definition is_word_char (c : ascii) : bool :=
    let n := nat_of_ascii c in
    ((65 <=? n) && (n <=? 90)) || ((97 <=? n) && (n <=? 122))
    || ((48 <=? n) && (n <=? 57)) || (n =? 95).

  (** A hexadecimal digit, [0-9a-f]. *)
Definition is_hex_char (c : ascii) : bool :=
    let n := nat_of_ascii c in
    ((48 <=? n) && (n <=? 57)) || ((97 <=? n) && (n <=? 102)).

Definition atom_matches (a : atom) (c : ascii) : bool :=
    match a with
    | Lit d => Ascii.eqb d c
    | Word => is_word_char c
    end.

  (** The atoms match from the first character of [s] on and the end anchor
      holds right after them. *)
Fixpoint match_here (p : list atom) (s : string) : bool :=
    match p, s with
    | [], EmptyString => true
    | [], String _ _ => false
    | _ :: _, EmptyString => false
    | a :: p', String c s' => atom_matches a c && match_here p' s'
    end.

  (** [re.test(s)]: some start position matches. *)
Fixpoint test (p : list atom) (s : string) : bool :=
    match_here p s ||
    match s with
    | EmptyString => false
    | String _ s' => test p s'
    end.

Definition lits (s : string) : list atom :=
    map Lit (list_ascii_of_string s).

  (** [/styles\.\w{8}\.js$/] *)
Definition styles_re : list atom :=
    lits "styles." ++ repeat Word 8 ++ lits ".js".

  (** [/app\.\w{8}\.js$/] *)
Definition app_re : list atom :=
    lits "app." ++ repeat Word 8 ++ lits ".js".

Definition all_chars (f : ascii -> bool) (s : string) : bool :=
    forallb f (list_ascii_of_string s).

End Regex.

(** ** Head tags and page meta (pure string formatting) *)

(** A JavaScript object with string values, as its own enumerable string
    keys in iteration order, each with its value. *)
Definition JsObject : Type := list (string * string).

(** [Object.keys(o)]. *)
Definition obj_keys (o : JsObject) : list string := map fst o.

(** [o[name]] inside a template literal: the value, or the text
    [undefined] when the key is missing. *)
Fixpoint obj_get (o : JsObject) (name : string) : string :=
  match o with
  | [] => "undefined"
  | (k, v) :: o' => if String.eqb k name then v else obj_get o' name
  end.

(** No key occurs twice, as in every JavaScript object. *)
Definition obj_wf (o : JsObject) : Prop := NoDup (obj_keys o).

Record HeadTagSpec : Type := mkHeadTag {
  tag : string;
  attrs : option JsObject;
  innerHTML : option string
}.

(** [function needsClosing (tag)] *)
Definition needsClosing (tag : string) : bool :=
  negb (String.eqb tag "link" || String.eqb tag "meta").

(** [function renderAttrs (attrs = {})] *)
Definition renderAttrs (attrs : option JsObject) : string :=
  let attrs := default [] attrs in
  let keys := obj_keys attrs in
  if negb (length keys =? 0) then
    " " +:+ Str.join " "
      (map (fun name => name +:+ "=" +:+ Str.dquote +:+ obj_get attrs name +:+ Str.dquote) keys)
  else "".

(** [t.innerHTML || '']. *)
Definition or_empty (s : option string) : string := default "" s.

(** [function renderHeadTag (t)] *)
Definition renderHeadTag (t : HeadTagSpec) : string :=
  "<" +:+ tag t +:+ renderAttrs (attrs t) +:+ ">" +:+
  or_empty (innerHTML t) +:+
  (if needsClosing (tag t) then "</" +:+ tag t +:+ ">" else "").

(** [function renderPageMeta (meta)] *)
Definition renderPageMeta (meta : option (list JsObject)) : string :=
  match meta with
  | None => ""
  | Some meta =>
      Str.join ""
        (map (fun m =>
                fold_left
                  (fun res key =>
                     res +:+ " " +:+ key +:+ "=" +:+ Str.dquote +:+ obj_get m key +:+ Str.dquote)
                  (obj_keys m) "<meta" +:+ ">")
             meta)
  end.

(** ** Data model *)

(** [page.frontmatter], of which the build reads only [meta]. *)
Record Frontmatter : Type := mkFrontmatter {
  meta : option (list JsObject)
}.

Record Page : Type := mkPage {
  path : string;
  frontmatter : option Frontmatter
}.

(** The result of [prepare(sourceDir)], as far as the build reads it:
    [options.outDir], [options.siteConfig.head], [options.siteData.pages]. *)
Record SiteOptions : Type := mkSiteOptions {
  outDir : string;
  head : option (list HeadTagSpec);
  pages : list Page
}.

(** An emitted asset descriptor of the compile report. *)
Record Asset : Type := mkAsset { name : string }.

(** One target's entry of [stats.toJson().children]. *)
Record TargetStats : Type := mkTargetStats { assets : list Asset }.

(** What the build reads of webpack's multi-compiler stats:
    [stats.hasErrors()], [stats.toJson().errors] and
    [stats.toJson({ modules: false }).children]. *)
Record Stats : Type := mkStats {
  hasErrors : bool;
  errors : list string;
  children : list TargetStats
}.

(** The context object handed to [renderer.renderToString]. *)
Record RenderContext : Type := mkRenderContext {
  url : string;
  userHeadTags : string;
  pageMeta : string;
  title : string;
  lang : string
}.

(** Values a promise of the build can reject with: error objects, each
    with its [stack], and values that are no error objects. *)
Inductive JsError : Type :=
| WebpackFailure (msg : string)      (* the [err] of webpack's callback *)
| CompileFailed                      (* [new Error('Failed to compile with errors.')] *)
| ModuleNotFound (p : string)        (* [require] of a file that is not there *)
| JsonSyntaxError (p : string)       (* [require] of a file that is not JSON *)
| ENOENT (p : string)                (* a file that is not there *)
| EISDIR (p : string)                (* a file operation on a directory *)
| ENOTDIR (p : string)               (* a component of the path is a file *)
| EEXIST (p : string)                (* the directory to create is a file *)
| IOError (code p : string)          (* any other failure of the file system *)
| TypeError (what : string)          (* a property read on [undefined] or [null] *)
| RenderFailure (stack : string)     (* an error object [renderToString] rejects with *)
| JsUndefined                        (* the value [undefined] *)
| JsNull                             (* the value [null] *)
| NoStack (text : string).           (* any other value without a [stack]: a string, a number *)

(** The outcome of the webpack callback [(err, stats)]. *)
Inductive WebpackResult : Type :=
| WebpackErr (e : JsError)
| WebpackDone (stats : Stats).

(** The outcome of one [renderToString] call: the HTML, or the value its
    promise is rejected with. *)
Inductive RenderResult : Type :=
| Rendered (html : string)
| Rejected (e : JsError).

(** The outcome of one [writeFile] call: the file holds the content, or the
    call fails with an error; [part] is then what the file holds if the
    failed call got as far as touching it, [None] if it did not. *)
Inductive WriteResult : Type :=
| Written
| WriteFailed (e : JsError) (part : option string).

(** ** The world: a file system and a trace *)

(** The files, by path.  Directories are not recorded: whether a
    directory can be created and a file written is for the environment to
    say (see [mkdirp_error] and [writeFile_result] below). *)
Abbreviation FS := (gmap string string).

Inductive Event : Type :=
| EvRimraf (p : string)
| EvWebpack
| EvRequire (p : string)
| EvReadFile (p : string)
| EvWriteFile (p content : string)
| EvMkdirp (p : string)
| EvRender (ctx : RenderContext)
| EvConsoleError (msg : string)
| EvConsoleLog (msg : string).

Record World : Type := mkWorld {
  fs : FS;
  trace : list Event       (* the calls made, oldest first *)
}.

(** [k] is the path [d] or lies beneath the directory [d]. *)
Definition under (d k : string) : bool :=
  String.eqb k d || String.prefix (d +:+ "/") k.

(** What a computation ends with: a value, or a thrown value. *)
Inductive Outcome (A : Type) : Type :=
| Returned (a : A)
| Threw (e : JsError).
Arguments Returned {A} a.
Arguments Threw {A} e.

(** [e.stack]: the stack of an error object; reading the property throws
    on [undefined] and on [null]; any other value has no such property and
    gives [undefined], which [console.error] prints as that word. *)
Definition stack_of (e : JsError) : Outcome string :=
  match e with
  | WebpackFailure m => Returned m
  | CompileFailed => Returned "Error: Failed to compile with errors."
  | ModuleNotFound p => Returned ("Error: Cannot find module " +:+ p)
  | JsonSyntaxError p => Returned ("SyntaxError: " +:+ p)
  | ENOENT p => Returned ("Error: ENOENT: no such file or directory, open " +:+ p)
  | EISDIR p => Returned ("Error: EISDIR: illegal operation on a directory, open " +:+ p)
  | ENOTDIR p => Returned ("Error: ENOTDIR: not a directory, open " +:+ p)
  | EEXIST p => Returned ("Error: EEXIST: file already exists, mkdir " +:+ p)
  | IOError code p => Returned ("Error: " +:+ code +:+ ": " +:+ p)
  | TypeError w => Returned ("TypeError: " +:+ w)
  | RenderFailure st => Returned st
  | JsUndefined => Threw (TypeError "Cannot read property 'stack' of undefined")
  | JsNull => Threw (TypeError "Cannot read property 'stack' of null")
  | NoStack _ => Returned "undefined"
  end.

(** What the build takes from outside.

    - Node's [path] module, [chalk], webpack with the two configurations
      built from the options, JSON parsing inside [require], the bundle
      renderer factory, the location of the packaged page template.
    - [rimraf_fs p m]: the files that [rimraf(p)] leaves of the files [m].
      The library resolves a relative path, expands [p] as a pattern when
      nothing has that very name, and descends into directories.  The
      build relies on three facts only: no file is added or altered;
      nothing is left at or beneath a path made by [path.resolve]; and
      when such a path is a file, no other file is removed.
    - [mkdirp_error w p] and [writeFile_result w p content]: how
      [mkdirp(p)] and [writeFile(p, content)] end when they complete in the
      world [w] (the path is a directory, a component of it is a file, the
      disk refuses, ...).
    - [resume_order]: the order in which the event loop resumes the
      [renderPage] calls started by [pages.map(renderPage)], each entry the
      index of the call that runs on to its next [await]. *)
Class Externals : Type := mkExternals {
  path_resolve : string -> string -> string;
  path_dirname : string -> string;
  path_relative_cwd : string -> string;
  chalk_red : string -> string;
  chalk_green : string -> string;
  chalk_cyan : string -> string;
  webpack : SiteOptions -> FS -> WebpackResult * FS;
  json_parse : string -> option string;
  createBundleRenderer : string -> string -> string -> RenderContext -> RenderResult;
  template_path : string;
  rimraf_fs : string -> FS -> FS;
  mkdirp_error : World -> string -> option JsError;
  writeFile_result : World -> string -> string -> WriteResult;
  resume_order : list nat;
  rimraf_only_removes : forall (p : string) (m : FS) (k x : string),
    rimraf_fs p m !! k = Some x -> m !! k = Some x;
  rimraf_removes_tree : forall (a b : string) (m : FS) (k : string),
    under (path_resolve a b) k = true -> rimraf_fs (path_resolve a b) m !! k = None;
  rimraf_of_file : forall (a b : string) (m : FS) (k : string),
    is_Some (m !! path_resolve a b) -> under (path_resolve a b) k = false ->
    rimraf_fs (path_resolve a b) m !! k = m !! k
}.

(** ** The build monad: state and exceptions *)

Definition M (A : Type) : Type := World -> Outcome A * World.

Definition ret {A : Type} (a : A) : M A := fun w => (Returned a, w).

Definition bind {A B : Type} (m : M A) (k : A -> M B) : M B :=
  fun w =>
    match m w with
    | (Returned a, w') => k a w'
    | (Threw e, w') => (Threw e, w')
    end.

Definition throw {A : Type} (e : JsError) : M A := fun w => (Threw e, w).

(** An expression that gives a value or throws, and does nothing else. *)
Definition lift {A : Type} (o : Outcome A) : M A := fun w => (o, w).

Definition emit (ev : Event) : M unit :=
  fun w => (Returned tt, mkWorld (fs w) (trace w ++ [ev])).

Definition get_fs : M FS := fun w => (Returned (fs w), w).

Definition modify_fs (f : FS -> FS) : M unit :=
  fun w => (Returned tt, mkWorld (f (fs w)) (trace w)).

Declare Scope build_scope.
Delimit Scope build_scope with build.
Notation "'do' x <- m 'in' k" := (bind m (fun x => k))
  (at level 10, x name, m at level 100, k at level 200) : build_scope.
Notation "m '>>' k" := (bind m (fun _ => k))
  (at level 100, k at level 200, right associativity) : build_scope.
Local Open Scope build_scope.

(** [arr.forEach(f)] *)
Fixpoint for_each {A : Type} (f : A -> M unit) (l : list A) : M unit :=
  match l with
  | [] => ret tt
  | x :: l' => f x >> for_each f l'
  end.

(** [arr.map(f)], the calls made one after the other in the order of the
    array. *)
Fixpoint map_each {A B : Type} (f : A -> M B) (l : list A) : M (list B) :=
  match l with
  | [] => ret []
  | x :: l' => do y <- f x in do ys <- map_each f l' in ret (y :: ys)
  end.

(** ** The operations of [lib/build.js] *)

Section Build.

Context {E : Externals}.

  (** *** Primitives *)

  (** [await rimraf(p)] *)
Definition rimraf (p : string) : M unit :=
    emit (EvRimraf p) >> modify_fs (rimraf_fs p).

  (** [await readFile(p, 'utf-8')] and [fs.readFileSync(p, 'utf-8')] *)
Definition readFile (p : string) : M string :=
    emit (EvReadFile p) >>
    do m <- get_fs in
    match m !! p with
    | Some content => ret content
    | None => throw (ENOENT p)
    end.

  (** [writeFile(p, content)]: the call, which returns a promise, and the
      settling of that promise, where the [await] goes on or throws. *)
Definition writeFile_call (p content : string) : M unit :=
    emit (EvWriteFile p content).

Definition writeFile_done (p content : string) : M unit :=
    fun w =>
      match writeFile_result w p content with
      | Written => (Returned tt, mkWorld (<[p := content]> (fs w)) (trace w))
      | WriteFailed e None => (Threw e, w)
      | WriteFailed e (Some part) => (Threw e, mkWorld (<[p := part]> (fs w)) (trace w))
      end.

  (** [await writeFile(p, content)] with nothing else running meanwhile *)
Definition writeFile (p content : string) : M unit :=
    writeFile_call p content >> writeFile_done p content.

  (** [mkdirp(p)]: the call and the settling of its promise. *)
Definition mkdirp_call (p : string) : M unit := emit (EvMkdirp p).

Definition mkdirp_done (p : string) : M unit :=
    fun w =>
      match mkdirp_error w p with
      | None => (Returned tt, w)
      | Some e => (Threw e, w)
      end.

  (** [require(p)] of a JSON file *)
Definition require_json (p : string) : M string :=
    emit (EvRequire p) >>
    do m <- get_fs in
    match m !! p with
    | None => throw (ModuleNotFound p)
    | Some content =>
        match json_parse content with
        | Some doc => ret doc
        | None => throw (JsonSyntaxError p)
        end
    end.

Definition console_error (msg : string) : M unit := emit (EvConsoleError msg).
Definition console_log (msg : string) : M unit := emit (EvConsoleLog msg).

  (** [webpack(config, callback)] run to its callback *)
Definition run_webpack (options : SiteOptions) : M WebpackResult :=
    emit EvWebpack >>
    fun w => let '(r, m) := webpack options (fs w) in
             (Returned r, mkWorld m (trace w)).

  (** *** [function compile (config)] *)
Definition compile (options : SiteOptions) : M Stats :=
    do r <- run_webpack options in
    match r with
    | WebpackErr err => throw err
    | WebpackDone stats =>
        if hasErrors stats then
          for_each console_error (errors stats) >>
          throw CompileFailed
        else ret stats
    end.

  (** *** [async function workaroundEmptyStyleChunk ()] *)

Definition is_style_chunk (a : Asset) : bool := Regex.test Regex.styles_re (name a).
Definition is_app_chunk (a : Asset) : bool := Regex.test Regex.app_re (name a).

  (** [stats.children[0].assets.find(pred)]: [None] is [undefined]; a report
      without targets has no [children[0]]. *)
Definition find_asset (pred : Asset -> bool) (stats : Stats) : M (option Asset) :=
    match children stats with
    | [] => throw (TypeError "Cannot read property 'assets' of undefined")
    | target :: _ => ret (List.find pred (assets target))
    end.

  (** [chunk.name] *)
Definition name_of (chunk : option Asset) : M string :=
    match chunk with
    | Some a => ret (name a)
    | None => throw (TypeError "Cannot read property 'name' of undefined")
    end.

Definition workaroundEmptyStyleChunk (outDir : string) (stats : Stats) : M unit :=
    do styleChunk <- find_asset is_style_chunk stats in
    do styleChunkName <- name_of styleChunk in
    let styleChunkPath := path_resolve outDir styleChunkName in
    do styleChunkContent <- readFile styleChunkPath in
    rimraf styleChunkPath >>
    do appChunk <- find_asset is_app_chunk stats in
    do appChunkName <- name_of appChunk in
    let appChunkPath := path_resolve outDir appChunkName in
    do appChunkContent <- readFile appChunkPath in
    writeFile appChunkPath (styleChunkContent +:+ appChunkContent).

  (** *** [async function renderPage (page)] *)

  (** [page.frontmatter && page.frontmatter.meta] *)
Definition page_meta (page : Page) : option (list JsObject) :=
    match frontmatter page with
    | Some fm => meta fm
    | None => None
    end.

Definition page_context (userHeadTags : string) (page : Page) : RenderContext :=
    {| url := path page;
       userHeadTags := userHeadTags;
       pageMeta := renderPageMeta (page_meta page);
       title := "VuePress";
       lang := "en" |}.

  (** [pagePath.replace(/^\//, '')] *)
Definition strip_leading_slash (pagePath : string) : string :=
    match pagePath with
    | String c rest => if Ascii.eqb c "/" then rest else pagePath
    | EmptyString => pagePath
    end.

  (** [pagePath === '/' ? 'index.html' : pagePath.replace(/^\//, '')] *)
Definition page_filename (pagePath : string) : string :=
    if String.eqb pagePath "/" then "index.html" else strip_leading_slash pagePath.

  (** A call of [renderPage] between two steps: suspended at one of its
      three [await]s, with the local variables the rest of the body reads,
      or returned.  At the first [await] the outcome of the render is what
      the promise of [renderToString] settles with. *)
Inductive Call : Type :=
| AwaitRender (pagePath : string) (outcome : RenderResult)
| AwaitMkdirp (filePath html : string)
| AwaitWriteFile (filePath html : string)
| Settled.

  (** Lines 110 to 123: [renderPage(page)] from the call to the first
      [await]; [renderer.renderToString(context)] has been called. *)
Definition renderPage_start (renderer : RenderContext -> RenderResult)
      (userHeadTags : string) (page : Page) : M Call :=
    let pagePath := path page in
    let context := page_context userHeadTags page in
    emit (EvRender context) >>
    ret (AwaitRender pagePath (renderer context)).

  (** Lines 123 to 133: the body from one [await] to the next, or to the
      end.  A rejected render is caught and logged, and the function
      returns; a failed [mkdirp] or [writeFile] is thrown on, as is
      whatever the [catch] block itself throws. *)
Definition resume (outDir : string) (t : Call) : M Call :=
    match t with
    | AwaitRender pagePath (Rejected e) =>
        console_error (chalk_red ("Error rendering " +:+ pagePath +:+ ":")) >>
        do stack <- lift (stack_of e) in
        console_error stack >>
        ret Settled
    | AwaitRender pagePath (Rendered html) =>
        let filename := page_filename pagePath in
        let filePath := path_resolve outDir filename in
        mkdirp_call (path_dirname filePath) >>
        ret (AwaitMkdirp filePath html)
    | AwaitMkdirp filePath html =>
        mkdirp_done (path_dirname filePath) >>
        writeFile_call filePath html >>
        ret (AwaitWriteFile filePath html)
    | AwaitWriteFile filePath html =>
        writeFile_done filePath html >>
        ret Settled
    | Settled => ret Settled
    end.

  (** A call run to its end with nothing else running meanwhile: at most
      three [await]s lie ahead. *)
Definition settle (outDir : string) (t : Call) : M Call :=
    do t1 <- resume outDir t in
    do t2 <- resume outDir t1 in
    resume outDir t2.

  (** [await renderPage(page)] *)
Definition renderPage (renderer : RenderContext -> RenderResult)
      (outDir userHeadTags : string) (page : Page) : M unit :=
    do t <- renderPage_start renderer userHeadTags page in
    settle outDir t >> ret tt.

  (** *** The page loop of [build]

      [pages.map(renderPage)] calls [renderPage] for every page in turn;
      each call runs to its first [await], so every render is requested
      before anything is written.  [await Promise.all(...)] then lets the
      event loop resume the calls, one step at a time, in the order
      [resume_order]; calls that this order leaves unfinished are run to
      their end in the order of the pages.  A step that throws rejects the
      promise of its call, hence that of [Promise.all] and that of the
      build: the outcome and the world are those of the moment the build is
      rejected, and the calls still in flight are not followed further. *)

  (** The event loop resuming the calls in the given order. *)
Fixpoint run_schedule (outDir : string) (order : list nat) (calls : list Call)
      : M (list Call) :=
    match order with
    | [] => ret calls
    | i :: order' =>
        match calls !! i with
        | Some t =>
            do t' <- resume outDir t in
            run_schedule outDir order' (<[i := t']> calls)
        | None => run_schedule outDir order' calls
        end
    end.

  (** Each of [n] calls in turn, three steps each. *)
Definition settle_order (n : nat) : list nat :=
    flat_map (fun i => [i; i; i]) (seq 0 n).

  (** [await Promise.all(calls)] *)
Definition promise_all (outDir : string) (calls : list Call) : M unit :=
    run_schedule outDir (resume_order ++ settle_order (length calls)) calls >>
    ret tt.

Definition has_custom_404 (pages : list Page) : bool :=
    existsb (fun p => String.eqb (path p) "/404.html") pages.

Definition default_404 : Page := {| path := "/404.html"; frontmatter := None |}.

  (** Lines 58 to 64 of [build]. *)
Definition render_pages (renderer : RenderContext -> RenderResult)
      (outDir userHeadTags : string) (pages : list Page) : M unit :=
    do calls <- map_each (renderPage_start renderer userHeadTags) pages in
    promise_all outDir calls >>
    if negb (has_custom_404 pages)
    then renderPage renderer outDir userHeadTags default_404
    else ret tt.

  (** [(options.siteConfig.head || []).map(renderHeadTag).join('\n  ')] *)
Definition render_user_head_tags (head : option (list HeadTagSpec)) : string :=
    Str.join (Str.newline +:+ "  ") (map renderHeadTag (default [] head)).

  (** [if (cliOptions.outDir) { options.outDir = cliOptions.outDir }] *)
Definition apply_cli (prepared : SiteOptions) (cliOutDir : option string) : SiteOptions :=
    match cliOutDir with
    | Some d =>
        if String.eqb d "" then prepared
        else {| outDir := d; head := head prepared; pages := pages prepared |}
    | None => prepared
    end.

Definition success_message (outDir : string) : string :=
    Str.newline +:+ chalk_green "Success!" +:+ " Generated static files in " +:+
    chalk_cyan (path_relative_cwd outDir) +:+ ".".

  (** *** [module.exports = async function build (sourceDir, cliOptions = {})]

      [prepared] is what [await prepare(sourceDir)] returned. *)
Definition build (prepared : SiteOptions) (cliOutDir : option string) : M unit :=
    let options := apply_cli prepared cliOutDir in
    let outDir := outDir options in
    rimraf outDir >>
    do stats <- compile options in
    do serverBundle <- require_json (path_resolve outDir "manifest/server.json") in
    do clientManifest <- require_json (path_resolve outDir "manifest/client.json") in
    rimraf (path_resolve outDir "manifest") >>
    workaroundEmptyStyleChunk outDir stats >>
    do template <- readFile template_path in
    let renderer := createBundleRenderer serverBundle clientManifest template in
    let userHeadTags := render_user_head_tags (head options) in
    render_pages renderer outDir userHeadTags (pages options) >>
    console_log (success_message outDir).

End Build.

(** ** A POSIX instance of the externals, for concrete scenarios *)

Module Posix.

  (** The segments of a path between slashes. *)
Fixpoint split_slash (cur : string) (s : string) : list string :=
    match s with
    | EmptyString => [String.rev cur]
    | String c s' =>
        if Ascii.eqb c "/" then String.rev cur :: split_slash EmptyString s'
        else split_slash (String c cur) s'
    end.

  (** Drop empty and [.] segments, let [..] cancel the segment before it.
      [acc] holds the kept segments, last first. *)
Fixpoint normalize (acc : list string) (segs : list string) : list string :=
    match segs with
    | [] => rev acc
    | seg :: rest =>
        if String.eqb seg "" || String.eqb seg "." then normalize acc rest
        else if String.eqb seg ".." then normalize (tail acc) rest
        else normalize (seg :: acc) rest
    end.

Definition absolute (s : string) : bool := String.prefix "/" s.

Definition of_segments (segs : list string) : string :=
    "/" +:+ String.concat "/" segs.

Definition segments (p : string) : list string :=
    normalize [] (split_slash EmptyString p).

  (** [path.resolve(a, b)] with the working directory [cwd]. *)
Definition resolve (cwd a b : string) : string :=
    if absolute b then of_segments (segments b)
    else if absolute a then of_segments (segments (a +:+ "/" +:+ b))
    else of_segments (segments (cwd +:+ "/" +:+ a +:+ "/" +:+ b)).

  (** [path.dirname(p)] of an absolute normalized path. *)
Definition dirname (p : string) : string :=
    of_segments (removelast (segments p)).

Fixpoint drop_common (a b : list string) : list string * list string :=
    match a, b with
    | x :: a', y :: b' => if String.eqb x y then drop_common a' b' else (a, b)
    | _, _ => (a, b)
    end.

  (** [path.relative(cwd, p)] *)
Definition relative (cwd p : string) : string :=
    let '(ups, downs) := drop_common (segments cwd) (segments (resolve cwd cwd p)) in
    String.concat "/" (map (fun _ => "..") ups ++ downs).

End Posix.

(** * Vocabulary of the properties *)

(** ** The head tag renderer, in the words of its description *)

(** One attribute: [name="value"], the value as it is. *)
Definition attr_text (kv : string * string) : string :=
  kv.1 +:+ "=" +:+ Str.dquote +:+ kv.2 +:+ Str.dquote.

(** The attributes of an open tag: nothing for an empty mapping, else a
    space and the attributes separated by single spaces, in order. *)
Definition attrs_text (o : JsObject) : string :=
  match o with
  | [] => ""
  | _ :: _ => " " +:+ Str.join " " (map attr_text o)
  end.

(** The closing tag: none for [link] and [meta], [</tag>] for all others. *)
Definition closing_text (tag : string) : string :=
  if decide (tag = "link" \/ tag = "meta") then "" else "</" +:+ tag +:+ ">".

(** One [<meta ...>] tag: every attribute preceded by a space, no closing tag. *)
Definition meta_text (m : JsObject) : string :=
  "<meta" +:+ String.concat "" (map (fun kv => " " +:+ attr_text kv) m) +:+ ">".

(** The head tag as the description words it: [link] and [meta] get the
    open tag and nothing more, every other tag the open tag, the inner
    HTML and the closing tag. *)
Definition head_tag_as_described (t : HeadTagSpec) : string :=
  let open := "<" +:+ tag t +:+ attrs_text (default [] (attrs t)) +:+ ">" in
  if decide (tag t = "link" \/ tag t = "meta") then open
  else open +:+ default "" (innerHTML t) +:+ "</" +:+ tag t +:+ ">".

(** ** The file system *)

(** The file system is a tree: no file lies beneath another file. *)
Definition fs_wf (m : FS) : Prop :=
  map_Forall (fun p _ => map_Forall (fun q _ => under p q = true -> q = p) m) m.

Global Instance fs_wf_dec (m : FS) : Decision (fs_wf m).
Proof. unfold fs_wf. apply _. Defined.

(** Nothing of the directory [d] is left. *)
Definition absent_tree (d : string) (m : FS) : Prop :=
  forall k, under d k = true -> m !! k = None.

(** ** Vocabulary for the page loop *)

(** The file a page is written to. *)
Definition page_file {E : Externals} (outDir : string) (page : Page) : string :=
  path_resolve outDir (page_filename (path page)).

(** The pages the loop renders: the site's pages, and the default 404 page
    when the site has none of its own. *)
Definition all_pages (pages : list Page) : list Page :=
  pages ++ (if has_custom_404 pages then [] else [default_404]).

(** The render of the page succeeds. *)
Definition rendered_ok (renderer : RenderContext -> RenderResult) (userHeadTags : string)
    (page : Page) : bool :=
  match renderer (page_context userHeadTags page) with
  | Rendered _ => true
  | Rejected _ => false
  end.

(** The calls one [renderPage] call makes when it runs to its end, in the
    order it makes them: the render, then either the creation of the
    directory and the writing of the file, or the two lines on the error
    console (the first only, when reading the stack throws). *)
Definition page_events {E : Externals} (renderer : RenderContext -> RenderResult)
    (outDir userHeadTags : string) (page : Page) : list Event :=
  let context := page_context userHeadTags page in
  match renderer context with
  | Rendered html =>
      [EvRender context;
       EvMkdirp (path_dirname (page_file outDir page));
       EvWriteFile (page_file outDir page) html]
  | Rejected e =>
      EvRender context ::
      EvConsoleError (chalk_red ("Error rendering " +:+ path page +:+ ":")) ::
      match stack_of e with
      | Returned stack => [EvConsoleError stack]
      | Threw _ => []
      end
  end.

(** The event is one of the calls made for a page of [l]. *)
Definition page_event_of {E : Externals} (renderer : RenderContext -> RenderResult)
    (outDir userHeadTags : string) (l : list Page) (ev : Event) : Prop :=
  exists page, In page l /\ In ev (page_events renderer outDir userHeadTags page).

(** The file [k] holds the HTML of a page of [l] that is written to [k]. *)
Definition holds_page {E : Externals} (renderer : RenderContext -> RenderResult)
    (outDir userHeadTags : string) (l : list Page) (m : FS) (k : string) : Prop :=
  exists page html,
    In page l /\ page_file outDir page = k /\
    renderer (page_context userHeadTags page) = Rendered html /\
    m !! k = Some html.

(** The calls that the [renderPage] call of [page] has made when it is in
    the state [t]. *)
Definition call_events {E : Externals} (renderer : RenderContext -> RenderResult)
    (outDir userHeadTags : string) (page : Page) (t : Call) : list Event :=
  let context := page_context userHeadTags page in
  let file := page_file outDir page in
  match t with
  | AwaitRender _ _ => [EvRender context]
  | AwaitMkdirp _ _ => [EvRender context; EvMkdirp (path_dirname file)]
  | AwaitWriteFile _ html =>
      [EvRender context; EvMkdirp (path_dirname file); EvWriteFile file html]
  | Settled => page_events renderer outDir userHeadTags page
  end.

(** The state [t] is a state of the [renderPage] call of [page], the
    events [evs] hold the calls it has made, and once it has returned its
    file, if it rendered, holds the HTML of a page written to that file. *)
Definition call_inv {E : Externals} (renderer : RenderContext -> RenderResult)
    (outDir userHeadTags : string) (l : list Page) (evs : list Event) (m : FS)
    (page : Page) (t : Call) : Prop :=
  let context := page_context userHeadTags page in
  incl (call_events renderer outDir userHeadTags page t) evs /\
  match t with
  | AwaitRender pagePath outcome =>
      pagePath = path page /\ outcome = renderer context
  | AwaitMkdirp filePath html | AwaitWriteFile filePath html =>
      filePath = page_file outDir page /\ renderer context = Rendered html
  | Settled =>
      (forall html, renderer context = Rendered html ->
         holds_page renderer outDir userHeadTags l m (page_file outDir page)) /\
      (forall e, renderer context = Rejected e -> exists stack, stack_of e = Returned stack)
  end.

(** The steps a call in the state [t] has ahead of it, at most. *)
Definition steps_left (t : Call) : nat :=
  match t with
  | AwaitRender _ _ => 3
  | AwaitMkdirp _ _ => 2
  | AwaitWriteFile _ _ => 1
  | Settled => 0
  end.

(** What makes the page loop reject with [e]: for a page of [l] that
    rendered, the creation of its directory or the writing of its file
    fails with [e]; or the render of a page of [l] is rejected with a value
    whose stack cannot be read, [e] being what that reading throws. *)
Definition page_loop_failure {E : Externals} (renderer : RenderContext -> RenderResult)
    (outDir userHeadTags : string) (l : list Page) (e : JsError) : Prop :=
  exists page, In page l /\
    match renderer (page_context userHeadTags page) with
    | Rendered html =>
        (exists w, mkdirp_error w (path_dirname (page_file outDir page)) = Some e) \/
        (exists w part, writeFile_result w (page_file outDir page) html = WriteFailed e part)
    | Rejected r => stack_of r = Threw e
    end.

(** [evs] are the events of a run of the page loop over the pages [l]
    from the world [w0] to the world [w]: every one of them is a call made
    for one of these pages, and no file has changed but the files of the
    pages that rendered. *)
Definition page_loop_run {E : Externals} (renderer : RenderContext -> RenderResult)
    (outDir userHeadTags : string) (l : list Page) (w0 w : World) (evs : list Event)
    : Prop :=
  trace w = trace w0 ++ evs /\
  Forall (page_event_of renderer outDir userHeadTags l) evs /\
  forall k,
    (forall page, In page l -> rendered_ok renderer userHeadTags page = true ->
       page_file outDir page <> k) ->
    fs w !! k = fs w0 !! k.

Section Phases.

Context {E : Externals}.

(** Lines 25 to 51 of [build]: all that comes before the page loop. *)
Definition prepare_renderer (options : SiteOptions) : M (RenderContext -> RenderResult) :=
  let outDir := outDir options in
  rimraf outDir >>
  do stats <- compile options in
  do serverBundle <- require_json (path_resolve outDir "manifest/server.json") in
  do clientManifest <- require_json (path_resolve outDir "manifest/client.json") in
  rimraf (path_resolve outDir "manifest") >>
  workaroundEmptyStyleChunk outDir stats >>
  do template <- readFile template_path in
  ret (createBundleRenderer serverBundle clientManifest template).

(** Lines 42 to 68 of [build]: all that comes after the manifest directory
    has been removed. *)
Definition finish_build (options : SiteOptions) (stats : Stats)
    (serverBundle clientManifest : string) : M unit :=
  let outDir := outDir options in
  workaroundEmptyStyleChunk outDir stats >>
  do template <- readFile template_path in
  let renderer := createBundleRenderer serverBundle clientManifest template in
  let userHeadTags := render_user_head_tags (head options) in
  render_pages renderer outDir userHeadTags (pages options) >>
  console_log (success_message outDir).

End Phases.

(** The paths of the [writeFile] calls, in order. *)
Definition written_paths (evs : list Event) : list string :=
  flat_map (fun ev => match ev with EvWriteFile p _ => [p] | _ => [] end) evs.

(** The contexts rendered, in order. *)
Definition rendered_contexts (evs : list Event) : list RenderContext :=
  flat_map (fun ev => match ev with EvRender ctx => [ctx] | _ => [] end) evs.

(** The events of a run from [w] to [w']. *)
Definition events_since (w w' : World) : list Event :=
  drop (length (trace w)) (trace w').

(** Every event a computation adds to the trace satisfies [P]. *)
Definition emits_only (P : Event -> Prop) {A : Type} (m : M A) : Prop :=
  forall w r w', m w = (r, w') -> exists evs, trace w' = trace w ++ evs /\ Forall P evs.


(** A render event carries the fixed title and language and the head tags
    [uht]. *)
Definition context_fixed (uht : string) (ev : Event) : Prop :=
  forall ctx, ev = EvRender ctx ->
    title ctx = "VuePress" /\ lang ctx = "en" /\ userHeadTags ctx = uht.

(** ** A concrete site, for the scenarios *)

Module Demo.

Definition cwd : string := "/work".
Definition out : string := "/work/dist".
Definition template : string := "/pkg/lib/app/index.ssr.html".

Definition client_target : TargetStats :=
  {| assets := [ {| name := "styles.ab12cd34.js" |};
                 {| name := "app.ef56gh78.js" |};
                 {| name := "manifest/client.json" |} ] |}.

Definition server_target : TargetStats :=
  {| assets := [ {| name := "manifest/server.json" |} ] |}.

(** The report of [compile([clientConfig, serverConfig])]: client first. *)
Definition report : Stats :=
  {| hasErrors := false; errors := []; children := [client_target; server_target] |}.

(** The files webpack leaves in the output directory. *)
Definition emitted (m : FS) : FS :=
  <["/work/dist/manifest/server.json" := "{}"]>
  (<["/work/dist/manifest/client.json" := "{}"]>
  (<["/work/dist/styles.ab12cd34.js" := "S"]>
  (<["/work/dist/app.ef56gh78.js" := "A"]> m))).

Definition webpack_ok (_ : SiteOptions) (m : FS) : WebpackResult * FS :=
  (WebpackDone report, emitted m).

(** A compilation with two target level errors. *)
Definition failed_report : Stats :=
  {| hasErrors := true;
     errors := ["(client) Module not found: ./missing"; "(server) Unexpected token"];
     children := [ {| assets := [] |}; {| assets := [] |} ] |}.

Definition webpack_failing (_ : SiteOptions) (m : FS) : WebpackResult * FS :=
  (WebpackDone failed_report, m).

(** A renderer that fails on two pages: on [/broken.html] with an error
    object, on [/undefined.html] with the value [undefined]. *)
Definition renderer (_ _ _ : string) (ctx : RenderContext) : RenderResult :=
  if String.eqb (url ctx) "/broken.html"
  then Rejected (RenderFailure "Error: broken component")
  else if String.eqb (url ctx) "/undefined.html"
  then Rejected JsUndefined
  else Rendered ("<html>" +:+ url ctx +:+ "</html>").

(** [rimraf]: a path that is a file as it stands is removed; any other
    path is resolved against the working directory and removed with all
    that lies beneath it. *)
Definition rimraf (p : string) (m : FS) : FS :=
  if decide (is_Some (m !! p))
  then filter (fun kv => under p kv.1 = false) m
  else filter (fun kv => under p kv.1 = false /\
                         under (Posix.resolve cwd p "") kv.1 = false) m.

(** [p] is a directory: a file lies beneath it, or [mkdirp] was called
    for it or for a directory beneath it. *)
Definition is_dir (w : World) (p : string) : bool :=
  existsb (fun kv => under p kv.1 && negb (String.eqb kv.1 p)) (map_to_list (fs w))
  || existsb (fun ev => match ev with EvMkdirp d => under p d | _ => false end) (trace w).

(** A file lies on the way from the root to [p]. *)
Definition file_above (w : World) (p : string) : bool :=
  existsb (fun kv => under kv.1 p && negb (String.eqb kv.1 p)) (map_to_list (fs w)).

(** [mkdirp] fails when the path, or a path above it, is a file. *)
Definition mkdirp_fault (w : World) (p : string) : option JsError :=
  if decide (is_Some (fs w !! p)) then Some (EEXIST p)
  else if file_above w p then Some (ENOTDIR p)
  else None.

(** [writeFile] fails when the path is a directory or a path above it is
    a file. *)
Definition writeFile_fault (w : World) (p : string) (_ : string) : WriteResult :=
  if is_dir w p then WriteFailed (EISDIR p) None
  else if file_above w p then WriteFailed (ENOTDIR p) None
  else Written.

(** The event loop takes the calls in turn, one step each, three times
    over (the first eight; the others run to their end after them). *)
Definition round_robin : list nat := seq 0 8 ++ seq 0 8 ++ seq 0 8.

Lemma rimraf_sub (p : string) (m : FS) (k x : string) :
  rimraf p m !! k = Some x -> m !! k = Some x.
Proof.
  unfold rimraf. destruct (decide (is_Some (m !! p))); intros H;
    apply map_lookup_filter_Some in H; tauto.
Qed.

Lemma rimraf_tree (p : string) (m : FS) (k : string) :
  under p k = true -> rimraf p m !! k = None.
Proof.
  intros Hu. unfold rimraf. destruct (decide (is_Some (m !! p)));
    apply map_lookup_filter_None; right; intros x _; simpl; [congruence |].
  intros [H _]. congruence.
Qed.

Lemma rimraf_file (p : string) (m : FS) (k : string) :
  is_Some (m !! p) -> under p k = false -> rimraf p m !! k = m !! k.
Proof.
  intros Hp Hu. unfold rimraf. destruct (decide (is_Some (m !! p))); [| contradiction].
  destruct (m !! k) as [x|] eqn:Hk.
  - apply map_lookup_filter_Some. auto.
  - apply map_lookup_filter_None. auto.
Qed.

Definition node_with (wp : SiteOptions -> FS -> WebpackResult * FS) : Externals :=
  {| path_resolve := Posix.resolve cwd;
     path_dirname := Posix.dirname;
     path_relative_cwd := Posix.relative cwd;
     chalk_red := fun s => s;
     chalk_green := fun s => s;
     chalk_cyan := fun s => s;
     webpack := wp;
     json_parse := fun s => Some s;
     createBundleRenderer := renderer;
     template_path := template;
     rimraf_fs := rimraf;
     mkdirp_error := mkdirp_fault;
     writeFile_result := writeFile_fault;
     resume_order := round_robin;
     rimraf_only_removes := rimraf_sub;
     rimraf_removes_tree := fun a b => rimraf_tree (Posix.resolve cwd a b);
     rimraf_of_file := fun a b => rimraf_file (Posix.resolve cwd a b) |}.

Definition node : Externals := node_with webpack_ok.

(** Before the build: the packaged template and a stale output file. *)
Definition disk : FS :=
  <[template := "<div id=app></div>"]> (<["/work/dist/old.html" := "stale"]> ∅).

Definition start : World := {| fs := disk; trace := [] |}.

(** Right after a successful compilation. *)
Definition compiled : World := {| fs := emitted (rimraf out disk); trace := [] |}.

Definition page (p : string) : Page := {| path := p; frontmatter := None |}.

Definition site (ps : list string) : SiteOptions :=
  {| outDir := out; head := None; pages := map page ps |}.

(** The same site with the output directory given relative to the working
    directory, as on the command line. *)
Definition site_relative (ps : list string) : SiteOptions :=
  {| outDir := "dist/"; head := None; pages := map page ps |}.

End Demo.

(** ** The claims that fail as they are worded *)

(** The claim as the description words it: the chunks are looked up in the
    asset list of the server target, the second of the report. *)
Definition chunks_searched_in_server_list {E : Externals}
    (outDir : string) (stats : Stats) (w : World) : Prop :=
  forall client server w',
    children stats = [client; server] ->
    workaroundEmptyStyleChunk outDir stats w = (Returned tt, w') ->
    exists style app,
      List.find is_style_chunk (assets server) = Some style /\
      List.find is_app_chunk (assets server) = Some app /\
      In (EvReadFile (path_resolve outDir (name style))) (trace w') /\
      In (EvReadFile (path_resolve outDir (name app))) (trace w').

(** All the assets of a report, target after target. *)
Definition report_assets (stats : Stats) : list Asset :=
  flat_map assets (children stats).

(** The claim as the description words it: whenever the report, whichever
    of its targets, holds exactly one asset passing the style pattern and
    exactly one passing the app pattern, with the file contents [S] and
    [A], the step ends with [S] followed by [A] in the app chunk file and
    without the style chunk file. *)
Definition stitched_whichever_target {E : Externals}
    (outDir : string) (stats : Stats) (w : World) : Prop :=
  forall style app S A,
    List.filter is_style_chunk (report_assets stats) = [style] ->
    List.filter is_app_chunk (report_assets stats) = [app] ->
    fs w !! path_resolve outDir (name style) = Some S ->
    fs w !! path_resolve outDir (name app) = Some A ->
    exists w',
      workaroundEmptyStyleChunk outDir stats w = (Returned tt, w') /\
      fs w' !! path_resolve outDir (name app) = Some (S +:+ A) /\
      fs w' !! path_resolve outDir (name style) = None.



(** The second half of the claim as the description words it: after every
    successful build nothing is left of the manifest directory. *)
Definition manifest_absent_after_success {E : Externals}
    (prepared : SiteOptions) (cliOutDir : option string) (w : World) : Prop :=
  forall w',
    build prepared cliOutDir w = (Returned tt, w') ->
    absent_tree (path_resolve (outDir (apply_cli prepared cliOutDir)) "manifest") (fs w').

(** ** Vocabulary for the further properties *)

(** What [require] gives for the file [p] of the file system [m]. *)
Definition loadable {E : Externals} (m : FS) (p : string) : option string :=
  match m !! p with
  | Some content => json_parse content
  | None => None
  end.

(** All that a build needs to get to its page loop, the stitched chunk
    apart: a compilation without errors; both manifests there and JSON; in
    the first target of the report a style chunk and an app chunk whose
    files are there once the manifest directory is removed (the app
    chunk's also once the style chunk is removed); and the packaged
    template, still there after all this.  [m] is the file system as
    webpack left it, [m3] as the page loop finds it. *)
Definition build_ready {E : Externals} (options : SiteOptions) (w : World)
    (stats : Stats) (m : FS) (sb cm : string) (style app : Asset) (S A tpl : string)
    (m3 : FS) : Prop :=
  let out := outDir options in
  let sp := path_resolve out (name style) in
  let ap := path_resolve out (name app) in
  let m1 := rimraf_fs (path_resolve out "manifest") m in
  webpack options (rimraf_fs out (fs w)) = (WebpackDone stats, m) /\
  hasErrors stats = false /\
  loadable m (path_resolve out "manifest/server.json") = Some sb /\
  loadable m (path_resolve out "manifest/client.json") = Some cm /\
  (exists target rest,
     children stats = target :: rest /\
     List.find is_style_chunk (assets target) = Some style /\
     List.find is_app_chunk (assets target) = Some app) /\
  m1 !! sp = Some S /\
  rimraf_fs sp m1 !! ap = Some A /\
  m3 = <[ap := S +:+ A]> (rimraf_fs sp m1) /\
  m3 !! template_path = Some tpl.

(** The operations of a build up to its page loop, in order, when all of
    them succeed. *)
Definition setup_events {E : Externals} (out : string) (style app : Asset) (S A : string)
    : list Event :=
  let sp := path_resolve out (name style) in
  let ap := path_resolve out (name app) in
  [EvRimraf out; EvWebpack;
   EvRequire (path_resolve out "manifest/server.json");
   EvRequire (path_resolve out "manifest/client.json");
   EvRimraf (path_resolve out "manifest");
   EvReadFile sp; EvRimraf sp; EvReadFile ap; EvWriteFile ap (S +:+ A);
   EvReadFile template_path].

(** Further scenarios on the concrete site. *)
Module Cases.

(** The webpack call itself fails. *)
Definition webpack_broken (_ : SiteOptions) (m : FS) : WebpackResult * FS :=
  (WebpackErr (WebpackFailure "Error: invalid configuration object"), m).

(** A compilation that leaves the chunks but no server manifest. *)
Definition webpack_no_server_manifest (_ : SiteOptions) (m : FS) : WebpackResult * FS :=
  (WebpackDone Demo.report,
   <["/work/dist/manifest/client.json" := "{}"]>
   (<["/work/dist/styles.ab12cd34.js" := "S"]>
   (<["/work/dist/app.ef56gh78.js" := "A"]> m))).

(** A report whose first target lists no style chunk. *)
Definition report_no_style : Stats :=
  {| hasErrors := false; errors := [];
     children := [ {| assets := [ {| name := "app.ef56gh78.js" |} ] |}; Demo.server_target ] |}.

(** A report whose first target lists a style chunk and no app chunk. *)
Definition report_no_app : Stats :=
  {| hasErrors := false; errors := [];
     children := [ {| assets := [ {| name := "styles.ab12cd34.js" |} ] |}; Demo.server_target ] |}.

(** A report with exactly one style chunk and one app chunk, both listed
    by its second target. *)
Definition report_chunks_in_second : Stats :=
  {| hasErrors := false; errors := [];
     children := [ {| assets := [ {| name := "manifest/client.json" |} ] |};
                   {| assets := [ {| name := "styles.ab12cd34.js" |};
                                  {| name := "app.ef56gh78.js" |};
                                  {| name := "manifest/server.json" |} ] |} ] |}.

End Cases.

(** * Properties *)

(** A decidable proposition settled by evaluation. *)
Ltac by_decide := apply (bool_decide_unpack _); vm_compute; exact I.

(** ** Strings *)

Module StrFacts.

Lemma append_cons (c : ascii) (a b : string) :
    String c a +:+ b = String c (a +:+ b).
Proof. reflexivity. Qed.

Lemma append_nil_l (s : string) : "" +:+ s = s.
Proof. reflexivity. Qed.

Lemma append_nil_r (s : string) : s +:+ "" = s.
Proof.
    induction s as [|c s IH]; [reflexivity |].
    rewrite append_cons, IH. reflexivity.
Qed.

Lemma append_assoc (a b c : string) : (a +:+ b) +:+ c = a +:+ (b +:+ c).
Proof.
    induction a as [|x a IH]; [reflexivity |].
    rewrite !append_cons, IH. reflexivity.
Qed.

End StrFacts.

(** ** Objects read through their keys *)

Lemma obj_get_in (o : JsObject) (k v : string) :
  obj_wf o -> In (k, v) o -> obj_get o k = v.
Proof.
  unfold obj_wf, obj_keys.
  induction o as [|[k0 v0] o IH]; simpl; intros Hnd Hin; [contradiction |].
  apply NoDup_cons in Hnd as [Hnotin Hnd].
  destruct Hin as [Heq | Hin].
  - injection Heq as -> ->. now rewrite String.eqb_refl.
  - destruct (String.eqb_spec k0 k) as [-> | _]; [| now apply IH].
    exfalso. apply Hnotin. apply list_elem_of_In.
    change k with (fst (k, v)). now apply in_map.
Qed.

(** Rendering the keys with the values read back is rendering the pairs. *)
Lemma map_keys_pairs (g : string -> string -> string) (o : JsObject) :
  obj_wf o ->
  map (fun name => g name (obj_get o name)) (obj_keys o) =
  map (fun kv => g kv.1 kv.2) o.
Proof.
  intros Hwf. unfold obj_keys. rewrite map_map.
  apply map_ext_in. intros [k v] Hin. simpl.
  now rewrite (obj_get_in o k v Hwf Hin).
Qed.

Lemma fold_append_concat (f : string -> string) (l : list string) (acc : string) :
  fold_left (fun res key => res +:+ f key) l acc =
  acc +:+ String.concat "" (map f l).
Proof.
  revert acc. induction l as [|x l IH]; intros acc; simpl.
  - now rewrite StrFacts.append_nil_r.
  - rewrite IH, StrFacts.append_assoc. f_equal.
    destruct l as [|y l]; simpl; [now rewrite StrFacts.append_nil_r | reflexivity].
Qed.

(** ** The head tag renderer against its description *)

Lemma renderAttrs_text (o : JsObject) :
  obj_wf o -> renderAttrs (Some o) = attrs_text o.
Proof.
  intros Hwf. unfold renderAttrs. simpl.
  destruct o as [|kv o]; [reflexivity |].
  change (negb (length (obj_keys (kv :: o)) =? 0)) with true. cbv iota.
  unfold attrs_text. f_equal. f_equal.
  exact (map_keys_pairs (fun k v => k +:+ "=" +:+ Str.dquote +:+ v +:+ Str.dquote)
           (kv :: o) Hwf).
Qed.

Lemma needsClosing_text (tag : string) :
  (if needsClosing tag then "</" +:+ tag +:+ ">" else "") = closing_text tag.
Proof.
  unfold needsClosing, closing_text.
  destruct (String.eqb_spec tag "link") as [H1|H1];
    destruct (String.eqb_spec tag "meta") as [H2|H2]; simpl;
    destruct (decide (tag = "link" \/ tag = "meta")) as [H|H];
    try reflexivity; tauto.
Qed.

(** C6, as stated, fails: a [meta] tag with inner HTML gets that inner
    HTML after its open tag, where the description gives it the open tag
    only. *)
Lemma head_tag_as_described_fails :
  let t := {| tag := "meta"; attrs := None; innerHTML := Some "x" |} in
  renderHeadTag t = "<meta>x" /\
  head_tag_as_described t = "<meta>" /\
  renderHeadTag t <> head_tag_as_described t.
Proof. cbv zeta. split; [reflexivity | split; [reflexivity | discriminate]]. Qed.

(** C6 (amended). For every head tag specification, [renderHeadTag] gives
    the open tag with the attributes (a space and then the space separated
    [name="value"] pairs in the order of the mapping, values not escaped;
    nothing for an empty or missing mapping), then the inner HTML, for
    [link] and [meta] as for every other tag, then the closing tag for
    every tag name other than [link] and [meta]. *)
Theorem renderHeadTag_format (t : HeadTagSpec) :
  obj_wf (default [] (attrs t)) ->
  renderHeadTag t =
    "<" +:+ tag t +:+ attrs_text (default [] (attrs t)) +:+ ">" +:+
    default "" (innerHTML t) +:+ closing_text (tag t).
Proof.
  intros Hwf. unfold renderHeadTag, or_empty.
  rewrite needsClosing_text.
  destruct (attrs t) as [o|]; simpl in *.
  - now rewrite (renderAttrs_text o Hwf).
  - reflexivity.
Qed.

(** The two examples of the description. *)
Example renderHeadTag_meta_charset :
  renderHeadTag {| tag := "meta"; attrs := Some [("charset", "utf-8")]; innerHTML := None |}
  = "<meta charset=" +:+ Str.dquote +:+ "utf-8" +:+ Str.dquote +:+ ">".
Proof. reflexivity. Qed.

Example renderHeadTag_script :
  renderHeadTag {| tag := "script"; attrs := Some []; innerHTML := Some "1" |}
  = "<script>1</script>".
Proof. reflexivity. Qed.

(** A [link] tag with two attributes and inner HTML: the inner HTML
    follows the open tag, and there is no closing tag. *)
Lemma renderHeadTag_format_witness :
  let t := {| tag := "link"; attrs := Some [("rel", "icon"); ("href", "/logo.png")];
              innerHTML := Some "x" |} in
  obj_wf (default [] (attrs t)) /\
  renderHeadTag t =
    "<" +:+ "link" +:+
    (" rel=" +:+ Str.dquote +:+ "icon" +:+ Str.dquote +:+
     " href=" +:+ Str.dquote +:+ "/logo.png" +:+ Str.dquote) +:+ ">" +:+
    "x" +:+ "".
Proof.
  assert (H : obj_wf [("rel", "icon"); ("href", "/logo.png")]).
  { unfold obj_wf. by_decide. }
  split; [exact H |].
  exact (renderHeadTag_format
           {| tag := "link"; attrs := Some [("rel", "icon"); ("href", "/logo.png")];
              innerHTML := Some "x" |} H).
Defined.

(** C9. [renderPageMeta] gives the empty string for a missing sequence,
    and else the [<meta ...>] tags of the entries one after the other with
    nothing between them, in the order of the entries, each with its
    attributes in the order of its mapping, values not escaped, no closing
    tag. *)
Theorem renderPageMeta_format (meta : option (list JsObject)) :
  Forall obj_wf (default [] meta) ->
  renderPageMeta meta =
    match meta with
    | None => ""
    | Some entries => String.concat "" (map meta_text entries)
    end.
Proof.
  destruct meta as [entries|]; simpl; [| reflexivity].
  intros Hwf. unfold Str.join. f_equal.
  apply map_ext_Forall. eapply Forall_impl; [exact Hwf |].
  intros m Hm. simpl. unfold meta_text.
  rewrite (fold_append_concat
             (fun key => " " +:+ key +:+ "=" +:+ Str.dquote +:+ obj_get m key +:+ Str.dquote)).
  rewrite StrFacts.append_assoc.
  rewrite (map_keys_pairs
             (fun k v => " " +:+ k +:+ "=" +:+ Str.dquote +:+ v +:+ Str.dquote) m Hm).
  reflexivity.
Qed.

Example renderPageMeta_two :
  renderPageMeta (Some [[("name", "description"); ("content", "a < b")]; [("charset", "utf-8")]])
  = "<meta name=" +:+ Str.dquote +:+ "description" +:+ Str.dquote +:+
    " content=" +:+ Str.dquote +:+ "a < b" +:+ Str.dquote +:+ ">" +:+
    "<meta charset=" +:+ Str.dquote +:+ "utf-8" +:+ Str.dquote +:+ ">".
Proof. reflexivity. Qed.

Lemma renderPageMeta_format_witness :
  let meta := Some [[("name", "description"); ("content", "a < b")]; [("charset", "utf-8")]] in
  Forall obj_wf (default [] meta) /\
  renderPageMeta meta = String.concat "" (map meta_text (default [] meta)).
Proof.
  assert (H : Forall obj_wf [[("name", "description"); ("content", "a < b")]; [("charset", "utf-8")]]).
  { unfold obj_wf. by_decide. }
  split; [exact H | exact (renderPageMeta_format (Some _) H)].
Defined.

(** ** The chunk name patterns *)

Module RegexFacts.
Import Regex.

Lemma match_here_nil (s : string) : match_here [] s = true <-> s = "".
  Proof. destruct s; simpl; split; intros H; try reflexivity; discriminate. Qed.

Lemma match_here_cons (a : atom) (p : list atom) (s : string) :
    match_here (a :: p) s = true <->
    exists c s', s = String c s' /\ atom_matches a c = true /\ match_here p s' = true.
  Proof.
    destruct s as [|c s']; simpl.
    - split; [discriminate | intros (c & s' & H & _); discriminate].
    - rewrite andb_true_iff. split.
      + intros [H1 H2]. eauto.
      + intros (c0 & s0 & Heq & H1 & H2). injection Heq as -> ->. auto.
  Qed.

Lemma match_here_lits (a : string) (p : list atom) (s : string) :
    match_here (lits a ++ p) s = true <->
    exists r, s = a +:+ r /\ match_here p r = true.
  Proof.
    revert s. induction a as [|c a IH]; intros s.
    - simpl. split; [eauto | intros (r & -> & H); exact H].
    - change (lits (String c a) ++ p) with (Lit c :: (lits a ++ p)).
      rewrite match_here_cons. split.
      + intros (c0 & s' & -> & Hc & Hm). simpl in Hc.
        apply Ascii.eqb_eq in Hc as <-.
        apply IH in Hm as (r & -> & Hr). exists r. split; [reflexivity | exact Hr].
      + intros (r & -> & Hr). exists c, (a +:+ r).
        split; [reflexivity |]. split; [apply Ascii.eqb_refl |].
        apply IH. eauto.
  Qed.

Lemma match_here_words (n : nat) (p : list atom) (s : string) :
    match_here (repeat Word n ++ p) s = true <->
    exists w r, s = w +:+ r /\ String.length w = n /\
                all_chars is_word_char w = true /\ match_here p r = true.
  Proof.
    revert s. induction n as [|n IH]; intros s.
    - simpl. split.
      + intros H. exists "", s. auto.
      + intros (w & r & -> & Hlen & _ & Hr). destruct w; [exact Hr | discriminate].
    - change (repeat Word (S n) ++ p) with (Word :: (repeat Word n ++ p)).
      rewrite match_here_cons. split.
      + intros (c & s' & -> & Hc & Hm). simpl in Hc.
        apply IH in Hm as (w & r & -> & Hlen & Hw & Hr).
        exists (String c w), r. split; [reflexivity |].
        split; [simpl; now rewrite Hlen |].
        split; [| exact Hr]. unfold all_chars. simpl. now rewrite Hc.
      + intros (w & r & -> & Hlen & Hw & Hr).
        destruct w as [|c w]; [discriminate |].
        injection Hlen as Hlen. unfold all_chars in Hw. simpl in Hw.
        apply andb_true_iff in Hw as [Hc Hw].
        exists c, (w +:+ r). split; [reflexivity |]. split; [exact Hc |].
        apply IH. exists w, r. auto.
  Qed.

  (** An unanchored test succeeds when the pattern matches a suffix. *)
Lemma test_iff (p : list atom) (s : string) :
    test p s = true <-> exists pre suf, s = pre +:+ suf /\ match_here p suf = true.
  Proof.
    induction s as [|c s IH].
    - simpl. rewrite orb_false_r. split.
      + intros H. exists "", "". auto.
      + intros (pre & suf & Heq & H).
        destruct pre; [| discriminate]. rewrite StrFacts.append_nil_l in Heq. now subst suf.
    - change (test p (String c s)) with (match_here p (String c s) || test p s).
      rewrite orb_true_iff, IH. split.
      + intros [H | (pre & suf & -> & H)].
        * exists "", (String c s). auto.
        * exists (String c pre), suf. auto.
      + intros (pre & suf & Heq & H). destruct pre as [|d pre].
        * left. rewrite StrFacts.append_nil_l in Heq. now subst suf.
        * right. rewrite StrFacts.append_cons in Heq. injection Heq as -> ->. eauto.
  Qed.

  (** A name passes [/styles\.\w{8}\.js$/] exactly when it ends in
      [styles.], eight word characters and [.js]. *)
Lemma styles_re_iff (s : string) :
    test styles_re s = true <->
    exists pre w, s = pre +:+ "styles." +:+ w +:+ ".js" /\
                  String.length w = 8 /\ all_chars is_word_char w = true.
  Proof.
    rewrite test_iff. unfold styles_re. split.
    - intros (pre & suf & -> & H).
      apply match_here_lits in H as (r1 & -> & H).
      apply match_here_words in H as (w & r2 & -> & Hlen & Hw & H).
      rewrite <- (app_nil_r (lits ".js")) in H.
      apply match_here_lits in H as (r3 & -> & H).
      apply match_here_nil in H as ->.
      exists pre, w. rewrite StrFacts.append_nil_r. auto.
    - intros (pre & w & -> & Hlen & Hw). exists pre, ("styles." +:+ w +:+ ".js").
      split; [reflexivity |].
      apply match_here_lits. exists (w +:+ ".js"). split; [reflexivity |].
      apply match_here_words. exists w, ".js". repeat split; auto.
  Qed.

  (** A name passes [/app\.\w{8}\.js$/] exactly when it ends in [app.],
      eight word characters and [.js]. *)
Lemma app_re_iff (s : string) :
    test app_re s = true <->
    exists pre w, s = pre +:+ "app." +:+ w +:+ ".js" /\
                  String.length w = 8 /\ all_chars is_word_char w = true.
  Proof.
    rewrite test_iff. unfold app_re. split.
    - intros (pre & suf & -> & H).
      apply match_here_lits in H as (r1 & -> & H).
      apply match_here_words in H as (w & r2 & -> & Hlen & Hw & H).
      rewrite <- (app_nil_r (lits ".js")) in H.
      apply match_here_lits in H as (r3 & -> & H).
      apply match_here_nil in H as ->.
      exists pre, w. rewrite StrFacts.append_nil_r. auto.
    - intros (pre & w & -> & Hlen & Hw). exists pre, ("app." +:+ w +:+ ".js").
      split; [reflexivity |].
      apply match_here_lits. exists (w +:+ ".js"). split; [reflexivity |].
      apply match_here_words. exists w, ".js". repeat split; auto.
  Qed.

  (** Hexadecimal digits are word characters: a hashed chunk name passes. *)
Lemma hex_is_word (c : ascii) : is_hex_char c = true -> is_word_char c = true.
  Proof.
    unfold is_hex_char, is_word_char. set (n := nat_of_ascii c).
    rewrite !orb_true_iff, !andb_true_iff, !Nat.leb_le, Nat.eqb_eq. lia.
  Qed.

Lemma all_hex_all_word (w : string) :
    all_chars is_hex_char w = true -> all_chars is_word_char w = true.
  Proof.
    unfold all_chars. rewrite !forallb_forall.
    intros H c Hc. apply hex_is_word, H, Hc.
  Qed.

End RegexFacts.

(** ** The file system *)

Lemma fs_wf_beneath (m : FS) (p q : string) :
  fs_wf m -> is_Some (m !! p) -> is_Some (m !! q) -> under p q = true -> q = p.
Proof.
  intros Hwf [x Hp] [y Hq] Hu.
  exact (map_Forall_lookup_1 _ _ _ _ (map_Forall_lookup_1 _ _ _ _ Hwf Hp) Hq Hu).
Qed.

Lemma under_refl (p : string) : under p p = true.
Proof. unfold under. now rewrite String.eqb_refl. Qed.

Section Removal.

Context {E : Externals}.

(** The path removed is gone. *)
Lemma rimraf_fs_gone (a b : string) (m : FS) :
  rimraf_fs (path_resolve a b) m !! path_resolve a b = None.
Proof. apply rimraf_removes_tree, under_refl. Qed.

(** What is left was there, and lies outside the path removed. *)
Lemma lookup_rimraf_fs_Some (a b : string) (m : FS) (k x : string) :
  rimraf_fs (path_resolve a b) m !! k = Some x ->
  m !! k = Some x /\ under (path_resolve a b) k = false.
Proof.
  intros H. split; [exact (rimraf_only_removes _ _ _ _ H) |].
  destruct (under (path_resolve a b) k) eqn:Hu; [| reflexivity].
  rewrite (rimraf_removes_tree a b m k Hu) in H. discriminate H.
Qed.

Lemma absent_tree_rimraf (a b : string) (m : FS) :
  absent_tree (path_resolve a b) (rimraf_fs (path_resolve a b) m).
Proof. intros k Hk. now apply rimraf_removes_tree. Qed.

Lemma absent_tree_rimraf_other (d p : string) (m : FS) :
  absent_tree d m -> absent_tree d (rimraf_fs p m).
Proof.
  intros H k Hk. destruct (rimraf_fs p m !! k) as [x|] eqn:Hx; [| reflexivity].
  apply rimraf_only_removes in Hx. rewrite (H k Hk) in Hx. discriminate Hx.
Qed.

End Removal.

Lemma absent_tree_insert (d p c : string) (m : FS) :
  under d p = false -> absent_tree d m -> absent_tree d (<[p := c]> m).
Proof.
  intros Hp H k Hk. rewrite lookup_insert_ne; [auto | congruence].
Qed.

(** ** Runs of single operations *)

Section Operations.

Context {E : Externals}.

Lemma bind_run {A B : Type} (m : M A) (k : A -> M B) (w : World) :
  bind m k w =
  match m w with
  | (Returned a, w') => k a w'
  | (Threw e, w') => (Threw e, w')
  end.
Proof. reflexivity. Qed.

Lemma bind_assoc_run {A B C : Type} (m : M A) (k : A -> M B) (h : B -> M C) (w : World) :
  bind (bind m k) h w = bind m (fun a => bind (k a) h) w.
Proof. unfold bind. destruct (m w) as [[a|e] w1]; reflexivity. Qed.

Lemma bind_ext_run {A B : Type} (m : M A) (k k' : A -> M B) (w : World) :
  (forall a w1, k a w1 = k' a w1) -> bind m k w = bind m k' w.
Proof. intros H. unfold bind. destruct (m w) as [[a|e] w1]; [apply H | reflexivity]. Qed.

Lemma rimraf_run (p : string) (w : World) :
  rimraf p w =
  (Returned tt, {| fs := rimraf_fs p (fs w); trace := trace w ++ [EvRimraf p] |}).
Proof. reflexivity. Qed.

Lemma readFile_run (p : string) (w : World) :
  readFile p w =
  let w1 := {| fs := fs w; trace := trace w ++ [EvReadFile p] |} in
  match fs w !! p with
  | Some content => (Returned content, w1)
  | None => (Threw (ENOENT p), w1)
  end.
Proof.
  unfold readFile, bind, emit, get_fs. simpl.
  destruct (fs w !! p); reflexivity.
Qed.

Lemma writeFile_run (p content : string) (w : World) :
  writeFile p content w =
  writeFile_done p content {| fs := fs w; trace := trace w ++ [EvWriteFile p content] |}.
Proof. reflexivity. Qed.

(** A write that returns has put the content in the file and changed
    nothing else. *)
Lemma writeFile_done_returns (p content : string) (w w' : World) :
  writeFile_done p content w = (Returned tt, w') <->
  writeFile_result w p content = Written /\
  w' = {| fs := <[p := content]> (fs w); trace := trace w |}.
Proof.
  unfold writeFile_done.
  destruct (writeFile_result w p content) as [|e [part|]]; split;
    try (intros H; discriminate H); try (intros [H _]; discriminate H).
  - intros H. injection H as <-. auto.
  - intros [_ ->]. reflexivity.
Qed.

Lemma for_each_console_error_run (l : list string) (w : World) :
  for_each console_error l w =
  (Returned tt, {| fs := fs w; trace := trace w ++ map EvConsoleError l |}).
Proof.
  revert w. induction l as [|x l IH]; intros w; simpl.
  - unfold ret. rewrite app_nil_r. now destruct w.
  - unfold bind, console_error, emit. rewrite IH. simpl. now rewrite <- app_assoc.
Qed.

(** [compile] by the outcome of webpack. *)
Lemma compile_run (options : SiteOptions) (w : World) :
  compile options w =
  let t := trace w ++ [EvWebpack] in
  match webpack options (fs w) with
  | (WebpackErr err, m) => (Threw err, {| fs := m; trace := t |})
  | (WebpackDone stats, m) =>
      if hasErrors stats
      then (Threw CompileFailed,
            {| fs := m; trace := t ++ map EvConsoleError (errors stats) |})
      else (Returned stats, {| fs := m; trace := t |})
  end.
Proof.
  unfold compile, run_webpack, bind, emit. simpl.
  destruct (webpack options (fs w)) as [[err|stats] m]; [reflexivity |].
  destruct (hasErrors stats); [| reflexivity].
  rewrite for_each_console_error_run. reflexivity.
Qed.

(** [require] of a JSON file, by what is on disk. *)
Lemma require_json_run (p : string) (w : World) :
  require_json p w =
  let w1 := {| fs := fs w; trace := trace w ++ [EvRequire p] |} in
  match fs w !! p with
  | None => (Threw (ModuleNotFound p), w1)
  | Some content =>
      match json_parse content with
      | Some doc => (Returned doc, w1)
      | None => (Threw (JsonSyntaxError p), w1)
      end
  end.
Proof.
  unfold require_json, bind, emit, get_fs. simpl.
  destruct (fs w !! p) as [content|]; [| reflexivity].
  destruct (json_parse content); reflexivity.
Qed.

End Operations.

(** ** Runs of the asset stitching step *)

Section Stitching.

Context {E : Externals}.

(** When the first target lists a style chunk and an app chunk whose
    files are there, the step reads the style chunk, removes it, reads the
    app chunk and calls [writeFile] with the two contents, style first;
    it ends as that write ends. *)
Lemma workaround_run (outDir : string) (stats : Stats) (target : TargetStats)
    (rest : list TargetStats) (style app : Asset) (S A : string) (w : World) :
  children stats = target :: rest ->
  List.find is_style_chunk (assets target) = Some style ->
  List.find is_app_chunk (assets target) = Some app ->
  let sp := path_resolve outDir (name style) in
  let ap := path_resolve outDir (name app) in
  fs w !! sp = Some S ->
  rimraf_fs sp (fs w) !! ap = Some A ->
  workaroundEmptyStyleChunk outDir stats w =
  writeFile_done ap (S +:+ A)
    {| fs := rimraf_fs sp (fs w);
       trace := trace w ++ [EvReadFile sp; EvRimraf sp; EvReadFile ap;
                            EvWriteFile ap (S +:+ A)] |}.
Proof.
  cbv zeta. intros Hch Hs Ha HS HA.
  unfold workaroundEmptyStyleChunk, find_asset, name_of, readFile, rimraf,
    writeFile, writeFile_call, bind, emit, get_fs, modify_fs, ret, throw.
  rewrite Hch. simpl. rewrite Hs. simpl. rewrite HS. simpl. rewrite Ha. simpl.
  rewrite HA. simpl. rewrite <- !app_assoc. reflexivity.
Qed.

(** A run of the step that returns has found both chunks in the first
    target, has found both files, and its write has succeeded. *)
Lemma workaround_returns_inv (outDir : string) (stats : Stats) (w w' : World) :
  workaroundEmptyStyleChunk outDir stats w = (Returned tt, w') ->
  exists target rest style app S A,
    children stats = target :: rest /\
    List.find is_style_chunk (assets target) = Some style /\
    List.find is_app_chunk (assets target) = Some app /\
    let sp := path_resolve outDir (name style) in
    let ap := path_resolve outDir (name app) in
    fs w !! sp = Some S /\
    rimraf_fs sp (fs w) !! ap = Some A /\
    w' = {| fs := <[ap := S +:+ A]> (rimraf_fs sp (fs w));
            trace := trace w ++ [EvReadFile sp; EvRimraf sp; EvReadFile ap;
                                 EvWriteFile ap (S +:+ A)] |}.
Proof.
  intros Hrun.
  destruct (children stats) as [|target rest] eqn:Hch.
  { unfold workaroundEmptyStyleChunk, find_asset, bind, throw in Hrun.
    rewrite Hch in Hrun. discriminate Hrun. }
  destruct (List.find is_style_chunk (assets target)) as [style|] eqn:Hs.
  2:{ unfold workaroundEmptyStyleChunk, find_asset, name_of, bind, ret, throw in Hrun.
      rewrite Hch in Hrun. simpl in Hrun. rewrite Hs in Hrun. discriminate Hrun. }
  destruct (fs w !! path_resolve outDir (name style)) as [S|] eqn:HS.
  2:{ unfold workaroundEmptyStyleChunk, find_asset, name_of, readFile, bind, emit,
        get_fs, ret, throw in Hrun.
      rewrite Hch in Hrun. simpl in Hrun. rewrite Hs in Hrun. simpl in Hrun.
      rewrite HS in Hrun. discriminate Hrun. }
  destruct (List.find is_app_chunk (assets target)) as [app|] eqn:Ha.
  2:{ unfold workaroundEmptyStyleChunk, find_asset, name_of, readFile, rimraf, bind, emit,
        get_fs, modify_fs, ret, throw in Hrun.
      rewrite Hch in Hrun. simpl in Hrun. rewrite Hs in Hrun. simpl in Hrun.
      rewrite HS in Hrun. simpl in Hrun. rewrite Ha in Hrun. discriminate Hrun. }
  destruct (rimraf_fs (path_resolve outDir (name style)) (fs w)
              !! path_resolve outDir (name app)) as [A|] eqn:HA.
  2:{ unfold workaroundEmptyStyleChunk, find_asset, name_of, readFile, rimraf, bind, emit,
        get_fs, modify_fs, ret, throw in Hrun.
      rewrite Hch in Hrun. simpl in Hrun. rewrite Hs in Hrun. simpl in Hrun.
      rewrite HS in Hrun. simpl in Hrun. rewrite Ha in Hrun. simpl in Hrun.
      rewrite HA in Hrun. discriminate Hrun. }
  rewrite (workaround_run outDir stats target rest style app S A w Hch Hs Ha HS HA) in Hrun.
  apply writeFile_done_returns in Hrun as [_ ->].
  exists target, rest, style, app, S, A. repeat split; auto.
Qed.

End Stitching.

(** ** The chunks the stitching step works on *)

Lemma find_head_filter {A : Type} (f : A -> bool) (l : list A) :
  List.find f l = hd_error (List.filter f l).
Proof.
  induction l as [|x l IH]; simpl; [reflexivity |].
  destruct (f x); [reflexivity | exact IH].
Qed.

(** C1, as stated, fails: with the chunks emitted by the client target and
    the server target listing only its bundle, the step runs to its end on
    the client's chunks; the server's list holds neither chunk. *)
Lemma chunks_searched_in_server_list_fails :
  ~ chunks_searched_in_server_list (E := Demo.node) Demo.out Demo.report Demo.compiled.
Proof.
  intros H.
  destruct (H Demo.client_target Demo.server_target
              (snd (workaroundEmptyStyleChunk (E := Demo.node) Demo.out Demo.report Demo.compiled))
              eq_refl) as (style & app & Hs & _).
  - vm_compute. reflexivity.
  - vm_compute in Hs. discriminate Hs.
Qed.

(** C1 (amended). With the targets of the report ordered client, server,
    a run of the stitching step that returns has found the style chunk and
    the app chunk as the first assets of the client target's list whose
    names pass the two patterns, and has worked on the files of these two
    names; the server target's list plays no part: the step runs the same
    with any other list in its place. *)
Theorem chunks_found_in_client_list {E : Externals}
    (outDir : string) (stats : Stats) (client server : TargetStats) (w w' : World) :
  children stats = [client; server] ->
  workaroundEmptyStyleChunk outDir stats w = (Returned tt, w') ->
  (exists style app S A,
     List.find is_style_chunk (assets client) = Some style /\
     List.find is_app_chunk (assets client) = Some app /\
     Regex.test Regex.styles_re (name style) = true /\
     Regex.test Regex.app_re (name app) = true /\
     trace w' = trace w ++
       [EvReadFile (path_resolve outDir (name style));
        EvRimraf (path_resolve outDir (name style));
        EvReadFile (path_resolve outDir (name app));
        EvWriteFile (path_resolve outDir (name app)) (S +:+ A)]) /\
  (forall server',
     workaroundEmptyStyleChunk outDir
       {| hasErrors := hasErrors stats; errors := errors stats;
          children := [client; server'] |} w
     = (Returned tt, w')).
Proof.
  intros Hch Hrun. split.
  - apply workaround_returns_inv in Hrun
      as (target & rest & style & app & S & A & Hch' & Hs & Ha & _ & _ & ->).
    rewrite Hch in Hch'. injection Hch' as <- <-.
    exists style, app, S, A. repeat split; auto.
    + apply find_some in Hs as [_ Hs]. exact Hs.
    + apply find_some in Ha as [_ Ha]. exact Ha.
  - intros server'. rewrite <- Hrun.
    unfold workaroundEmptyStyleChunk, find_asset. simpl. now rewrite Hch.
Qed.

Lemma chunks_found_in_client_list_witness :
  let w' := snd (workaroundEmptyStyleChunk (E := Demo.node) Demo.out Demo.report
                   Demo.compiled) in
  (exists style app S A,
     List.find (@is_style_chunk) (assets Demo.client_target) = Some style /\
     List.find (@is_app_chunk) (assets Demo.client_target) = Some app /\
     Regex.test Regex.styles_re (name style) = true /\
     Regex.test Regex.app_re (name app) = true /\
     trace w' = trace Demo.compiled ++
       [EvReadFile (Posix.resolve Demo.cwd Demo.out (name style));
        EvRimraf (Posix.resolve Demo.cwd Demo.out (name style));
        EvReadFile (Posix.resolve Demo.cwd Demo.out (name app));
        EvWriteFile (Posix.resolve Demo.cwd Demo.out (name app)) (S +:+ A)]) /\
  (forall server',
     workaroundEmptyStyleChunk (E := Demo.node) Demo.out
       {| hasErrors := false; errors := []; children := [Demo.client_target; server'] |}
       Demo.compiled
     = (Returned tt, w')).
Proof.
  apply (chunks_found_in_client_list (E := Demo.node) Demo.out Demo.report
           Demo.client_target Demo.server_target Demo.compiled).
  - reflexivity.
  - vm_compute. reflexivity.
Defined.

(** C2, as stated, fails: a report that holds exactly one style chunk and
    exactly one app chunk, both listed by its second target, the two files
    on disk with the contents [S] and [A]: the step looks at the first
    target only, finds no style chunk there and throws a type error; no
    file is removed and none is written. *)
Lemma stitched_whichever_target_fails :
  workaroundEmptyStyleChunk (E := Demo.node) Demo.out Cases.report_chunks_in_second
    Demo.compiled
  = (Threw (TypeError "Cannot read property 'name' of undefined"), Demo.compiled) /\
  ~ stitched_whichever_target (E := Demo.node) Demo.out Cases.report_chunks_in_second
      Demo.compiled.
Proof.
  split; [reflexivity |].
  intros H.
  destruct (H {| name := "styles.ab12cd34.js" |} {| name := "app.ef56gh78.js" |} "S" "A")
    as (w' & Hrun & _).
  - reflexivity.
  - reflexivity.
  - vm_compute. reflexivity.
  - vm_compute. reflexivity.
  - discriminate Hrun.
Qed.

(** C2 (amended). When the list searched by the step, that of the first
    target of the report, holds exactly one asset passing the style
    pattern, with file content [S], and exactly one passing the app
    pattern, with file content [A], two distinct files of a well-formed
    file tree, then the step reads both, removes the style chunk file and
    writes [S] followed by [A] to the app chunk file.  When that write
    succeeds the step returns, the app chunk file holds [S] followed by
    [A], the style chunk file is gone and every other file is as before.
    When it fails the step throws its error, and the style chunk file is
    gone all the same. *)
Theorem stitch_concatenates {E : Externals}
    (outDir : string) (stats : Stats) (target : TargetStats) (rest : list TargetStats)
    (style app : Asset) (S A : string) (w : World) :
  children stats = target :: rest ->
  List.filter is_style_chunk (assets target) = [style] ->
  List.filter is_app_chunk (assets target) = [app] ->
  path_resolve outDir (name style) <> path_resolve outDir (name app) ->
  fs_wf (fs w) ->
  fs w !! path_resolve outDir (name style) = Some S ->
  fs w !! path_resolve outDir (name app) = Some A ->
  let sp := path_resolve outDir (name style) in
  let ap := path_resolve outDir (name app) in
  let calls := [EvReadFile sp; EvRimraf sp; EvReadFile ap; EvWriteFile ap (S +:+ A)] in
  exists res w',
    workaroundEmptyStyleChunk outDir stats w = (res, w') /\
    trace w' = trace w ++ calls /\
    fs w' !! sp = None /\
    (forall p, p <> sp -> p <> ap -> fs w' !! p = fs w !! p) /\
    match writeFile_result {| fs := rimraf_fs sp (fs w); trace := trace w ++ calls |}
            ap (S +:+ A) with
    | Written => res = Returned tt /\ fs w' !! ap = Some (S +:+ A)
    | WriteFailed e part => res = Threw e /\ fs w' !! ap = Some (default A part)
    end.
Proof.
  intros Hch Hs Ha Hne Hwf HS HA. cbv zeta.
  set (sp := path_resolve outDir (name style)) in *.
  set (ap := path_resolve outDir (name app)) in *.
  assert (Hbelow : forall p, p <> sp -> rimraf_fs sp (fs w) !! p = fs w !! p).
  { intros p Hp. destruct (under sp p) eqn:Hu.
    - unfold sp. rewrite rimraf_removes_tree by exact Hu. fold sp.
      destruct (fs w !! p) as [x|] eqn:Hx; [| reflexivity].
      exfalso. apply Hp. apply (fs_wf_beneath (fs w) sp p); eauto.
    - unfold sp. apply rimraf_of_file; [fold sp; eauto | exact Hu]. }
  assert (Hgone : rimraf_fs sp (fs w) !! sp = None) by apply rimraf_fs_gone.
  assert (HA' : rimraf_fs sp (fs w) !! ap = Some A).
  { rewrite Hbelow by congruence. exact HA. }
  rewrite (workaround_run outDir stats target rest style app S A w Hch);
    [| now rewrite find_head_filter, Hs | now rewrite find_head_filter, Ha
     | exact HS | exact HA'].
  fold sp ap. unfold writeFile_done.
  destruct (writeFile_result _ ap (S +:+ A)) as [|e [part|]]; simpl.
  - eexists _, _. split; [reflexivity |]. simpl.
    split; [reflexivity |].
    split; [now rewrite lookup_insert_ne by congruence |].
    split; [| now rewrite lookup_insert_eq].
    intros p Hp1 Hp2. rewrite lookup_insert_ne by congruence. now apply Hbelow.
  - eexists _, _. split; [reflexivity |]. simpl.
    split; [reflexivity |].
    split; [now rewrite lookup_insert_ne by congruence |].
    split; [| now rewrite lookup_insert_eq].
    intros p Hp1 Hp2. rewrite lookup_insert_ne by congruence. now apply Hbelow.
  - eexists _, _. split; [reflexivity |]. simpl.
    split; [reflexivity |].
    split; [exact Hgone |].
    split; [| auto].
    intros p Hp1 Hp2. now apply Hbelow.
Qed.

(** The scenario of the description: [styles.ab12cd34.js] holding [S] and
    [app.ef56gh78.js] holding [A]. *)
Lemma stitch_concatenates_witness :
  let sp := "/work/dist/styles.ab12cd34.js" in
  let ap := "/work/dist/app.ef56gh78.js" in
  exists res w',
    workaroundEmptyStyleChunk (E := Demo.node) Demo.out Demo.report Demo.compiled
      = (res, w') /\
    trace w' = trace Demo.compiled ++
      [EvReadFile sp; EvRimraf sp; EvReadFile ap; EvWriteFile ap "SA"] /\
    fs w' !! sp = None /\
    (forall p, p <> sp -> p <> ap -> fs w' !! p = fs Demo.compiled !! p) /\
    res = Returned tt /\ fs w' !! ap = Some "SA".
Proof.
  exact (stitch_concatenates (E := Demo.node) Demo.out Demo.report
           Demo.client_target [Demo.server_target]
           {| name := "styles.ab12cd34.js" |} {| name := "app.ef56gh78.js" |}
           "S" "A" Demo.compiled
           eq_refl eq_refl eq_refl
           ltac:(vm_compute; discriminate)
           ltac:(by_decide)
           ltac:(vm_compute; reflexivity)
           ltac:(vm_compute; reflexivity)).
Defined.

(** ** What a computation adds to the trace *)

Lemma events_since_app (w w' : World) (evs : list Event) :
  trace w' = trace w ++ evs -> events_since w w' = evs.
Proof. intros H. unfold events_since. rewrite H. apply drop_app_length. Qed.

Lemma written_paths_app (a b : list Event) :
  written_paths (a ++ b) = written_paths a ++ written_paths b.
Proof. unfold written_paths. apply flat_map_app. Qed.

Lemma rendered_contexts_app (a b : list Event) :
  rendered_contexts (a ++ b) = rendered_contexts a ++ rendered_contexts b.
Proof. unfold rendered_contexts. apply flat_map_app. Qed.

Lemma in_written_paths (evs : list Event) (p : string) :
  In p (written_paths evs) <-> exists c, In (EvWriteFile p c) evs.
Proof.
  unfold written_paths. rewrite in_flat_map. split.
  - intros (ev & Hev & Hp). destruct ev; simpl in Hp; try contradiction.
    destruct Hp as [<- | []]. eauto.
  - intros (c & Hc). exists (EvWriteFile p c). simpl. auto.
Qed.

Lemma in_rendered_contexts (evs : list Event) (ctx : RenderContext) :
  In ctx (rendered_contexts evs) <-> In (EvRender ctx) evs.
Proof.
  unfold rendered_contexts. rewrite in_flat_map. split.
  - intros (ev & Hev & Hp). destruct ev; simpl in Hp; try contradiction.
    destruct Hp as [<- | []]. exact Hev.
  - intros Hc. exists (EvRender ctx). simpl. auto.
Qed.

Section Emits.

Context {E : Externals}.
Variable P : Event -> Prop.

Lemma emits_only_ret {A : Type} (a : A) : emits_only P (ret a).
Proof.
  intros w r w' H. injection H as <- <-. exists []. now rewrite app_nil_r.
Qed.

Lemma emits_only_throw {A : Type} (e : JsError) : emits_only P (@throw A e).
Proof.
  intros w r w' H. injection H as <- <-. exists []. now rewrite app_nil_r.
Qed.

Lemma emits_only_lift {A : Type} (o : Outcome A) : emits_only P (lift o).
Proof.
  intros w r w' H. injection H as <- <-. exists []. now rewrite app_nil_r.
Qed.

Lemma emits_only_emit (ev : Event) : P ev -> emits_only P (emit ev).
Proof.
  intros Hev w r w' H. injection H as <- <-. exists [ev]. simpl. auto.
Qed.

Lemma emits_only_get_fs : emits_only P get_fs.
Proof.
  intros w r w' H. injection H as <- <-. exists []. now rewrite app_nil_r.
Qed.

Lemma emits_only_modify_fs (f : FS -> FS) : emits_only P (modify_fs f).
Proof.
  intros w r w' H. injection H as <- <-. exists []. simpl. now rewrite app_nil_r.
Qed.

Lemma emits_only_writeFile_done (p content : string) :
  emits_only P (writeFile_done p content).
Proof.
  intros w r w' H. unfold writeFile_done in H.
  exists []. rewrite app_nil_r. split; [| constructor].
  destruct (writeFile_result w p content) as [|e [part|]]; injection H as <- <-; reflexivity.
Qed.

Lemma emits_only_mkdirp_done (p : string) : emits_only P (mkdirp_done p).
Proof.
  intros w r w' H. unfold mkdirp_done in H.
  exists []. rewrite app_nil_r. split; [| constructor].
  destruct (mkdirp_error w p); injection H as <- <-; reflexivity.
Qed.

Lemma emits_only_bind {A B : Type} (m : M A) (k : A -> M B) :
  emits_only P m -> (forall a, emits_only P (k a)) -> emits_only P (bind m k).
Proof.
  intros Hm Hk w r w' H. unfold bind in H.
  destruct (m w) as [[a|e] w1] eqn:Hmw.
  - destruct (Hm _ _ _ Hmw) as (evs1 & Ht1 & HP1).
    destruct (Hk a _ _ _ H) as (evs2 & Ht2 & HP2).
    exists (evs1 ++ evs2). split.
    + now rewrite Ht2, Ht1, app_assoc.
    + apply Forall_app; auto.
  - injection H as <- <-. exact (Hm _ _ _ Hmw).
Qed.

Lemma emits_only_for_each {A : Type} (f : A -> M unit) (l : list A) :
  (forall x, emits_only P (f x)) -> emits_only P (for_each f l).
Proof.
  intros Hf. induction l as [|x l IH]; simpl.
  - apply emits_only_ret.
  - apply emits_only_bind; auto.
Qed.

Lemma emits_only_map_each {A B : Type} (f : A -> M B) (l : list A) :
  (forall x, emits_only P (f x)) -> emits_only P (map_each f l).
Proof.
  intros Hf. induction l as [|x l IH]; simpl.
  - apply emits_only_ret.
  - apply emits_only_bind; [apply Hf | intros y].
    apply emits_only_bind; [exact IH | intros ys]. apply emits_only_ret.
Qed.

Lemma emits_only_run_webpack (options : SiteOptions) :
  P EvWebpack -> emits_only P (run_webpack options).
Proof.
  intros HP w r w' H. unfold run_webpack, bind, emit in H. simpl in H.
  destruct (webpack options (fs w)) as [r0 m]. injection H as <- <-.
  exists [EvWebpack]. simpl. auto.
Qed.

Lemma emits_only_run_schedule (outDir : string) (order : list nat) (calls : list Call) :
  (forall t, emits_only P (resume outDir t)) ->
  emits_only P (run_schedule outDir order calls).
Proof.
  intros Hres. revert calls. induction order as [|i order IH]; intros calls; simpl.
  - apply emits_only_ret.
  - destruct (calls !! i) as [t|]; [| apply IH].
    apply emits_only_bind; [apply Hres | intros t'; apply IH].
Qed.

End Emits.

(** Breaks a computation into its steps, leaving what must hold of the
    events it emits. *)
Ltac emits_step :=
  first
    [ apply emits_only_ret
    | apply emits_only_throw
    | apply emits_only_lift
    | apply emits_only_get_fs
    | apply emits_only_modify_fs
    | apply emits_only_writeFile_done
    | apply emits_only_mkdirp_done
    | apply emits_only_run_webpack
    | apply emits_only_bind; [| intros ?]
    | apply emits_only_for_each; intros ?
    | apply emits_only_map_each; intros ?
    | apply emits_only_run_schedule; intros ?
    | apply emits_only_emit
    | match goal with
      | |- emits_only _ (match ?x with _ => _ end) => destruct x
      end ].

Ltac emits := repeat emits_step.

(** The page loop emits renders of its pages, directory creations, file
    writes and lines on the error console, and nothing else. *)
Lemma emits_only_render_pages {E : Externals} (P : Event -> Prop)
    (renderer : RenderContext -> RenderResult) (outDir uht : string) (pages : list Page) :
  (forall page, P (EvRender (page_context uht page))) ->
  (forall p, P (EvMkdirp p)) ->
  (forall p c, P (EvWriteFile p c)) ->
  (forall msg, P (EvConsoleError msg)) ->
  emits_only P (render_pages renderer outDir uht pages).
Proof.
  intros Hr Hm Hw He.
  assert (Hres : forall t, emits_only P (resume outDir t)).
  { intros t. unfold resume, mkdirp_call, writeFile_call, console_error.
    destruct t as [pp [html|e]|fp html|fp html|]; emits; auto. }
  unfold render_pages, promise_all, renderPage, settle, renderPage_start.
  emits; auto.
Qed.

(** ** Runs of the page loop *)

Section PageLoop.

Context {E : Externals}.
Variable renderer : RenderContext -> RenderResult.
Variables outDir uht : string.

(** One step of a [renderPage] call, by the state it is in. *)
Lemma resume_run (t : Call) (w : World) :
  resume outDir t w =
  match t with
  | AwaitRender pagePath (Rendered html) =>
      let filePath := path_resolve outDir (page_filename pagePath) in
      (Returned (AwaitMkdirp filePath html),
       {| fs := fs w; trace := trace w ++ [EvMkdirp (path_dirname filePath)] |})
  | AwaitRender pagePath (Rejected e) =>
      let line := EvConsoleError (chalk_red ("Error rendering " +:+ pagePath +:+ ":")) in
      match stack_of e with
      | Returned stack =>
          (Returned Settled,
           {| fs := fs w; trace := trace w ++ [line; EvConsoleError stack] |})
      | Threw x => (Threw x, {| fs := fs w; trace := trace w ++ [line] |})
      end
  | AwaitMkdirp filePath html =>
      match mkdirp_error w (path_dirname filePath) with
      | None =>
          (Returned (AwaitWriteFile filePath html),
           {| fs := fs w; trace := trace w ++ [EvWriteFile filePath html] |})
      | Some e => (Threw e, w)
      end
  | AwaitWriteFile filePath html =>
      match writeFile_result w filePath html with
      | Written =>
          (Returned Settled, {| fs := <[filePath := html]> (fs w); trace := trace w |})
      | WriteFailed e None => (Threw e, w)
      | WriteFailed e (Some part) =>
          (Threw e, {| fs := <[filePath := part]> (fs w); trace := trace w |})
      end
  | Settled => (Returned Settled, w)
  end.
Proof.
  destruct t as [pp [html|e]|fp html|fp html|]; simpl.
  - reflexivity.
  - unfold bind, console_error, emit, lift, ret. simpl.
    destruct (stack_of e); simpl; [rewrite <- app_assoc |]; reflexivity.
  - unfold bind, mkdirp_done, writeFile_call, emit, ret.
    destruct (mkdirp_error w (path_dirname fp)); reflexivity.
  - unfold bind, writeFile_done, ret.
    destruct (writeFile_result w fp html) as [|e [part|]]; reflexivity.
  - reflexivity.
Qed.

(** Every step brings a call nearer to its end. *)
Lemma resume_steps_left (t t' : Call) (w w' : World) :
  resume outDir t w = (Returned t', w') -> steps_left t' <= pred (steps_left t).
Proof.
  rewrite resume_run.
  destruct t as [pp [html|e]|fp html|fp html|]; cbv zeta.
  - intros H. injection H as <- _. simpl. lia.
  - destruct (stack_of e); intros H; [| discriminate H]. injection H as <- _. simpl. lia.
  - destruct (mkdirp_error w _); intros H; [discriminate H |]. injection H as <- _.
    simpl. lia.
  - destruct (writeFile_result w fp html) as [|e [part|]]; intros H; try discriminate H.
    injection H as <- _. simpl. lia.
  - intros H. injection H as <- _. simpl. lia.
Qed.

Lemma page_event_of_incl (l l' : list Page) (ev : Event) :
  incl l l' ->
  page_event_of renderer outDir uht l ev -> page_event_of renderer outDir uht l' ev.
Proof. intros Hl (page & Hin & Hev). exists page. auto. Qed.

Lemma holds_page_incl (l l' : list Page) (m : FS) (k : string) :
  incl l l' ->
  holds_page renderer outDir uht l m k -> holds_page renderer outDir uht l' m k.
Proof. intros Hl (page & html & Hin & H). exists page, html. auto. Qed.

(** A page written keeps every file that holds a page holding a page. *)
Lemma holds_page_insert (l : list Page) (m : FS) (page : Page) (html k : string) :
  In page l ->
  renderer (page_context uht page) = Rendered html ->
  holds_page renderer outDir uht l m k ->
  holds_page renderer outDir uht l (<[page_file outDir page := html]> m) k.
Proof.
  intros Hin Hr (q & c & Hq & Hfile & Hqr & Hk).
  destruct (decide (page_file outDir page = k)) as [Heq | Hne].
  - exists page, html. rewrite <- Heq. rewrite lookup_insert_eq. auto.
  - exists q, c. rewrite lookup_insert_ne by exact Hne. auto.
Qed.

Lemma holds_page_written (l : list Page) (m : FS) (page : Page) (html : string) :
  In page l ->
  renderer (page_context uht page) = Rendered html ->
  holds_page renderer outDir uht l (<[page_file outDir page := html]> m)
    (page_file outDir page).
Proof.
  intros Hin Hr. exists page, html. rewrite lookup_insert_eq. auto.
Qed.

Lemma call_inv_mono (l : list Page) (evs new : list Event) (m m' : FS)
    (page : Page) (t : Call) :
  (forall k, holds_page renderer outDir uht l m k -> holds_page renderer outDir uht l m' k) ->
  call_inv renderer outDir uht l evs m page t ->
  call_inv renderer outDir uht l (evs ++ new) m' page t.
Proof.
  intros Hm [Hincl Hst]. split.
  - intros ev Hev. apply in_or_app. left. now apply Hincl.
  - destruct t as [pp outcome|fp html|fp html|]; try exact Hst.
    destruct Hst as [H1 H2]. split; [| exact H2].
    intros html Hr. apply Hm. exact (H1 html Hr).
Qed.

(** One step of the call of a page of [l]: what it adds to the trace are
    calls made for that page, no render among them; it changes no file but
    that of the page, and only if the page rendered; the call is in a state
    of that page again, or the step throws for one of the reasons the loop
    can fail for. *)
Lemma resume_step (l : list Page) (evs : list Event) (page : Page) (t : Call)
    (w : World) (r : Outcome Call) (w2 : World) :
  In page l ->
  call_inv renderer outDir uht l evs (fs w) page t ->
  resume outDir t w = (r, w2) ->
  exists new,
    trace w2 = trace w ++ new /\
    rendered_contexts new = [] /\
    Forall (page_event_of renderer outDir uht l) new /\
    (forall k, (rendered_ok renderer uht page = true -> page_file outDir page <> k) ->
       fs w2 !! k = fs w !! k) /\
    match r with
    | Returned t' =>
        call_inv renderer outDir uht l (evs ++ new) (fs w2) page t' /\
        (forall k, holds_page renderer outDir uht l (fs w) k ->
                   holds_page renderer outDir uht l (fs w2) k)
    | Threw e => page_loop_failure renderer outDir uht l e
    end.
Proof.
  intros Hin [Hincl Hst] Hrun. rewrite resume_run in Hrun.
  assert (Hev : forall ev, In ev (page_events renderer outDir uht page) ->
                  page_event_of renderer outDir uht l ev).
  { intros ev H. exists page. auto. }
  assert (Hold : forall ev new, In ev evs -> In ev (evs ++ new)).
  { intros ev new H. apply in_or_app. now left. }
  assert (Hnew : forall ev new, In ev new -> In ev (evs ++ new)).
  { intros ev new H. apply in_or_app. now right. }
  unfold page_loop_failure, rendered_ok.
  destruct t as [pp outcome|fp html|fp html|].
  - destruct Hst as [-> ->]. simpl in Hincl.
    destruct (renderer (page_context uht page)) as [html|e] eqn:Hr.
    + cbv zeta in Hrun. injection Hrun as <- <-.
      eexists [_]. simpl.
      split; [reflexivity |]. split; [reflexivity |].
      split; [| split; [reflexivity |]].
      { constructor; [| constructor]. apply Hev. unfold page_events. rewrite Hr.
        right. left. reflexivity. }
      split; [| auto].
      split; [| split; [reflexivity | exact Hr]].
      intros ev [<- | [<- | []]].
      * apply Hold, Hincl. now left.
      * apply Hnew. now left.
    + cbv zeta in Hrun. destruct (stack_of e) as [stack|x] eqn:Hstack.
      * injection Hrun as <- <-.
        eexists [_; _]. simpl.
        split; [reflexivity |]. split; [reflexivity |].
        split; [| split; [reflexivity |]].
        { constructor; [| constructor; [| constructor]]; apply Hev;
            unfold page_events; rewrite Hr, Hstack.
          - right. left. reflexivity.
          - right. right. left. reflexivity. }
        split; [| auto].
        split.
        { simpl. unfold page_events. rewrite Hr, Hstack.
          intros ev [<- | [<- | [<- | []]]].
          - apply Hold, Hincl. now left.
          - apply Hnew. now left.
          - apply Hnew. right. now left. }
        split.
        { intros html Hhtml. rewrite Hr in Hhtml. discriminate Hhtml. }
        { intros e' He'. rewrite Hr in He'. injection He' as <-. eauto. }
      * injection Hrun as <- <-.
        eexists [_]. simpl.
        split; [reflexivity |]. split; [reflexivity |].
        split; [| split; [reflexivity |]].
        { constructor; [| constructor]. apply Hev. unfold page_events. rewrite Hr.
          right. left. reflexivity. }
        exists page. rewrite Hr. auto.
  - destruct Hst as [-> Hr]. simpl in Hincl.
    destruct (mkdirp_error w (path_dirname (page_file outDir page))) as [e|] eqn:Hmk.
    + injection Hrun as <- <-. exists [].
      split; [now rewrite app_nil_r |]. split; [reflexivity |].
      split; [constructor |]. split; [reflexivity |].
      exists page. rewrite Hr. eauto.
    + injection Hrun as <- <-.
      eexists [_]. simpl.
      split; [reflexivity |]. split; [reflexivity |].
      split; [| split; [reflexivity |]].
      { constructor; [| constructor]. apply Hev. unfold page_events. rewrite Hr.
        right. right. left. reflexivity. }
      split; [| auto].
      split; [| split; [reflexivity | exact Hr]].
      intros ev [<- | [<- | [<- | []]]].
      * apply Hold, Hincl. now left.
      * apply Hold, Hincl. right. now left.
      * apply Hnew. now left.
  - destruct Hst as [-> Hr]. simpl in Hincl.
    assert (Hframe : forall (c k : string),
              (match renderer (page_context uht page) with
               | Rendered _ => true | Rejected _ => false end = true ->
               page_file outDir page <> k) ->
              (<[page_file outDir page := c]> (fs w) : FS) !! k = fs w !! k).
    { intros c k Hk. rewrite Hr in Hk. now rewrite lookup_insert_ne by auto. }
    destruct (writeFile_result w (page_file outDir page) html) as [|e [part|]] eqn:Hwr.
    + injection Hrun as <- <-. exists []. simpl.
      split; [now rewrite app_nil_r |]. split; [reflexivity |].
      split; [constructor |]. split; [apply Hframe |].
      split.
      * split.
        { simpl. unfold page_events. rewrite Hr. intros ev H. apply Hold, Hincl, H. }
        split.
        { intros html' _. now apply holds_page_written. }
        { intros e He. rewrite Hr in He. discriminate He. }
      * intros k. now apply holds_page_insert.
    + injection Hrun as <- <-. exists []. simpl.
      split; [now rewrite app_nil_r |]. split; [reflexivity |].
      split; [constructor |]. split; [apply Hframe |].
      exists page. rewrite Hr. eauto.
    + injection Hrun as <- <-. exists [].
      split; [now rewrite app_nil_r |]. split; [reflexivity |].
      split; [constructor |]. split; [reflexivity |].
      exists page. rewrite Hr. eauto.
  - injection Hrun as <- <-. exists [].
    split; [now rewrite app_nil_r |]. split; [reflexivity |].
    split; [constructor |]. split; [reflexivity |].
    split; [| auto]. split; [| assumption].
    intros ev H. apply Hold, Hincl, H.
Qed.

(** The event loop resuming the calls of the pages [ps], all of them
    pages of [l]: the events stay calls made for pages of [l], no render
    among the new ones, no file changes but those of the pages that
    rendered, and every call stays in a state of its page; if a step
    throws, it is for one of the reasons the loop can fail for. *)
Lemma run_schedule_spec (l ps : list Page) (w0 : World) (order : list nat) :
  incl ps l ->
  forall (ts : list Call) (w : World) (evs : list Event) (r : Outcome (list Call))
         (w' : World),
    page_loop_run renderer outDir uht l w0 w evs ->
    Forall2 (call_inv renderer outDir uht l evs (fs w)) ps ts ->
    run_schedule outDir order ts w = (r, w') ->
    exists more,
      rendered_contexts more = [] /\
      page_loop_run renderer outDir uht l w0 w' (evs ++ more) /\
      match r with
      | Returned ts' => Forall2 (call_inv renderer outDir uht l (evs ++ more) (fs w')) ps ts'
      | Threw e => page_loop_failure renderer outDir uht l e
      end.
Proof.
  intros Hl. induction order as [|i order IH]; intros ts w evs r w' Hglob Hts Hrun.
  - simpl in Hrun. injection Hrun as <- <-. exists [].
    rewrite app_nil_r. auto.
  - simpl in Hrun. destruct (ts !! i) as [t|] eqn:Hti; [| eauto].
    destruct (Forall2_lookup_r _ _ _ _ _ Hts Hti) as (page & Hpi & Hinv).
    assert (Hin : In page l).
    { apply Hl. apply list_elem_of_In. eapply list_elem_of_lookup_2. exact Hpi. }
    rewrite bind_run in Hrun.
    destruct (resume outDir t w) as [[t'|e] w2] eqn:Hstep.
    + destruct (resume_step l evs page t w _ w2 Hin Hinv Hstep)
        as (new & Htr & Hnr & Hsound & Hframe & Hinv' & Hholds).
      destruct Hglob as (Ht0 & Hs0 & Hf0).
      assert (Hglob' : page_loop_run renderer outDir uht l w0 w2 (evs ++ new)).
      { split; [now rewrite Htr, Ht0, <- app_assoc |].
        split; [now apply Forall_app |].
        intros k Hk. rewrite Hframe; [now apply Hf0 |].
        intros Hok. now apply Hk. }
      assert (Hts' : Forall2 (call_inv renderer outDir uht l (evs ++ new) (fs w2)) ps
                       (<[i := t']> ts)).
      { rewrite <- (list_insert_id ps i page Hpi).
        apply Forall2_insert; [| exact Hinv'].
        eapply Forall2_impl; [exact Hts |].
        intros p t0 H0. exact (call_inv_mono l evs new (fs w) (fs w2) p t0 Hholds H0). }
      destruct (IH _ _ _ _ _ Hglob' Hts' Hrun) as (more & Hmr & Hg & Hres).
      exists (new ++ more). rewrite app_assoc.
      split; [| auto].
      now rewrite rendered_contexts_app, Hnr, Hmr.
    + injection Hrun as <- <-.
      destruct (resume_step l evs page t w _ w2 Hin Hinv Hstep)
        as (new & Htr & Hnr & Hsound & Hframe & Hfail).
      destruct Hglob as (Ht0 & Hs0 & Hf0).
      exists new. split; [exact Hnr |]. split; [| exact Hfail].
      split; [now rewrite Htr, Ht0, <- app_assoc |].
      split; [now apply Forall_app |].
      intros k Hk. rewrite Hframe; [now apply Hf0 |].
      intros Hok. now apply Hk.
Qed.

(** Each time a call is resumed it has one step less ahead of it. *)
Lemma run_schedule_progress (order : list nat) :
  forall (ts : list Call) (w : World) (ts' : list Call) (w' : World),
    run_schedule outDir order ts w = (Returned ts', w') ->
    forall i t t', ts !! i = Some t -> ts' !! i = Some t' ->
      steps_left t' <= steps_left t - count_occ Nat.eq_dec order i.
Proof.
  induction order as [|j order IH]; intros ts w ts' w' Hrun i t t' Hi Hi'.
  - simpl in Hrun. injection Hrun as <- <-.
    rewrite Hi in Hi'. injection Hi' as <-. simpl. lia.
  - simpl in Hrun. destruct (ts !! j) as [tj|] eqn:Hj.
    + rewrite bind_run in Hrun.
      destruct (resume outDir tj w) as [[tj'|e] w2] eqn:Hstep; [| discriminate Hrun].
      apply resume_steps_left in Hstep.
      simpl. destruct (Nat.eq_dec j i) as [-> | Hne].
      * rewrite Hi in Hj. injection Hj as <-.
        assert (Hlt : i < length ts) by (apply lookup_lt_is_Some; eauto).
        pose proof (IH _ _ _ _ Hrun i tj' t' (list_lookup_insert_eq ts i tj' Hlt) Hi').
        lia.
      * apply (IH _ _ _ _ Hrun i t t'); [| exact Hi'].
        rewrite list_lookup_insert_ne by exact Hne. exact Hi.
    + simpl. destruct (Nat.eq_dec j i) as [-> | Hne].
      * rewrite Hi in Hj. discriminate Hj.
      * apply (IH _ _ _ _ Hrun i t t' Hi Hi').
Qed.

Lemma run_schedule_length (order : list nat) :
  forall (ts : list Call) (w : World) (ts' : list Call) (w' : World),
    run_schedule outDir order ts w = (Returned ts', w') -> length ts' = length ts.
Proof.
  induction order as [|j order IH]; intros ts w ts' w' Hrun.
  - simpl in Hrun. now injection Hrun as <- <-.
  - simpl in Hrun. destruct (ts !! j) as [tj|]; [| eauto].
    rewrite bind_run in Hrun.
    destruct (resume outDir tj w) as [[tj'|e] w2]; [| discriminate Hrun].
    rewrite (IH _ _ _ _ Hrun). apply length_insert.
Qed.

Lemma count_occ_settle_order (s n i : nat) :
  s <= i < s + n ->
  count_occ Nat.eq_dec (flat_map (fun i => [i; i; i]) (seq s n)) i = 3.
Proof.
  revert s. induction n as [|n IH]; intros s Hi; [lia |].
  simpl. destruct (Nat.eq_dec s i) as [-> | Hne].
  - assert (H0 : count_occ Nat.eq_dec (flat_map (fun i => [i; i; i]) (seq (S i) n)) i = 0).
    { apply count_occ_not_In. rewrite in_flat_map. intros (x & Hx & Hin).
      apply in_seq in Hx. simpl in Hin. lia. }
    rewrite H0. reflexivity.
  - apply IH. lia.
Qed.

(** When [Promise.all] has let every call run, every call has returned. *)
Lemma run_schedule_settled (order : list nat) (ts : list Call) (w : World)
    (ts' : list Call) (w' : World) :
  run_schedule outDir (order ++ settle_order (length ts)) ts w = (Returned ts', w') ->
  Forall (fun t => t = Settled) ts'.
Proof.
  intros Hrun. apply Forall_lookup_2. intros i t' Hi'.
  assert (Hlen := run_schedule_length _ _ _ _ _ Hrun).
  assert (Hlt : i < length ts).
  { rewrite <- Hlen. apply lookup_lt_is_Some. eauto. }
  destruct (lookup_lt_is_Some_2 ts i Hlt) as [t Hi].
  pose proof (run_schedule_progress _ _ _ _ _ Hrun i t t' Hi Hi') as Hsteps.
  rewrite count_occ_app in Hsteps. unfold settle_order in Hsteps.
  rewrite (count_occ_settle_order 0 (length ts) i) in Hsteps by lia.
  assert (H3 : steps_left t <= 3) by (destruct t; simpl; lia).
  destruct t'; simpl in Hsteps; try lia. reflexivity.
Qed.

(** [pages.map(renderPage)]: every page is rendered, in order, and every
    call waits for its render. *)
Lemma start_all_run (ps : list Page) (w : World) :
  map_each (renderPage_start renderer uht) ps w =
  (Returned (map (fun p => AwaitRender (path p) (renderer (page_context uht p))) ps),
   {| fs := fs w;
      trace := trace w ++ map (fun p => EvRender (page_context uht p)) ps |}).
Proof.
  revert w. induction ps as [|p ps IH]; intros w; simpl.
  - unfold ret. rewrite app_nil_r. now destruct w.
  - unfold bind at 1. unfold renderPage_start at 1. unfold bind at 1, emit, ret at 1.
    rewrite bind_run, IH. simpl. unfold ret. now rewrite <- app_assoc.
Qed.

Lemma rendered_contexts_starts (ps : list Page) :
  rendered_contexts (map (fun p => EvRender (page_context uht p)) ps)
  = map (page_context uht) ps.
Proof. induction ps as [|p ps IH]; simpl; [reflexivity | now rewrite IH]. Qed.

Lemma page_events_head (page : Page) :
  In (EvRender (page_context uht page)) (page_events renderer outDir uht page).
Proof.
  unfold page_events. destruct (renderer (page_context uht page)); left; reflexivity.
Qed.

Lemma rendered_contexts_page_events (page : Page) :
  rendered_contexts (page_events renderer outDir uht page) = [page_context uht page].
Proof.
  unfold page_events. destruct (renderer (page_context uht page)) as [html|e];
    [reflexivity |].
  destruct (stack_of e); reflexivity.
Qed.

(** [await renderPage(page)] with nothing else running, by what the
    render, the directory creation and the write give. *)
Lemma renderPage_run (page : Page) (w : World) :
  renderPage renderer outDir uht page w =
  let context := page_context uht page in
  let file := page_file outDir page in
  match renderer context with
  | Rendered html =>
      let w1 := {| fs := fs w;
                   trace := trace w ++ [EvRender context; EvMkdirp (path_dirname file)] |} in
      let w2 := {| fs := fs w;
                   trace := trace w ++ [EvRender context; EvMkdirp (path_dirname file);
                                        EvWriteFile file html] |} in
      match mkdirp_error w1 (path_dirname file) with
      | Some e => (Threw e, w1)
      | None =>
          match writeFile_result w2 file html with
          | Written => (Returned tt, {| fs := <[file := html]> (fs w); trace := trace w2 |})
          | WriteFailed e None => (Threw e, w2)
          | WriteFailed e (Some part) =>
              (Threw e, {| fs := <[file := part]> (fs w); trace := trace w2 |})
          end
      end
  | Rejected e =>
      let line := EvConsoleError (chalk_red ("Error rendering " +:+ path page +:+ ":")) in
      match stack_of e with
      | Returned stack =>
          (Returned tt,
           {| fs := fs w; trace := trace w ++ [EvRender context; line; EvConsoleError stack] |})
      | Threw x => (Threw x, {| fs := fs w; trace := trace w ++ [EvRender context; line] |})
      end
  end.
Proof.
  cbv zeta. unfold renderPage, renderPage_start, settle.
  unfold bind at 1. unfold bind at 1, emit, ret at 1.
  rewrite !bind_run, resume_run. unfold page_file.
  destruct (renderer (page_context uht page)) as [html|e]; cbv beta iota zeta.
  - rewrite bind_run, resume_run. cbn [fs trace]. rewrite <- ?app_assoc. cbn [app].
    destruct (mkdirp_error _ _) as [e|]; [reflexivity |].
    rewrite resume_run. cbn [fs trace]. rewrite <- ?app_assoc. cbn [app].
    destruct (writeFile_result _ _ _) as [|e [part|]]; reflexivity.
  - destruct (stack_of e) as [stack|x]; cbv beta iota zeta.
    + rewrite bind_run, resume_run, resume_run. unfold ret. cbn [fs trace].
      rewrite <- ?app_assoc. reflexivity.
    + cbn [fs trace]. rewrite <- ?app_assoc. reflexivity.
Qed.

(** A run of [renderPage] that returns has made all the calls of its
    page. *)
Lemma renderPage_returns (page : Page) (w w' : World) :
  renderPage renderer outDir uht page w = (Returned tt, w') ->
  trace w' = trace w ++ page_events renderer outDir uht page /\
  (forall e, renderer (page_context uht page) = Rejected e ->
     fs w' = fs w /\ exists stack, stack_of e = Returned stack) /\
  (forall html, renderer (page_context uht page) = Rendered html ->
     fs w' = <[page_file outDir page := html]> (fs w)).
Proof.
  rewrite renderPage_run. cbv zeta. unfold page_events.
  destruct (renderer (page_context uht page)) as [html|e].
  - destruct (mkdirp_error _ _); [discriminate |].
    destruct (writeFile_result _ _ _) as [|e [part|]]; try discriminate.
    intros H. injection H as <-. simpl.
    split; [reflexivity |]. split; [discriminate |].
    intros html' H. now injection H as <-.
  - destruct (stack_of e) as [stack|x] eqn:Hst; [| discriminate].
    intros H. injection H as <-. simpl.
    split; [reflexivity |]. split; [| discriminate].
    intros e' H. injection H as <-. eauto.
Qed.

(** [await renderPage(page)] for a page of [l], whatever its outcome. *)
Lemma renderPage_spec (l : list Page) (page : Page) (w : World) (r : Outcome unit)
    (w' : World) :
  In page l ->
  renderPage renderer outDir uht page w = (r, w') ->
  exists new,
    trace w' = trace w ++ new /\
    incl new (page_events renderer outDir uht page) /\
    (forall k, (rendered_ok renderer uht page = true -> page_file outDir page <> k) ->
       fs w' !! k = fs w !! k) /\
    match r with
    | Returned _ =>
        new = page_events renderer outDir uht page /\
        (forall html, renderer (page_context uht page) = Rendered html ->
           fs w' = <[page_file outDir page := html]> (fs w)) /\
        (forall e, renderer (page_context uht page) = Rejected e ->
           exists stack, stack_of e = Returned stack)
    | Threw e => page_loop_failure renderer outDir uht l e
    end.
Proof.
  intros Hin. rewrite renderPage_run. cbv zeta.
  unfold page_events, page_loop_failure, rendered_ok.
  destruct (renderer (page_context uht page)) as [html|e] eqn:Hr.
  - assert (Hframe : forall (c k : string),
              (true = true -> page_file outDir page <> k) ->
              (<[page_file outDir page := c]> (fs w) : FS) !! k = fs w !! k).
    { intros c k Hk. now rewrite lookup_insert_ne by auto. }
    destruct (mkdirp_error _ _) as [e|] eqn:Hmk.
    { intros H. injection H as <- <-. eexists. split; [reflexivity |].
      split; [intros ev [<- | [<- | []]]; simpl; auto |].
      split; [reflexivity |].
      exists page. rewrite Hr. eauto. }
    destruct (writeFile_result _ _ _) as [|e [part|]] eqn:Hwr;
      intros H; injection H as <- <-; (eexists; split; [reflexivity |]);
      (split; [apply incl_refl |]); simpl.
    + split; [apply Hframe |].
      split; [reflexivity |]. split; [| discriminate].
      intros html' H. now injection H as <-.
    + split; [apply Hframe |]. exists page. rewrite Hr. eauto.
    + split; [reflexivity |]. exists page. rewrite Hr. eauto.
  - destruct (stack_of e) as [stack|x] eqn:Hst;
      intros H; injection H as <- <-; (eexists; split; [reflexivity |]).
    + split; [apply incl_refl |]. split; [reflexivity |].
      split; [reflexivity |]. split; [discriminate |].
      intros e' H. injection H as <-. eauto.
    + split; [apply incl_refl |]. split; [reflexivity |].
      exists page. rewrite Hr. auto.
Qed.

Lemma page_loop_failure_incl (l l' : list Page) (e : JsError) :
  incl l l' ->
  page_loop_failure renderer outDir uht l e -> page_loop_failure renderer outDir uht l' e.
Proof. intros Hl (page & Hin & H). exists page. auto. Qed.

Lemma page_loop_run_incl (l l' : list Page) (w0 w : World) (evs : list Event) :
  incl l l' ->
  page_loop_run renderer outDir uht l w0 w evs ->
  page_loop_run renderer outDir uht l' w0 w evs.
Proof.
  intros Hl (Ht & Hs & Hf). split; [exact Ht |]. split.
  - eapply Forall_impl; [exact Hs |]. intros ev. now apply page_event_of_incl.
  - intros k Hk. apply Hf. intros page Hp. apply Hk. now apply Hl.
Qed.

(** [Promise.all(pages.map(renderPage))]: the run of the first half of
    the page loop. *)
Lemma promise_all_spec (pages : list Page) (w : World) (r : Outcome unit) (w' : World) :
  (do calls <- map_each (renderPage_start renderer uht) pages in
   promise_all outDir calls)%build w = (r, w') ->
  exists evs,
    page_loop_run renderer outDir uht pages w w' evs /\
    rendered_contexts evs = map (page_context uht) pages /\
    (exists more, evs = map (fun p => EvRender (page_context uht p)) pages ++ more) /\
    match r with
    | Returned _ =>
        forall page, In page pages ->
          call_inv renderer outDir uht pages evs (fs w') page Settled
    | Threw e => page_loop_failure renderer outDir uht pages e
    end.
Proof.
  rewrite bind_run, start_all_run. unfold promise_all. rewrite bind_run.
  set (ts0 := map (fun p => AwaitRender (path p) (renderer (page_context uht p))) pages).
  set (evs0 := map (fun p => EvRender (page_context uht p)) pages).
  set (w1 := {| fs := fs w; trace := trace w ++ evs0 |}).
  assert (Hglob : page_loop_run renderer outDir uht pages w w1 evs0).
  { split; [reflexivity |]. split; [| reflexivity].
    apply Forall_forall. intros ev Hev. apply list_elem_of_In in Hev.
    apply in_map_iff in Hev as (p & <- & Hp).
    exists p. split; [exact Hp | apply page_events_head]. }
  assert (Hts : Forall2 (call_inv renderer outDir uht pages evs0 (fs w1)) pages ts0).
  { unfold ts0. apply Forall2_fmap_r. apply Forall_Forall2_diag.
    apply Forall_forall. intros p Hp. apply list_elem_of_In in Hp.
    split; [| split; reflexivity].
    intros ev [<- | []]. unfold evs0.
    apply in_map_iff. exists p. auto. }
  destruct (run_schedule outDir _ ts0 w1) as [[ts'|e] w2] eqn:Hrun.
  - destruct (run_schedule_spec pages pages w _ (incl_refl _) _ _ _ _ _ Hglob Hts Hrun)
      as (more & Hmr & Hglob' & Hts').
    assert (Hlen : length ts0 = length pages) by (unfold ts0; apply length_map).
    pose proof (run_schedule_settled _ _ _ _ _ Hrun) as Hsettled.
    unfold ret. intros H. injection H as <- <-.
    exists (evs0 ++ more). split; [exact Hglob' |].
    split; [rewrite rendered_contexts_app, Hmr, app_nil_r; apply rendered_contexts_starts |].
    split; [exists more; reflexivity |].
    intros page Hin. apply list_elem_of_In, list_elem_of_lookup_1 in Hin as [i Hi].
    destruct (Forall2_lookup_l _ _ _ _ _ Hts' Hi) as (t & Hti & Hinv).
    rewrite Forall_lookup in Hsettled. rewrite (Hsettled _ _ Hti) in Hinv. exact Hinv.
  - destruct (run_schedule_spec pages pages w _ (incl_refl _) _ _ _ _ _ Hglob Hts Hrun)
      as (more & Hmr & Hglob' & Hfail).
    intros H. injection H as <- <-.
    exists (evs0 ++ more). split; [exact Hglob' |].
    split; [rewrite rendered_contexts_app, Hmr, app_nil_r; apply rendered_contexts_starts |].
    split; [exists more; reflexivity |].
    exact Hfail.
Qed.

Lemma incl_all_pages (pages : list Page) : incl pages (all_pages pages).
Proof. intros p Hp. unfold all_pages. apply in_or_app. now left. Qed.

(** The page loop, whatever its outcome: its events are calls made for
    its pages, no file has changed but those of the pages that rendered;
    when it returns, every call of every page has been made, the file of
    every page that rendered holds the HTML of a page written to it, and
    the default 404 page, if rendered, comes after all the others; when it
    throws, it is for one of the reasons given by [page_loop_failure], and
    every page of the site has been rendered by then. *)
Lemma render_pages_spec (pages : list Page) (w : World) (r : Outcome unit) (w' : World) :
  render_pages renderer outDir uht pages w = (r, w') ->
  exists evs,
    page_loop_run renderer outDir uht (all_pages pages) w w' evs /\
    (exists rest, evs = map (fun p => EvRender (page_context uht p)) pages ++ rest) /\
    match r with
    | Returned _ =>
        (exists before,
           evs = before ++
                 (if has_custom_404 pages then []
                  else page_events renderer outDir uht default_404) /\
           Forall (page_event_of renderer outDir uht pages) before /\
           rendered_contexts before = map (page_context uht) pages /\
           forall page, In page pages ->
             incl (page_events renderer outDir uht page) before) /\
        forall page, In page (all_pages pages) ->
          incl (page_events renderer outDir uht page) evs /\
          (forall html, renderer (page_context uht page) = Rendered html ->
             holds_page renderer outDir uht (all_pages pages) (fs w')
               (page_file outDir page)) /\
          (forall e, renderer (page_context uht page) = Rejected e ->
             exists stack, stack_of e = Returned stack)
    | Threw e =>
        page_loop_failure renderer outDir uht (all_pages pages) e /\
        forall page, In page pages -> In (EvRender (page_context uht page)) evs
    end.
Proof.
  intros Hrun.
  assert (Hsplit :
    render_pages renderer outDir uht pages w =
    bind (do calls <- map_each (renderPage_start renderer uht) pages in
          promise_all outDir calls)%build
         (fun _ => if negb (has_custom_404 pages)
                   then renderPage renderer outDir uht default_404
                   else ret tt) w).
  { symmetry. apply bind_assoc_run. }
  rewrite Hsplit, bind_run in Hrun. clear Hsplit.
  destruct ((do calls <- map_each (renderPage_start renderer uht) pages in
             promise_all outDir calls)%build w) as [[[]|e] w2] eqn:Hall.
  2:{ injection Hrun as <- <-.
      destruct (promise_all_spec _ _ _ _ Hall) as (evs & Hglob & Hctx & Hfirst & Hfail).
      exists evs. split; [| split; [exact Hfirst | split]].
      - eapply page_loop_run_incl; [apply incl_all_pages | exact Hglob].
      - eapply page_loop_failure_incl; [apply incl_all_pages | exact Hfail].
      - intros page Hin. apply in_rendered_contexts. rewrite Hctx. now apply in_map. }
  destruct (promise_all_spec _ _ _ _ Hall) as (evs & Hglob & Hctx & Hfirst & Hsettled).
  assert (Hpages : forall page, In page pages ->
            incl (page_events renderer outDir uht page) evs /\
            (forall html, renderer (page_context uht page) = Rendered html ->
               holds_page renderer outDir uht (all_pages pages) (fs w2)
                 (page_file outDir page)) /\
            (forall e, renderer (page_context uht page) = Rejected e ->
               exists stack, stack_of e = Returned stack)).
  { intros page Hin. destruct (Hsettled page Hin) as (Hincl & Hh & Hs).
    split; [exact Hincl |]. split; [| exact Hs].
    intros html Hr. eapply holds_page_incl; [apply incl_all_pages | exact (Hh html Hr)]. }
  unfold all_pages in *.
  destruct (has_custom_404 pages) eqn:H404; simpl negb in Hrun; cbv iota in Hrun.
  - unfold ret in Hrun. injection Hrun as <- <-. rewrite app_nil_r in *.
    exists evs. split; [exact Hglob |]. split; [exact Hfirst |]. split; [| exact Hpages].
    exists evs. rewrite app_nil_r. destruct Hglob as (_ & Hs & _).
    repeat split; auto. intros page Hin. apply (Hpages page Hin).
  - assert (Hin404 : In default_404 (pages ++ [default_404])).
    { apply in_or_app. right. now left. }
    destruct (renderPage_spec (pages ++ [default_404]) default_404 w2 r w' Hin404 Hrun)
      as (new & Htr & Hnew & Hframe & Hres).
    destruct Hglob as (Ht & Hs & Hf).
    exists (evs ++ new). split.
    { split; [now rewrite Htr, Ht, <- app_assoc |]. split.
      - apply Forall_app. split.
        + eapply Forall_impl; [exact Hs |]. intros ev.
          apply page_event_of_incl. intros p Hp. apply in_or_app. now left.
        + apply Forall_forall. intros ev Hev. apply list_elem_of_In in Hev.
          exists default_404. auto.
      - intros k Hk. rewrite Hframe by (intros Hok; now apply Hk).
        apply Hf. intros page Hp. apply Hk. apply in_or_app. now left. }
    split.
    { destruct Hfirst as [more ->]. exists (more ++ new). now rewrite app_assoc. }
    destruct r as [[]|e].
    2:{ split; [exact Hres |]. intros page Hin. apply in_or_app. left.
        apply (Hpages page Hin), page_events_head. }
    destruct Hres as (-> & Hfs & Hstack).
    split.
    { exists evs. repeat split; auto. intros page Hin. apply (Hpages page Hin). }
    intros page Hin. apply in_app_or in Hin as [Hin | [<- | []]].
    + destruct (Hpages page Hin) as (Hincl & Hh & Hst).
      split; [intros ev Hev; apply in_or_app; left; now apply Hincl |].
      split; [| exact Hst].
      intros html Hr. specialize (Hh html Hr).
      destruct (renderer (page_context uht default_404)) as [html4|e4] eqn:Hr4.
      * rewrite (Hfs html4 eq_refl). now apply holds_page_insert.
      * destruct Hh as (q & c & Hq & Hfile & Hqr & Hk).
        exists q, c. repeat split; auto.
        rewrite Hframe; [exact Hk |]. unfold rendered_ok. rewrite Hr4. discriminate.
    + split; [intros ev Hev; apply in_or_app; now right |].
      split; [| exact Hstack].
      intros html Hr. rewrite (Hfs html Hr). now apply holds_page_written.
Qed.

End PageLoop.


Lemma all_pages_custom (pages : list Page) :
  has_custom_404 pages = true -> all_pages pages = pages.
Proof. intros H. unfold all_pages. rewrite H. apply app_nil_r. Qed.

(** ** The output path of a page *)

Lemma page_filename_root : page_filename "/" = "index.html".
Proof. reflexivity. Qed.

Lemma page_filename_strip (rest : string) :
  rest <> "" -> page_filename ("/" +:+ rest) = rest.
Proof.
  intros Hrest. unfold page_filename.
  destruct rest as [|c rest]; [congruence | reflexivity].
Qed.

Example page_filename_foo_bar :
  Posix.resolve "/work" "/work/dist" (page_filename "/foo/bar.html") = "/work/dist/foo/bar.html".
Proof. reflexivity. Qed.

(** C7. A page whose render succeeds is written to the file [index.html]
    of the output directory when its path is [/], and else to the file
    named by its path without the one leading slash, resolved against the
    output directory: [renderPage] renders the page, creates the directory
    of that file and, unless this fails, writes the rendered HTML to that
    file; it returns when the write succeeds and throws the error of the
    directory creation or of the write when one of them fails. *)
Theorem rendered_page_output_path {E : Externals}
    (renderer : RenderContext -> RenderResult) (outDir userHeadTags : string)
    (page : Page) (html : string) (w : World) :
  renderer (page_context userHeadTags page) = Rendered html ->
  exists file,
    (path page = "/" -> file = "index.html") /\
    (forall rest, path page = "/" +:+ rest -> rest <> "" -> file = rest) /\
    let target := path_resolve outDir file in
    let render := EvRender (page_context userHeadTags page) in
    let mkdir := EvMkdirp (path_dirname target) in
    let write := EvWriteFile target html in
    let w1 := {| fs := fs w; trace := trace w ++ [render; mkdir] |} in
    let w2 := {| fs := fs w; trace := trace w ++ [render; mkdir; write] |} in
    renderPage renderer outDir userHeadTags page w =
      match mkdirp_error w1 (path_dirname target) with
      | Some e => (Threw e, w1)
      | None =>
          match writeFile_result w2 target html with
          | Written =>
              (Returned tt,
               {| fs := <[target := html]> (fs w);
                  trace := trace w ++ [render; mkdir; write] |})
          | WriteFailed e None => (Threw e, w2)
          | WriteFailed e (Some part) =>
              (Threw e,
               {| fs := <[target := part]> (fs w);
                  trace := trace w ++ [render; mkdir; write] |})
          end
      end.
Proof.
  intros Hr. exists (page_filename (path page)). split; [| split].
  - intros ->. reflexivity.
  - intros rest -> Hrest. now apply page_filename_strip.
  - cbv zeta. rewrite renderPage_run. cbv zeta. rewrite Hr. reflexivity.
Qed.

(** The page [/foo/bar.html] is written to [foo/bar.html] in the output
    directory. *)
Lemma rendered_page_output_path_witness :
  exists file,
    (path (Demo.page "/foo/bar.html") = "/" -> file = "index.html") /\
    (forall rest, path (Demo.page "/foo/bar.html") = "/" +:+ rest -> rest <> "" ->
                  file = rest) /\
    renderPage (E := Demo.node) (Demo.renderer "{}" "{}" "") Demo.out ""
      (Demo.page "/foo/bar.html") Demo.compiled =
      (Returned tt,
       {| fs := <[Posix.resolve Demo.cwd Demo.out file := "<html>/foo/bar.html</html>"]>
                  (fs Demo.compiled);
          trace := trace Demo.compiled ++
            [EvRender (page_context "" (Demo.page "/foo/bar.html"));
             EvMkdirp (Posix.dirname (Posix.resolve Demo.cwd Demo.out file));
             EvWriteFile (Posix.resolve Demo.cwd Demo.out file)
               "<html>/foo/bar.html</html>"] |}).
Proof.
  destruct (rendered_page_output_path (E := Demo.node) (Demo.renderer "{}" "{}" "")
              Demo.out "" (Demo.page "/foo/bar.html") "<html>/foo/bar.html</html>"
              Demo.compiled eq_refl) as (file & Hroot & Hrest & Hrun).
  exists file. split; [exact Hroot |]. split; [exact Hrest |].
  rewrite (Hrest "foo/bar.html" eq_refl ltac:(discriminate)) in Hrun |- *.
  exact Hrun.
Defined.

(** ** Runs of the whole build *)

Section BuildRuns.

Context {E : Externals}.

(** [build] is the steps before the page loop, then the loop, then the
    success line. *)
Lemma build_phases (prepared : SiteOptions) (cliOutDir : option string) (w : World) :
  let options := apply_cli prepared cliOutDir in
  build prepared cliOutDir w =
  (do renderer <- prepare_renderer options in
   render_pages renderer (outDir options) (render_user_head_tags (head options))
     (pages options) >>
   console_log (success_message (outDir options)))%build w.
Proof.
  cbv zeta. unfold build, prepare_renderer.
  repeat (rewrite bind_assoc_run; apply bind_ext_run; intros).
  reflexivity.
Qed.

Lemma apply_cli_head (prepared : SiteOptions) (cliOutDir : option string) :
  head (apply_cli prepared cliOutDir) = head prepared.
Proof.
  unfold apply_cli. destruct cliOutDir as [d|]; [| reflexivity].
  destruct (String.eqb d ""); reflexivity.
Qed.

Lemma apply_cli_pages (prepared : SiteOptions) (cliOutDir : option string) :
  pages (apply_cli prepared cliOutDir) = pages prepared.
Proof.
  unfold apply_cli. destruct cliOutDir as [d|]; [| reflexivity].
  destruct (String.eqb d ""); reflexivity.
Qed.

(** The steps before the page loop only add to the trace, render nothing
    and print nothing on the standard console. *)
Lemma prepare_renderer_emits (options : SiteOptions) :
  emits_only (fun ev => (forall ctx, ev <> EvRender ctx) /\
                        (forall msg, ev <> EvConsoleLog msg))
    (prepare_renderer options).
Proof.
  unfold prepare_renderer, rimraf, compile, require_json, workaroundEmptyStyleChunk,
    find_asset, name_of, readFile, writeFile, writeFile_call, console_error.
  emits; split; intros ?; discriminate.
Qed.

Lemma build_returns_inv (prepared : SiteOptions) (cliOutDir : option string)
    (w w' : World) :
  build prepared cliOutDir w = (Returned tt, w') ->
  exists renderer w1,
    prepare_renderer (apply_cli prepared cliOutDir) w = (Returned renderer, w1).
Proof.
  rewrite build_phases. cbv zeta. rewrite bind_run.
  destruct (prepare_renderer _ w) as [[renderer|e] w1]; [eauto | discriminate].
Qed.

(** A build whose steps before the page loop fail ends there. *)
Lemma build_stops_early (prepared : SiteOptions) (cliOutDir : option string)
    (w w1 : World) (e : JsError) :
  prepare_renderer (apply_cli prepared cliOutDir) w = (Threw e, w1) ->
  build prepared cliOutDir w = (Threw e, w1).
Proof.
  intros Hp. rewrite build_phases. cbv zeta. now rewrite bind_run, Hp.
Qed.

(** Once the renderer is there, the build is its page loop, followed by
    the success line when the loop returns. *)
Lemma build_after_prepare (prepared : SiteOptions) (cliOutDir : option string)
    (w w1 : World) (renderer : RenderContext -> RenderResult) :
  let options := apply_cli prepared cliOutDir in
  prepare_renderer options w = (Returned renderer, w1) ->
  build prepared cliOutDir w =
  match render_pages renderer (outDir options) (render_user_head_tags (head options))
          (pages options) w1 with
  | (Returned _, w2) =>
      (Returned tt,
       {| fs := fs w2;
          trace := trace w2 ++ [EvConsoleLog (success_message (outDir options))] |})
  | (Threw e, w2) => (Threw e, w2)
  end.
Proof.
  cbv zeta. intros Hp. rewrite build_phases. cbv zeta.
  rewrite bind_run, Hp, bind_run.
  destruct (render_pages _ _ _ _ w1) as [[[]|e] w2]; reflexivity.
Qed.

(** The page loop inside a build: the events since the renderer was
    there are calls made for the pages, followed by the success line when
    the build succeeds; no file has changed since but those of the pages
    that rendered; a build that succeeds has made every call of every
    page, the default 404 page last; a build that rejects now does so for
    one of the reasons the page loop can fail for. *)
Lemma build_loop_spec (prepared : SiteOptions) (cliOutDir : option string)
    (w w1 : World) (renderer : RenderContext -> RenderResult)
    (res : Outcome unit) (w' : World) :
  let options := apply_cli prepared cliOutDir in
  let out := outDir options in
  let uht := render_user_head_tags (head options) in
  let l := all_pages (pages options) in
  prepare_renderer options w = (Returned renderer, w1) ->
  build prepared cliOutDir w = (res, w') ->
  exists evs,
    Forall (page_event_of renderer out uht l) evs /\
    (forall k,
       (forall page, In page l -> rendered_ok renderer uht page = true ->
          page_file out page <> k) ->
       fs w' !! k = fs w1 !! k) /\
    (exists rest,
       evs = map (fun p => EvRender (page_context uht p)) (pages options) ++ rest) /\
    match res with
    | Returned _ =>
        trace w' = trace w1 ++ evs ++ [EvConsoleLog (success_message out)] /\
        (exists before,
           evs = before ++
                 (if has_custom_404 (pages options) then []
                  else page_events renderer out uht default_404) /\
           Forall (page_event_of renderer out uht (pages options)) before /\
           rendered_contexts before = map (page_context uht) (pages options) /\
           forall page, In page (pages options) ->
             incl (page_events renderer out uht page) before) /\
        forall page, In page l ->
          incl (page_events renderer out uht page) evs /\
          (forall html, renderer (page_context uht page) = Rendered html ->
             holds_page renderer out uht l (fs w') (page_file out page)) /\
          (forall e, renderer (page_context uht page) = Rejected e ->
             exists stack, stack_of e = Returned stack)
    | Threw e =>
        trace w' = trace w1 ++ evs /\
        page_loop_failure renderer out uht l e /\
        forall page, In page (pages options) -> In (EvRender (page_context uht page)) evs
    end.
Proof.
  cbv zeta. intros Hp Hrun.
  rewrite (build_after_prepare _ _ _ _ _ Hp) in Hrun.
  destruct (render_pages _ _ _ _ w1) as [[[]|e] w2] eqn:Hloop;
    injection Hrun as <- <-;
    destruct (render_pages_spec _ _ _ _ _ _ _ Hloop)
      as (evs & (Ht & Hs & Hf) & Hfirst & Hres);
    exists evs; (split; [exact Hs |]); (split; [exact Hf |]); (split; [exact Hfirst |]).
  - destruct Hres as (Hbefore & Hpages). simpl.
    split; [now rewrite Ht, <- app_assoc |]. auto.
  - auto.
Qed.

End BuildRuns.

Lemma in_events_since (w w' : World) (evs : list Event) (ev : Event) :
  trace w' = trace w ++ evs -> In ev (events_since w w') <-> In ev evs.
Proof. intros H. now rewrite (events_since_app _ _ _ H). Qed.

(** The calls of a page, one by one. *)
Lemma page_events_write {E : Externals} (renderer : RenderContext -> RenderResult)
    (outDir uht : string) (page : Page) (p c : string) :
  In (EvWriteFile p c) (page_events renderer outDir uht page) ->
  renderer (page_context uht page) = Rendered c /\ p = page_file outDir page.
Proof.
  unfold page_events. destruct (renderer (page_context uht page)) as [html|e].
  - intros [H | [H | [H | []]]]; try discriminate H. injection H as <- <-. auto.
  - destruct (stack_of e); simpl; intros H;
      repeat (destruct H as [H | H]; [discriminate H |]); contradiction.
Qed.

Lemma page_events_no_log {E : Externals} (renderer : RenderContext -> RenderResult)
    (outDir uht : string) (page : Page) (msg : string) :
  ~ In (EvConsoleLog msg) (page_events renderer outDir uht page).
Proof.
  unfold page_events. destruct (renderer (page_context uht page)) as [html|e].
  - intros [H | [H | [H | []]]]; discriminate H.
  - destruct (stack_of e); simpl; intros H;
      repeat (destruct H as [H | H]; [discriminate H |]); contradiction.
Qed.

(** Every file written by the page loop is the file of a page that
    rendered, written with the HTML of that page. *)
Lemma page_event_of_write {E : Externals} (renderer : RenderContext -> RenderResult)
    (outDir uht : string) (l : list Page) (evs : list Event) (p c : string) :
  Forall (page_event_of renderer outDir uht l) evs ->
  In (EvWriteFile p c) evs ->
  exists page, In page l /\ renderer (page_context uht page) = Rendered c /\
               p = page_file outDir page.
Proof.
  intros Hs Hin. rewrite Forall_forall in Hs.
  destruct (Hs _ (proj2 (list_elem_of_In _ _) Hin)) as (page & Hp & Hev).
  apply page_events_write in Hev as [Hr ->]. eauto.
Qed.

(** ** Render failures *)




Example partial_failure_files :
  let w' := snd (build (E := Demo.node) (Demo.site ["/"; "/broken.html"; "/guide.html"])
                   None Demo.start) in
  fs w' !! "/work/dist/index.html" = Some "<html>/</html>" /\
  fs w' !! "/work/dist/broken.html" = None /\
  fs w' !! "/work/dist/guide.html" = Some "<html>/guide.html</html>" /\
  fs w' !! "/work/dist/404.html" = Some "<html>/404.html</html>".
Proof. vm_compute. auto. Qed.

(** A page written beneath the file of another page: the build rejects
    in its page loop, after every page has rendered, with the error of the
    write that found a directory where its file should go. *)
Example nested_page_rejects :
  let prepared := Demo.site ["/guide/"; "/guide/intro.html"] in
  build (E := Demo.node) prepared None Demo.start
  = (Threw (EISDIR "/work/dist/guide"),
     snd (build (E := Demo.node) prepared None Demo.start)) /\
  written_paths (trace (snd (build (E := Demo.node) prepared None Demo.start)))
  = ["/work/dist/app.ef56gh78.js"; "/work/dist/guide"; "/work/dist/guide/intro.html"] /\
  fs (snd (build (E := Demo.node) prepared None Demo.start)) !! "/work/dist/guide" = None.
Proof. vm_compute. auto. Qed.

(** ** The number of HTML files a build writes *)


Lemma NoDup_map_inj {A B : Type} (f : A -> B) (l : list A) (x y : A) :
  NoDup (map f l) -> In x l -> In y l -> f x = f y -> x = y.
Proof.
  induction l as [|a l IH]; simpl; intros Hnd Hx Hy Heq; [contradiction |].
  apply NoDup_cons in Hnd as [Hfresh Hnd].
  destruct Hx as [-> | Hx]; destruct Hy as [-> | Hy]; auto.
  - exfalso. apply Hfresh. rewrite Heq. apply list_elem_of_In. now apply in_map.
  - exfalso. apply Hfresh. rewrite <- Heq. apply list_elem_of_In. now apply in_map.
Qed.



Example colliding_pages_files :
  let w' := snd (build (E := Demo.node) (Demo.site ["/"; "/index.html"]) None Demo.start) in
  map fst (map_to_list (Demo.rimraf Demo.template (fs w'))) =
    ["/work/dist/index.html"; "/work/dist/app.ef56gh78.js"; "/work/dist/404.html"] /\
  fs w' !! "/work/dist/index.html" = Some "<html>/index.html</html>".
Proof. vm_compute. auto. Qed.

(** ** Compile errors are fatal *)

(** C5. When the compilation reports errors, the build rejects with the
    aggregate compile error; by then it has cleaned the output directory,
    run webpack and printed every error of the report, each on the error
    console and in order, and nothing else: no manifest is loaded, no asset
    stitched, no page rendered. *)
Theorem compile_errors_abort {E : Externals}
    (prepared : SiteOptions) (cliOutDir : option string) (w : World)
    (stats : Stats) (m : FS) :
  let options := apply_cli prepared cliOutDir in
  webpack options (rimraf_fs (outDir options) (fs w)) = (WebpackDone stats, m) ->
  hasErrors stats = true ->
  build prepared cliOutDir w =
  (Threw CompileFailed,
   {| fs := m;
      trace := trace w ++ [EvRimraf (outDir options); EvWebpack] ++
               map EvConsoleError (errors stats) |}).
Proof.
  cbv zeta. intros Hwp Herr. unfold build.
  rewrite bind_run, rimraf_run, bind_run, compile_run. simpl.
  rewrite Hwp, Herr. now rewrite <- !app_assoc.
Qed.

Lemma compile_errors_abort_witness :
  build (E := Demo.node_with Demo.webpack_failing) (Demo.site ["/"]) None Demo.start =
  (Threw CompileFailed,
   {| fs := Demo.rimraf Demo.out Demo.disk;
      trace := [EvRimraf Demo.out; EvWebpack;
                EvConsoleError "(client) Module not found: ./missing";
                EvConsoleError "(server) Unexpected token"] |}).
Proof.
  apply (compile_errors_abort (E := Demo.node_with Demo.webpack_failing)
           (Demo.site ["/"]) None Demo.start Demo.failed_report
           (Demo.rimraf Demo.out Demo.disk)).
  - reflexivity.
  - reflexivity.
Defined.

(** ** The render context *)

(** Breaks a build into its steps, the page loop taken as a whole. *)
Ltac emits_build := repeat first [apply emits_only_render_pages | emits_step].

Lemma build_emits_fixed {E : Externals} (prepared : SiteOptions) (cliOutDir : option string) :
  emits_only (context_fixed (render_user_head_tags (head prepared))) (build prepared cliOutDir).
Proof.
  unfold build. rewrite apply_cli_head.
  unfold rimraf, compile, require_json, workaroundEmptyStyleChunk, find_asset, name_of,
    readFile, writeFile, writeFile_call, console_error, console_log.
  emits_build; intros; intros ctx Hctx; try discriminate Hctx;
    injection Hctx as <-; repeat split.
Qed.

(** C10. Every context handed to [renderToString] in a build, that of the
    default 404 page included, has the title [VuePress], the language [en]
    and, as user head tags, the one string computed from [siteConfig.head]
    before the page loop, which is empty when [siteConfig.head] is missing;
    in a build that succeeds every page, the default 404 page included when
    the site has none, is rendered with such a context. *)
Theorem render_context_constants {E : Externals}
    (prepared : SiteOptions) (cliOutDir : option string) (w w' : World)
    (res : Outcome unit) :
  build prepared cliOutDir w = (res, w') ->
  let uht := render_user_head_tags (head prepared) in
  (forall ctx, In (EvRender ctx) (events_since w w') ->
     title ctx = "VuePress" /\ lang ctx = "en" /\ userHeadTags ctx = uht) /\
  (head prepared = None -> uht = "") /\
  (res = Returned tt ->
   forall page, In page (all_pages (pages prepared)) ->
     In (EvRender (page_context uht page)) (events_since w w')).
Proof.
  intros Hrun. cbv zeta. split; [| split].
  - destruct (build_emits_fixed prepared cliOutDir _ _ _ Hrun) as (evs & Ht & Hfixed).
    rewrite (events_since_app _ _ _ Ht). intros ctx Hin.
    rewrite Forall_forall in Hfixed. apply list_elem_of_In in Hin.
    exact (Hfixed _ Hin ctx eq_refl).
  - intros ->. reflexivity.
  - intros -> page Hin.
    destruct (build_returns_inv _ _ _ _ Hrun) as (renderer & w1 & Hprep).
    destruct (prepare_renderer_emits _ _ _ _ Hprep) as (evs0 & Ht0 & _).
    destruct (build_loop_spec _ _ _ _ _ _ _ Hprep Hrun)
      as (evs & _ & _ & _ & Ht & _ & Hpages).
    rewrite apply_cli_head, apply_cli_pages in Hpages.
    destruct (Hpages page Hin) as (Hincl & _).
    erewrite in_events_since by (rewrite Ht, Ht0, <- app_assoc; reflexivity).
    apply in_or_app. right. apply in_or_app. left.
    apply Hincl, page_events_head.
Qed.

Lemma render_context_constants_witness :
  let prepared := Demo.site ["/"; "/broken.html"] in
  let w' := snd (build (E := Demo.node) prepared None Demo.start) in
  let uht := render_user_head_tags (head prepared) in
  (forall ctx, In (EvRender ctx) (events_since Demo.start w') ->
     title ctx = "VuePress" /\ lang ctx = "en" /\ userHeadTags ctx = uht) /\
  (head prepared = None -> uht = "") /\
  (Returned tt = Returned tt ->
   forall page, In page (all_pages (pages prepared)) ->
     In (EvRender (page_context uht page)) (events_since Demo.start w')).
Proof.
  apply (render_context_constants (E := Demo.node) (Demo.site ["/"; "/broken.html"]) None
           Demo.start
           (snd (build (E := Demo.node) (Demo.site ["/"; "/broken.html"]) None Demo.start))
           (Returned tt)).
  vm_compute. reflexivity.
Defined.

Example user_head_tags_joined :
  render_user_head_tags
    (Some [ {| tag := "meta"; attrs := Some [("charset", "utf-8")]; innerHTML := None |};
            {| tag := "script"; attrs := Some []; innerHTML := Some "1" |} ])
  = "<meta charset=" +:+ Str.dquote +:+ "utf-8" +:+ Str.dquote +:+ ">" +:+
    Str.newline +:+ "  <script>1</script>".
Proof. reflexivity. Qed.

(** ** The manifest directory *)

Section Manifests.

Context {E : Externals}.

Lemma finish_build_appends (options : SiteOptions) (stats : Stats) (sb cm : string) :
  emits_only (fun _ => True) (finish_build options stats sb cm).
Proof.
  unfold finish_build, rimraf, workaroundEmptyStyleChunk, find_asset, name_of, readFile,
    writeFile, writeFile_call, console_error, console_log.
  emits_build; intros; exact I.
Qed.

(** What is not in the directory [d] before the last steps is not there
    after them, unless a page is written into it. *)
Lemma finish_build_absent (options : SiteOptions) (stats : Stats) (sb cm d : string)
    (w w' : World) :
  finish_build options stats sb cm w = (Returned tt, w') ->
  (forall page, In page (all_pages (pages options)) ->
     under d (page_file (outDir options) page) = false) ->
  absent_tree d (fs w) ->
  absent_tree d (fs w').
Proof.
  unfold finish_build. intros Hrun Hpages Habs.
  rewrite bind_run in Hrun.
  destruct (workaroundEmptyStyleChunk _ _ w) as [[[]|e] w1] eqn:Hstitch; [| discriminate].
  apply workaround_returns_inv in Hstitch
    as (target & rest & style & app & S & A & _ & _ & _ & _ & HA & ->).
  cbv zeta in HA.
  rewrite bind_run, readFile_run in Hrun. cbv zeta in Hrun.
  destruct (fs _ !! template_path) as [tpl|]; [| discriminate].
  rewrite bind_run in Hrun.
  destruct (render_pages _ _ _ _ _) as [[[]|e] w2] eqn:Hloop; [| discriminate].
  destruct (render_pages_spec _ _ _ _ _ _ _ Hloop) as (evs & (_ & _ & Hframe) & _).
  unfold console_log, emit in Hrun. injection Hrun as <-. simpl.
  intros k Hk. rewrite Hframe.
  - simpl.
    apply (absent_tree_insert d (path_resolve (outDir options) (name app)) (S +:+ A));
      [| now apply absent_tree_rimraf_other | exact Hk].
    destruct (under d (path_resolve (outDir options) (name app))) eqn:Hu; [| reflexivity].
    apply rimraf_only_removes in HA. rewrite (Habs _ Hu) in HA. discriminate.
  - intros page Hin _ Heq. specialize (Hpages page Hin).
    rewrite Heq, Hk in Hpages. discriminate Hpages.
Qed.

End Manifests.

(** C8, as stated, fails: a page with the path [/manifest/icons.html] is
    written into the manifest directory after that directory was removed,
    so a successful build ends with a manifest directory. *)
Lemma manifest_absent_after_success_fails :
  ~ manifest_absent_after_success (E := Demo.node)
      (Demo.site ["/"; "/manifest/icons.html"]) None Demo.start.
Proof.
  intros H.
  assert (Hrun : build (E := Demo.node) (Demo.site ["/"; "/manifest/icons.html"]) None
                   Demo.start
                 = (Returned tt,
                    snd (build (E := Demo.node) (Demo.site ["/"; "/manifest/icons.html"])
                           None Demo.start)))
    by (vm_compute; reflexivity).
  specialize (H _ Hrun "/work/dist/manifest/icons.html" eq_refl).
  vm_compute in H. discriminate H.
Qed.

(** C8 (amended). The manifest directory is removed only after both
    manifest files have been read: a build either stops with an error
    before any removal other than the cleaning of the output directory,
    the files left by webpack untouched, or it has read both manifests,
    both there and both JSON, and then removes the directory.  After a
    successful build in which no page is written into the manifest
    directory, nothing is left of that directory. *)
Theorem manifest_removed_after_reads {E : Externals}
    (prepared : SiteOptions) (cliOutDir : option string) (w w' : World)
    (res : Outcome unit) :
  build prepared cliOutDir w = (res, w') ->
  let options := apply_cli prepared cliOutDir in
  let out := outDir options in
  let server := path_resolve out "manifest/server.json" in
  let client := path_resolve out "manifest/client.json" in
  let mdir := path_resolve out "manifest" in
  let m := snd (webpack options (rimraf_fs out (fs w))) in
  ((exists e tail,
      res = Threw e /\
      trace w' = trace w ++ EvRimraf out :: EvWebpack :: tail /\
      (forall p, ~ In (EvRimraf p) tail) /\
      fs w' = m)
   \/
   (exists c1 c2 sb cm post,
      m !! server = Some c1 /\ json_parse c1 = Some sb /\
      m !! client = Some c2 /\ json_parse c2 = Some cm /\
      trace w' = trace w ++
        [EvRimraf out; EvWebpack; EvRequire server; EvRequire client; EvRimraf mdir] ++ post))
  /\
  (res = Returned tt ->
   (forall page, In page (all_pages (pages options)) ->
      under mdir (page_file out page) = false) ->
   absent_tree mdir (fs w')).
Proof.
  intros Hrun. cbv zeta.
  set (options := apply_cli prepared cliOutDir) in *.
  unfold build in Hrun. fold options in Hrun.
  rewrite bind_run, rimraf_run, bind_run, compile_run in Hrun.
  cbv zeta in Hrun. simpl fs in Hrun. simpl trace in Hrun.
  destruct (webpack options (rimraf_fs (outDir options) (fs w))) as [[err|stats] m] eqn:Hwp;
    simpl snd.
  { injection Hrun as <- <-. split; [left | intros Hres; discriminate Hres].
    exists err, []. simpl. rewrite <- app_assoc. auto. }
  destruct (hasErrors stats).
  { injection Hrun as <- <-. split; [left | intros Hres; discriminate Hres].
    exists CompileFailed, (map EvConsoleError (errors stats)). simpl.
    rewrite <- !app_assoc. repeat split; auto.
    intros p Hp. apply in_map_iff in Hp as (x & Hx & _). discriminate Hx. }
  rewrite bind_run, require_json_run in Hrun.
  cbv zeta in Hrun. simpl fs in Hrun. simpl trace in Hrun.
  destruct (m !! path_resolve (outDir options) "manifest/server.json") as [c1|] eqn:Hc1.
  2:{ injection Hrun as <- <-. split; [left | intros Hres; discriminate Hres].
      eexists _, [_]. simpl. rewrite <- !app_assoc. repeat split; auto.
      intros p [Hp | []]. discriminate Hp. }
  destruct (json_parse c1) as [sb|] eqn:Hsb.
  2:{ injection Hrun as <- <-. split; [left | intros Hres; discriminate Hres].
      eexists _, [_]. simpl. rewrite <- !app_assoc. repeat split; auto.
      intros p [Hp | []]. discriminate Hp. }
  rewrite bind_run, require_json_run in Hrun.
  cbv zeta in Hrun. simpl fs in Hrun. simpl trace in Hrun.
  destruct (m !! path_resolve (outDir options) "manifest/client.json") as [c2|] eqn:Hc2.
  2:{ injection Hrun as <- <-. split; [left | intros Hres; discriminate Hres].
      eexists _, [_; _]. simpl. rewrite <- !app_assoc. repeat split; auto.
      intros p [Hp | [Hp | []]]; discriminate Hp. }
  destruct (json_parse c2) as [cm|] eqn:Hcm.
  2:{ injection Hrun as <- <-. split; [left | intros Hres; discriminate Hres].
      eexists _, [_; _]. simpl. rewrite <- !app_assoc. repeat split; auto.
      intros p [Hp | [Hp | []]]; discriminate Hp. }
  rewrite bind_run, rimraf_run in Hrun. simpl fs in Hrun. simpl trace in Hrun.
  match type of Hrun with
  | _ ?w0 = _ => change (finish_build options stats sb cm w0 = (res, w')) in Hrun
  end.
  split.
  - right. destruct (finish_build_appends _ _ _ _ _ _ _ Hrun) as (post & Ht & _).
    exists c1, c2, sb, cm, post. repeat split; auto.
    rewrite Ht. simpl. now rewrite <- !app_assoc.
  - intros -> Hpages.
    apply (finish_build_absent _ _ _ _ _ _ _ Hrun Hpages).
    simpl. apply absent_tree_rimraf.
Qed.

Lemma manifest_removed_after_reads_witness :
  let prepared := Demo.site ["/"; "/guide.html"] in
  let w' := snd (build (E := Demo.node) prepared None Demo.start) in
  let m := Demo.emitted (Demo.rimraf Demo.out (fs Demo.start)) in
  ((exists e tail,
      Returned tt = Threw e /\
      trace w' = trace Demo.start ++ EvRimraf Demo.out :: EvWebpack :: tail /\
      (forall p, ~ In (EvRimraf p) tail) /\
      fs w' = m)
   \/
   (exists c1 c2 sb cm post,
      m !! "/work/dist/manifest/server.json" = Some c1 /\ Some c1 = Some sb /\
      m !! "/work/dist/manifest/client.json" = Some c2 /\ Some c2 = Some cm /\
      trace w' = trace Demo.start ++
        [EvRimraf Demo.out; EvWebpack; EvRequire "/work/dist/manifest/server.json";
         EvRequire "/work/dist/manifest/client.json"; EvRimraf "/work/dist/manifest"] ++ post))
  /\
  (Returned tt = Returned tt ->
   (forall page, In page (all_pages (pages prepared)) ->
      under "/work/dist/manifest" (page_file (E := Demo.node) Demo.out page) = false) ->
   absent_tree "/work/dist/manifest" (fs w')).
Proof.
  apply (manifest_removed_after_reads (E := Demo.node) (Demo.site ["/"; "/guide.html"]) None
           Demo.start
           (snd (build (E := Demo.node) (Demo.site ["/"; "/guide.html"]) None Demo.start))
           (Returned tt)).
  vm_compute. reflexivity.
Defined.

(** * Further properties of [lib/build.js] *)

(** ** [compile]: a failing webpack call *)

(** X1. When the webpack call itself fails, the build rejects with that very
    error, right after cleaning the output directory and calling webpack;
    nothing is printed and nothing else is done. *)
Theorem webpack_error_propagates {E : Externals}
    (prepared : SiteOptions) (cliOutDir : option string) (w : World)
    (err : JsError) (m : FS) :
  let options := apply_cli prepared cliOutDir in
  webpack options (rimraf_fs (outDir options) (fs w)) = (WebpackErr err, m) ->
  build prepared cliOutDir w =
  (Threw err,
   {| fs := m; trace := trace w ++ [EvRimraf (outDir options); EvWebpack] |}).
Proof.
  cbv zeta. intros Hwp. unfold build.
  rewrite bind_run, rimraf_run, bind_run, compile_run. simpl.
  rewrite Hwp. now rewrite <- !app_assoc.
Qed.

Lemma webpack_error_propagates_witness :
  build (E := Demo.node_with Cases.webpack_broken) (Demo.site ["/"]) None Demo.start =
  (Threw (WebpackFailure "Error: invalid configuration object"),
   {| fs := Demo.rimraf Demo.out Demo.disk;
      trace := [EvRimraf Demo.out; EvWebpack] |}).
Proof.
  apply (webpack_error_propagates (E := Demo.node_with Cases.webpack_broken)
           (Demo.site ["/"]) None Demo.start
           (WebpackFailure "Error: invalid configuration object")
           (Demo.rimraf Demo.out Demo.disk)).
  reflexivity.
Defined.

(** ** Loading the manifests *)

(** X2. After a compilation without errors, when the server manifest or
    the client manifest cannot be loaded (missing, or not JSON), the build
    rejects with the error of that [require]; the server manifest is
    required first and the client manifest only when the server one was
    loaded; the manifest directory is not removed and the files are left
    as webpack wrote them. *)
Theorem manifest_unreadable_aborts {E : Externals}
    (prepared : SiteOptions) (cliOutDir : option string) (w : World)
    (stats : Stats) (m : FS) :
  let options := apply_cli prepared cliOutDir in
  let out := outDir options in
  let server := path_resolve out "manifest/server.json" in
  let client := path_resolve out "manifest/client.json" in
  webpack options (rimraf_fs out (fs w)) = (WebpackDone stats, m) ->
  hasErrors stats = false ->
  loadable m server = None \/ loadable m client = None ->
  exists e tail,
    build prepared cliOutDir w =
      (Threw e, {| fs := m; trace := trace w ++ [EvRimraf out; EvWebpack] ++ tail |}) /\
    ((loadable m server = None /\ tail = [EvRequire server] /\
      (e = ModuleNotFound server \/ e = JsonSyntaxError server))
     \/
     (loadable m server <> None /\ tail = [EvRequire server; EvRequire client] /\
      (e = ModuleNotFound client \/ e = JsonSyntaxError client))).
Proof.
  cbv zeta. intros Hwp Herr Hload. unfold build.
  rewrite bind_run, rimraf_run, bind_run, compile_run. simpl.
  rewrite Hwp, Herr.
  rewrite bind_run, require_json_run. cbv zeta. simpl fs. simpl trace.
  unfold loadable in *.
  destruct (m !! path_resolve _ "manifest/server.json") as [c1|] eqn:Hc1.
  2:{ eexists _, _. split; [rewrite <- !app_assoc; reflexivity |]. left. auto. }
  destruct (json_parse c1) as [sb|] eqn:Hsb.
  2:{ eexists _, _. split; [rewrite <- !app_assoc; reflexivity |]. left. auto. }
  destruct Hload as [Hload | Hload]; [discriminate Hload |].
  rewrite bind_run, require_json_run. cbv zeta. simpl fs. simpl trace.
  destruct (m !! path_resolve _ "manifest/client.json") as [c2|] eqn:Hc2.
  2:{ eexists _, _. split; [rewrite <- !app_assoc; reflexivity |]. right.
      split; [discriminate | auto]. }
  rewrite Hload.
  eexists _, _. split; [rewrite <- !app_assoc; reflexivity |]. right.
  split; [discriminate | auto].
Qed.

Lemma manifest_unreadable_aborts_witness :
  let E := Demo.node_with Cases.webpack_no_server_manifest in
  let m := snd (Cases.webpack_no_server_manifest (Demo.site ["/"])
                  (Demo.rimraf Demo.out Demo.disk)) in
  let server := "/work/dist/manifest/server.json" in
  let client := "/work/dist/manifest/client.json" in
  exists e tail,
    build (E := E) (Demo.site ["/"]) None Demo.start =
      (Threw e,
       {| fs := m; trace := trace Demo.start ++ [EvRimraf Demo.out; EvWebpack] ++ tail |}) /\
    ((loadable (E := E) m server = None /\ tail = [EvRequire server] /\
      (e = ModuleNotFound server \/ e = JsonSyntaxError server))
     \/
     (loadable (E := E) m server <> None /\ tail = [EvRequire server; EvRequire client] /\
      (e = ModuleNotFound client \/ e = JsonSyntaxError client))).
Proof.
  apply (manifest_unreadable_aborts (E := Demo.node_with Cases.webpack_no_server_manifest)
           (Demo.site ["/"]) None Demo.start Demo.report
           (snd (Cases.webpack_no_server_manifest (Demo.site ["/"])
                   (Demo.rimraf Demo.out Demo.disk)))).
  - reflexivity.
  - reflexivity.
  - left. vm_compute. reflexivity.
Defined.

(** ** [workaroundEmptyStyleChunk]: what it does when a chunk is missing *)

(** X3. When the first target lists no asset passing the style pattern,
    the stitching step throws a type error (the name of [undefined] is
    read) before anything is read, removed or written. *)
Theorem stitch_without_style_chunk {E : Externals}
    (outDir : string) (stats : Stats) (target : TargetStats) (rest : list TargetStats)
    (w : World) :
  children stats = target :: rest ->
  List.find is_style_chunk (assets target) = None ->
  workaroundEmptyStyleChunk outDir stats w =
  (Threw (TypeError "Cannot read property 'name' of undefined"), w).
Proof.
  intros Hch Hs.
  unfold workaroundEmptyStyleChunk, find_asset, name_of, bind, ret, throw.
  rewrite Hch. simpl. rewrite Hs. reflexivity.
Qed.

Lemma stitch_without_style_chunk_witness :
  workaroundEmptyStyleChunk (E := Demo.node) Demo.out Cases.report_no_style Demo.compiled =
  (Threw (TypeError "Cannot read property 'name' of undefined"), Demo.compiled).
Proof.
  apply (stitch_without_style_chunk (E := Demo.node) Demo.out Cases.report_no_style
           {| assets := [ {| name := "app.ef56gh78.js" |} ] |} [Demo.server_target]
           Demo.compiled).
  - reflexivity.
  - reflexivity.
Defined.

(** X4. When the style chunk is listed and its file is there but no asset
    passes the app pattern, the step throws a type error only after it
    has read and removed the style chunk file: the style chunk is gone
    from disk although nothing was stitched. *)
Theorem stitch_without_app_chunk {E : Externals}
    (outDir : string) (stats : Stats) (target : TargetStats) (rest : list TargetStats)
    (style : Asset) (S : string) (w : World) :
  children stats = target :: rest ->
  List.find is_style_chunk (assets target) = Some style ->
  List.find is_app_chunk (assets target) = None ->
  fs w !! path_resolve outDir (name style) = Some S ->
  let sp := path_resolve outDir (name style) in
  workaroundEmptyStyleChunk outDir stats w =
    (Threw (TypeError "Cannot read property 'name' of undefined"),
     {| fs := rimraf_fs sp (fs w);
        trace := trace w ++ [EvReadFile sp; EvRimraf sp] |}) /\
  rimraf_fs sp (fs w) !! sp = None.
Proof.
  intros Hch Hs Ha HS. cbv zeta. split.
  - unfold workaroundEmptyStyleChunk, find_asset, name_of, readFile, rimraf,
      bind, emit, get_fs, modify_fs, ret, throw.
    rewrite Hch. simpl. rewrite Hs. simpl. rewrite HS. simpl. rewrite Ha. simpl.
    now rewrite <- app_assoc.
  - apply rimraf_fs_gone.
Qed.

Lemma stitch_without_app_chunk_witness :
  let sp := "/work/dist/styles.ab12cd34.js" in
  workaroundEmptyStyleChunk (E := Demo.node) Demo.out Cases.report_no_app Demo.compiled =
    (Threw (TypeError "Cannot read property 'name' of undefined"),
     {| fs := Demo.rimraf sp (fs Demo.compiled);
        trace := trace Demo.compiled ++ [EvReadFile sp; EvRimraf sp] |}) /\
  Demo.rimraf sp (fs Demo.compiled) !! sp = None.
Proof.
  apply (stitch_without_app_chunk (E := Demo.node) Demo.out Cases.report_no_app
           {| assets := [ {| name := "styles.ab12cd34.js" |} ] |} [Demo.server_target]
           {| name := "styles.ab12cd34.js" |} "S" Demo.compiled).
  - reflexivity.
  - reflexivity.
  - reflexivity.
  - vm_compute. reflexivity.
Defined.

(** X5. The stitching step cannot be run twice: after a run that returned,
    the style chunk and the app chunk are different files, the style chunk
    file is gone, and a second run on the same report stops at its first
    read with [ENOENT], changing no file. *)
Theorem stitch_not_repeatable {E : Externals}
    (outDir : string) (stats : Stats) (w w' : World) :
  workaroundEmptyStyleChunk outDir stats w = (Returned tt, w') ->
  exists sp ap,
    sp <> ap /\
    fs w' !! sp = None /\
    is_Some (fs w' !! ap) /\
    workaroundEmptyStyleChunk outDir stats w' =
      (Threw (ENOENT sp), {| fs := fs w'; trace := trace w' ++ [EvReadFile sp] |}).
Proof.
  intros Hrun.
  apply workaround_returns_inv in Hrun
    as (target & rest & style & app & S & A & Hch & Hs & Ha & HS & HA & ->).
  cbv zeta in HS, HA.
  assert (Hne : path_resolve outDir (name style) <> path_resolve outDir (name app)).
  { intros Heq. rewrite <- Heq, rimraf_fs_gone in HA. discriminate HA. }
  set (sp := path_resolve outDir (name style)) in *.
  set (ap := path_resolve outDir (name app)) in *.
  assert (Hgone : (<[ap := S +:+ A]> (rimraf_fs sp (fs w)) : FS) !! sp = None).
  { rewrite lookup_insert_ne by congruence. apply rimraf_fs_gone. }
  exists sp, ap. split; [exact Hne |]. split; [exact Hgone |].
  split; [simpl; rewrite lookup_insert_eq; eauto |].
  unfold workaroundEmptyStyleChunk, find_asset, name_of, readFile,
    bind, emit, get_fs, ret, throw.
  rewrite Hch. simpl. rewrite Hs. simpl. fold sp ap. rewrite Hgone. reflexivity.
Qed.

Lemma stitch_not_repeatable_witness :
  let w' := snd (workaroundEmptyStyleChunk (E := Demo.node) Demo.out Demo.report
                   Demo.compiled) in
  exists sp ap,
    sp <> ap /\
    fs w' !! sp = None /\
    is_Some (fs w' !! ap) /\
    workaroundEmptyStyleChunk (E := Demo.node) Demo.out Demo.report w' =
      (Threw (ENOENT sp), {| fs := fs w'; trace := trace w' ++ [EvReadFile sp] |}).
Proof.
  apply (stitch_not_repeatable (E := Demo.node) Demo.out Demo.report Demo.compiled).
  vm_compute. reflexivity.
Defined.

(** ** The chunk name patterns of [workaroundEmptyStyleChunk] *)

(** X6. An asset passes the style test exactly when its name ends in
    [styles.], eight characters of [A-Za-z0-9_] and [.js], whatever comes
    before; it passes the app test exactly when its name ends in [app.],
    eight such characters and [.js]. *)
Theorem chunk_tests_by_suffix (a : Asset) :
  (is_style_chunk a = true <->
   exists pre h, name a = pre +:+ "styles." +:+ h +:+ ".js" /\
                 String.length h = 8 /\ Regex.all_chars Regex.is_word_char h = true) /\
  (is_app_chunk a = true <->
   exists pre h, name a = pre +:+ "app." +:+ h +:+ ".js" /\
                 String.length h = 8 /\ Regex.all_chars Regex.is_word_char h = true).
Proof.
  split; [apply RegexFacts.styles_re_iff | apply RegexFacts.app_re_iff].
Qed.

Lemma string_length_append (a b : string) :
  String.length (a +:+ b) = String.length a + String.length b.
Proof.
  induction a as [|x a IH]; [reflexivity |].
  rewrite StrFacts.append_cons. simpl. now rewrite IH.
Qed.

(** Two ways of cutting one string, the second tail three characters
    shorter than the first: the second tail is the first without its first
    three characters. *)
Lemma append_tail_shorter (pre pre' u t : string) :
  pre +:+ u = pre' +:+ t ->
  String.length u = String.length t + 3 ->
  exists c1 c2 c3, u = String c1 (String c2 (String c3 t)).
Proof.
  revert pre'. induction pre as [|c pre IH]; intros pre' Heq Hlen.
  - rewrite StrFacts.append_nil_l in Heq. subst u.
    rewrite string_length_append in Hlen.
    destruct pre' as [|c1 [|c2 [|c3 [|c4 pre']]]]; simpl in Hlen; try lia.
    exists c1, c2, c3. reflexivity.
  - destruct pre' as [|c' pre'].
    + rewrite StrFacts.append_nil_l in Heq. subst t.
      rewrite StrFacts.append_cons in Hlen. simpl in Hlen.
      rewrite string_length_append in Hlen. lia.
    + rewrite !StrFacts.append_cons in Heq. injection Heq as _ Heq.
      exact (IH pre' Heq Hlen).
Qed.

(** X7. No name passes both patterns: the style chunk and the app chunk
    the step finds are never the same asset. *)
Theorem chunk_tests_exclusive (a : Asset) :
  is_style_chunk a = true -> is_app_chunk a = false.
Proof.
  intros Hs. destruct (is_app_chunk a) eqn:Ha; [exfalso | reflexivity].
  apply RegexFacts.styles_re_iff in Hs as (pre & h & Hs & Hlen & _).
  apply RegexFacts.app_re_iff in Ha as (pre' & h' & Ha & Hlen' & _).
  rewrite Hs in Ha.
  apply append_tail_shorter in Ha as (c1 & c2 & c3 & Hu).
  - change ("styles." +:+ h +:+ ".js")
      with (String "s" (String "t" (String "y" ("les." +:+ h +:+ ".js")))) in Hu.
    injection Hu as _ _ _ Hu. discriminate Hu.
  - change ("styles." +:+ h +:+ ".js") with (String.append "styles." (h +:+ ".js")).
    change ("app." +:+ h' +:+ ".js") with (String.append "app." (h' +:+ ".js")).
    rewrite !string_length_append, Hlen, Hlen'. reflexivity.
Qed.

Lemma chunk_tests_exclusive_witness :
  is_app_chunk {| name := "js/styles.ab12cd34.js" |} = false.
Proof.
  apply (chunk_tests_exclusive {| name := "js/styles.ab12cd34.js" |}).
  reflexivity.
Defined.

(** ** [renderPage]: file names *)

(** X8. Two page paths that start with a slash get the same file name
    exactly when they are the same path or are the root [/] and
    [/index.html]: no other two pages are written to one file name. *)
Theorem page_filename_collisions (a b : string) :
  page_filename ("/" +:+ a) = page_filename ("/" +:+ b) <->
  a = b \/ (a = "" /\ b = "index.html") \/ (a = "index.html" /\ b = "").
Proof.
  change ("/" +:+ a) with (String "/" a). change ("/" +:+ b) with (String "/" b).
  destruct a as [|x a]; destruct b as [|y b]; unfold page_filename; simpl; split.
  - auto.
  - reflexivity.
  - intros H. right. left. auto.
  - intros [H | [[_ H] | [H _]]]; try discriminate H. now rewrite H.
  - intros H. right. right. auto.
  - intros [H | [[H _] | [H _]]]; try discriminate H. now rewrite H.
  - intros H. left. exact H.
  - intros [H | [[H _] | [_ H]]]; try discriminate H. exact H.
Qed.

(** ** The page loop: what is written *)

Lemma in_rendered_pages (renderer : RenderContext -> RenderResult) (uht : string)
    (l : list Page) (page : Page) (html : string) :
  In page l -> renderer (page_context uht page) = Rendered html ->
  In page (List.filter (rendered_ok renderer uht) l).
Proof.
  intros Hin Hr. apply filter_In. split; [exact Hin |].
  unfold rendered_ok. now rewrite Hr.
Qed.

Lemma not_in_page_files {E : Externals} (renderer : RenderContext -> RenderResult)
    (out uht : string) (l : list Page) (k : string) :
  ~ In k (map (page_file out) (List.filter (rendered_ok renderer uht) l)) ->
  forall page, In page l -> rendered_ok renderer uht page = true -> page_file out page <> k.
Proof.
  intros Hk page Hin Hok Heq. apply Hk. rewrite <- Heq.
  apply in_map, filter_In. auto.
Qed.

(** X9. In a build that succeeds, the files written by the page loop are
    exactly the output files of the pages whose render succeeded (the
    default 404 page among them when the site has none): there is no file
    for a page that failed, and no fallback [404.html] when the 404 page
    itself fails to render. *)
Theorem build_writes_rendered_pages {E : Externals}
    (prepared : SiteOptions) (cliOutDir : option string) (w w1 w' : World)
    (renderer : RenderContext -> RenderResult) :
  let options := apply_cli prepared cliOutDir in
  let out := outDir options in
  let uht := render_user_head_tags (head options) in
  prepare_renderer options w = (Returned renderer, w1) ->
  build prepared cliOutDir w = (Returned tt, w') ->
  (list_to_set (written_paths (events_since w1 w')) : gset string) =
  list_to_set
    (map (page_file out) (List.filter (rendered_ok renderer uht) (all_pages (pages options)))).
Proof.
  cbv zeta. intros Hprep Hrun.
  destruct (build_loop_spec prepared cliOutDir w w1 renderer _ w' Hprep Hrun)
    as (evs & Hsound & _ & _ & Ht & _ & Hpages).
  rewrite (events_since_app _ _ _ Ht).
  apply set_eq. intros p. rewrite !elem_of_list_to_set, !list_elem_of_In.
  rewrite written_paths_app, app_nil_r, in_written_paths. split.
  - intros (c & Hc).
    destruct (page_event_of_write _ _ _ _ _ _ _ Hsound Hc) as (page & Hin & Hr & ->).
    apply in_map. now apply in_rendered_pages with (html := c).
  - intros Hp. apply in_map_iff in Hp as (page & <- & Hin).
    apply filter_In in Hin as [Hin Hok]. unfold rendered_ok in Hok.
    destruct (Hpages page Hin) as (Hincl & _).
    unfold page_events in Hincl.
    destruct (renderer (page_context _ page)) as [html|e]; [| discriminate Hok].
    exists html. apply Hincl. simpl. auto.
Qed.

Lemma build_writes_rendered_pages_witness :
  let prepared := Demo.site ["/"; "/broken.html"; "/guide.html"] in
  let renderer := Demo.renderer "{}" "{}" "<div id=app></div>" in
  let w1 := snd (prepare_renderer (E := Demo.node) prepared Demo.start) in
  let w' := snd (build (E := Demo.node) prepared None Demo.start) in
  (list_to_set (written_paths (events_since w1 w')) : gset string) =
  list_to_set ["/work/dist/index.html"; "/work/dist/guide.html"; "/work/dist/404.html"].
Proof.
  apply (build_writes_rendered_pages (E := Demo.node)
           (Demo.site ["/"; "/broken.html"; "/guide.html"]) None Demo.start
           (snd (prepare_renderer (E := Demo.node)
                   (Demo.site ["/"; "/broken.html"; "/guide.html"]) Demo.start))
           (snd (build (E := Demo.node)
                   (Demo.site ["/"; "/broken.html"; "/guide.html"]) None Demo.start))
           (Demo.renderer "{}" "{}" "<div id=app></div>")).
  - vm_compute. reflexivity.
  - vm_compute. reflexivity.
Defined.

(** X10. In a build that succeeds, when the pages that render have
    pairwise distinct output files, the output file of every page that
    rendered holds, at the end of the build, the HTML its render gave. *)
Theorem rendered_page_on_disk {E : Externals}
    (prepared : SiteOptions) (cliOutDir : option string) (w w1 w' : World)
    (renderer : RenderContext -> RenderResult) (page : Page) (html : string) :
  let options := apply_cli prepared cliOutDir in
  let out := outDir options in
  let uht := render_user_head_tags (head options) in
  prepare_renderer options w = (Returned renderer, w1) ->
  build prepared cliOutDir w = (Returned tt, w') ->
  NoDup (map (page_file out)
           (List.filter (rendered_ok renderer uht) (all_pages (pages options)))) ->
  In page (all_pages (pages options)) ->
  renderer (page_context uht page) = Rendered html ->
  fs w' !! page_file out page = Some html.
Proof.
  cbv zeta. intros Hprep Hrun Hnd Hin Hhtml.
  destruct (build_loop_spec prepared cliOutDir w w1 renderer _ w' Hprep Hrun)
    as (evs & _ & _ & _ & _ & _ & Hpages).
  destruct (Hpages page Hin) as (_ & Hholds & _).
  destruct (Hholds html Hhtml) as (q & c & Hq & Hfile & Hqr & Hk).
  assert (Heq : q = page).
  { apply (NoDup_map_inj _ _ _ _ Hnd); [| | exact Hfile].
    - now apply in_rendered_pages with (html := c).
    - now apply in_rendered_pages with (html := html). }
  subst q. rewrite Hhtml in Hqr. injection Hqr as <-. exact Hk.
Qed.

Lemma rendered_page_on_disk_witness :
  fs (snd (build (E := Demo.node) (Demo.site ["/"; "/broken.html"; "/guide.html"]) None
             Demo.start))
    !! "/work/dist/guide.html" = Some "<html>/guide.html</html>".
Proof.
  apply (rendered_page_on_disk (E := Demo.node)
           (Demo.site ["/"; "/broken.html"; "/guide.html"]) None Demo.start
           (snd (prepare_renderer (E := Demo.node)
                   (Demo.site ["/"; "/broken.html"; "/guide.html"]) Demo.start))
           (snd (build (E := Demo.node)
                   (Demo.site ["/"; "/broken.html"; "/guide.html"]) None Demo.start))
           (Demo.renderer "{}" "{}" "<div id=app></div>")
           (Demo.page "/guide.html") "<html>/guide.html</html>").
  - vm_compute. reflexivity.
  - vm_compute. reflexivity.
  - by_decide.
  - simpl. auto.
  - reflexivity.
Defined.

(** X11. Once the renderer is there, the rest of the build, whether it
    succeeds or rejects, changes no file other than the output files of
    the pages that rendered: every other path has at the end what it had
    when the page loop began (the stitched app chunk among them). *)
Theorem page_loop_frame {E : Externals}
    (prepared : SiteOptions) (cliOutDir : option string) (w w1 w' : World)
    (renderer : RenderContext -> RenderResult) (res : Outcome unit) (k : string) :
  let options := apply_cli prepared cliOutDir in
  let out := outDir options in
  let uht := render_user_head_tags (head options) in
  prepare_renderer options w = (Returned renderer, w1) ->
  build prepared cliOutDir w = (res, w') ->
  ~ In k (map (page_file out)
            (List.filter (rendered_ok renderer uht) (all_pages (pages options)))) ->
  fs w' !! k = fs w1 !! k.
Proof.
  cbv zeta. intros Hprep Hrun Hk.
  destruct (build_loop_spec prepared cliOutDir w w1 renderer _ w' Hprep Hrun)
    as (evs & _ & Hframe & _).
  apply Hframe. now apply not_in_page_files.
Qed.

(** The stitched app chunk is left alone, also by a build that rejects in
    its page loop. *)
Lemma page_loop_frame_witness :
  let prepared := Demo.site ["/guide/"; "/guide/intro.html"] in
  let w1 := snd (prepare_renderer (E := Demo.node) prepared Demo.start) in
  let w' := snd (build (E := Demo.node) prepared None Demo.start) in
  fs w' !! "/work/dist/app.ef56gh78.js" = fs w1 !! "/work/dist/app.ef56gh78.js".
Proof.
  apply (page_loop_frame (E := Demo.node) (Demo.site ["/guide/"; "/guide/intro.html"]) None
           Demo.start
           (snd (prepare_renderer (E := Demo.node)
                   (Demo.site ["/guide/"; "/guide/intro.html"]) Demo.start))
           (snd (build (E := Demo.node) (Demo.site ["/guide/"; "/guide/intro.html"]) None
                   Demo.start))
           (Demo.renderer "{}" "{}" "<div id=app></div>")
           (Threw (EISDIR "/work/dist/guide"))
           "/work/dist/app.ef56gh78.js").
  - vm_compute. reflexivity.
  - vm_compute. reflexivity.
  - vm_compute. intros [H | [H | [H | []]]]; discriminate H.
Defined.

(** ** [build]: where it can fail, what it prints *)



(** A build that rejects in its page loop: both pages were rendered, and
    the error is that of the write of the first. *)
Example build_rejects_in_loop :
  let prepared := Demo.site ["/guide/"; "/guide/intro.html"] in
  let w1 := snd (prepare_renderer (E := Demo.node) prepared Demo.start) in
  let w' := snd (build (E := Demo.node) prepared None Demo.start) in
  fst (build (E := Demo.node) prepared None Demo.start) = Threw (EISDIR "/work/dist/guide") /\
  rendered_contexts (events_since w1 w') = map (page_context "") (pages prepared) /\
  exists w0, Demo.writeFile_fault w0 "/work/dist/guide" "<html>/guide/</html>"
             = WriteFailed (EISDIR "/work/dist/guide") None.
Proof.
  cbv zeta. split; [vm_compute; reflexivity |]. split; [vm_compute; reflexivity |].
  exists {| fs := ∅; trace := [EvMkdirp "/work/dist/guide"] |}. vm_compute. reflexivity.
Qed.

(** X13. The success line is printed by successful builds only, and it is
    the only line a build prints on the standard console: a build that
    rejects has printed nothing there. *)
Theorem success_line_only_on_success {E : Externals}
    (prepared : SiteOptions) (cliOutDir : option string) (w w' : World)
    (res : Outcome unit) (msg : string) :
  build prepared cliOutDir w = (res, w') ->
  In (EvConsoleLog msg) (events_since w w') ->
  res = Returned tt /\
  msg = success_message (outDir (apply_cli prepared cliOutDir)).
Proof.
  intros Hrun Hin.
  destruct (prepare_renderer (apply_cli prepared cliOutDir) w) as [[renderer|e0] w1] eqn:Hp.
  - destruct (prepare_renderer_emits _ _ _ _ Hp) as (evs0 & Ht0 & Hevs0).
    destruct (build_loop_spec _ _ _ _ _ _ _ Hp Hrun) as (evs & Hsound & _ & _ & Hres).
    assert (Hno0 : ~ In (EvConsoleLog msg) evs0).
    { intros H0. rewrite Forall_forall in Hevs0. apply list_elem_of_In in H0.
      exact (proj2 (Hevs0 _ H0) msg eq_refl). }
    assert (Hno : ~ In (EvConsoleLog msg) evs).
    { intros H0. rewrite Forall_forall in Hsound. apply list_elem_of_In in H0.
      destruct (Hsound _ H0) as (page & _ & Hev).
      exact (page_events_no_log _ _ _ _ _ Hev). }
    destruct res as [[]|e].
    + destruct Hres as (Ht & _). split; [reflexivity |].
      erewrite in_events_since in Hin by (rewrite Ht, Ht0, <- app_assoc; reflexivity).
      apply in_app_or in Hin as [Hin | Hin]; [contradiction |].
      apply in_app_or in Hin as [Hin | [Hin | []]]; [contradiction |].
      now injection Hin as <-.
    + destruct Hres as (Ht & _). exfalso.
      erewrite in_events_since in Hin by (rewrite Ht, Ht0, <- app_assoc; reflexivity).
      apply in_app_or in Hin as [Hin | Hin]; contradiction.
  - exfalso. rewrite (build_stops_early _ _ _ _ _ Hp) in Hrun. injection Hrun as <- <-.
    destruct (prepare_renderer_emits _ _ _ _ Hp) as (evs0 & Ht0 & Hevs0).
    rewrite (events_since_app _ _ _ Ht0) in Hin.
    rewrite Forall_forall in Hevs0. apply list_elem_of_In in Hin.
    exact (proj2 (Hevs0 _ Hin) msg eq_refl).
Qed.

Lemma success_line_only_on_success_witness :
  let prepared := Demo.site ["/"; "/broken.html"] in
  let w' := snd (build (E := Demo.node) prepared None Demo.start) in
  let msg := Str.newline +:+ "Success! Generated static files in dist." in
  In (EvConsoleLog msg) (events_since Demo.start w') /\
  (Returned tt = Returned tt /\
   msg = success_message (E := Demo.node) (outDir (apply_cli prepared None))).
Proof.
  assert (Hin : In (EvConsoleLog (Str.newline +:+ "Success! Generated static files in dist."))
                  (events_since Demo.start
                     (snd (build (E := Demo.node) (Demo.site ["/"; "/broken.html"]) None
                             Demo.start)))).
  { vm_compute. repeat (first [left; reflexivity | right]). }
  split; [exact Hin |].
  apply (success_line_only_on_success (E := Demo.node) (Demo.site ["/"; "/broken.html"])
           None Demo.start
           (snd (build (E := Demo.node) (Demo.site ["/"; "/broken.html"]) None Demo.start))
           (Returned tt) _).
  - vm_compute. reflexivity.
  - exact Hin.
Defined.

(** X15. In a successful build of a site without a page at [/404.html],
    the default 404 page is rendered only after every call made for the
    pages of the site has been made, and its own calls are the last before
    the success line. *)
Theorem default_404_rendered_last {E : Externals}
    (prepared : SiteOptions) (cliOutDir : option string) (w w1 w' : World)
    (renderer : RenderContext -> RenderResult) :
  let options := apply_cli prepared cliOutDir in
  let out := outDir options in
  let uht := render_user_head_tags (head options) in
  prepare_renderer options w = (Returned renderer, w1) ->
  build prepared cliOutDir w = (Returned tt, w') ->
  has_custom_404 (pages options) = false ->
  exists before,
    events_since w1 w' =
      before ++ page_events renderer out uht default_404 ++
      [EvConsoleLog (success_message out)] /\
    Forall (page_event_of renderer out uht (pages options)) before /\
    rendered_contexts before = map (page_context uht) (pages options) /\
    forall page, In page (pages options) ->
      incl (page_events renderer out uht page) before.
Proof.
  cbv zeta. intros Hprep Hrun H404.
  destruct (build_loop_spec prepared cliOutDir w w1 renderer _ w' Hprep Hrun)
    as (evs & _ & _ & _ & Ht & (before & Hevs & Hsound & Hctx & Hincl) & _).
  rewrite H404 in Hevs. subst evs.
  exists before. split; [| auto].
  rewrite (events_since_app _ _ _ Ht). now rewrite <- app_assoc.
Qed.

Lemma default_404_rendered_last_witness :
  let prepared := Demo.site ["/"; "/broken.html"] in
  let renderer := Demo.renderer "{}" "{}" "<div id=app></div>" in
  let w1 := snd (prepare_renderer (E := Demo.node) prepared Demo.start) in
  let w' := snd (build (E := Demo.node) prepared None Demo.start) in
  exists before,
    events_since w1 w' =
      before ++ page_events (E := Demo.node) renderer Demo.out "" default_404 ++
      [EvConsoleLog (success_message (E := Demo.node) Demo.out)] /\
    Forall (page_event_of (E := Demo.node) renderer Demo.out "" (pages prepared)) before /\
    rendered_contexts before = map (page_context "") (pages prepared) /\
    forall page, In page (pages prepared) ->
      incl (page_events (E := Demo.node) renderer Demo.out "" page) before.
Proof.
  apply (default_404_rendered_last (E := Demo.node) (Demo.site ["/"; "/broken.html"]) None
           Demo.start
           (snd (prepare_renderer (E := Demo.node) (Demo.site ["/"; "/broken.html"])
                   Demo.start))
           (snd (build (E := Demo.node) (Demo.site ["/"; "/broken.html"]) None Demo.start))
           (Demo.renderer "{}" "{}" "<div id=app></div>")).
  - vm_compute. reflexivity.
  - vm_compute. reflexivity.
  - reflexivity.
Defined.



(** X20. A render rejected with [undefined] or [null] is not isolated:
    [renderPage] prints the line with the page path, then throws a type
    error on reading the stack; the second line is not printed and nothing
    is written. *)
Theorem render_rejected_without_stack {E : Externals}
    (renderer : RenderContext -> RenderResult) (outDir userHeadTags : string)
    (page : Page) (e : JsError) (w : World) :
  renderer (page_context userHeadTags page) = Rejected e ->
  e = JsUndefined \/ e = JsNull ->
  exists what,
    renderPage renderer outDir userHeadTags page w =
    (Threw (TypeError what),
     {| fs := fs w;
        trace := trace w ++
          [EvRender (page_context userHeadTags page);
           EvConsoleError (chalk_red ("Error rendering " +:+ path page +:+ ":"))] |}).
Proof.
  intros Hr He. rewrite renderPage_run. cbv zeta. rewrite Hr.
  destruct He as [-> | ->]; eexists; reflexivity.
Qed.

Lemma render_rejected_without_stack_witness :
  exists what,
    renderPage (E := Demo.node) (Demo.renderer "{}" "{}" "") Demo.out ""
      (Demo.page "/undefined.html") Demo.compiled =
    (Threw (TypeError what),
     {| fs := fs Demo.compiled;
        trace := trace Demo.compiled ++
          [EvRender (page_context "" (Demo.page "/undefined.html"));
           EvConsoleError "Error rendering /undefined.html:"] |}).
Proof.
  apply (render_rejected_without_stack (E := Demo.node) (Demo.renderer "{}" "{}" "")
           Demo.out "" (Demo.page "/undefined.html") JsUndefined Demo.compiled).
  - reflexivity.
  - left. reflexivity.
Defined.

(** ** [renderPageMeta] and the user head tags *)

Lemma concat_empty_cons (x : string) (l : list string) :
  String.concat "" (x :: l) = x +:+ String.concat "" l.
Proof.
  destruct l as [|y l]; simpl; [now rewrite StrFacts.append_nil_r | reflexivity].
Qed.

Lemma concat_empty_app (a b : list string) :
  String.concat "" (a ++ b) = String.concat "" a +:+ String.concat "" b.
Proof.
  induction a as [|x a IH]; [reflexivity |].
  change ((x :: a) ++ b) with (x :: (a ++ b)).
  now rewrite !concat_empty_cons, IH, StrFacts.append_assoc.
Qed.

(** X16. The meta tags of two sequences of entries put one after the other
    are the meta tags of the first followed, with nothing between, by the
    meta tags of the second; an empty sequence gives the empty string, as
    a missing one does. *)
Theorem renderPageMeta_app (a b : list JsObject) :
  renderPageMeta (Some (a ++ b)) = renderPageMeta (Some a) +:+ renderPageMeta (Some b) /\
  renderPageMeta (Some []) = renderPageMeta None.
Proof.
  split; [| reflexivity].
  unfold renderPageMeta, Str.join. rewrite map_app. apply concat_empty_app.
Qed.

(** ** [build]: when it succeeds *)

Section Readiness.

Context {E : Externals}.

Lemma require_loadable (m : FS) (p doc : string) (t : list Event) (w' : World) :
  require_json p {| fs := m; trace := t |} = (Returned doc, w') ->
  loadable m p = Some doc /\ w' = {| fs := m; trace := t ++ [EvRequire p] |}.
Proof.
  unfold loadable. rewrite require_json_run. simpl.
  destruct (m !! p) as [c|]; [| discriminate].
  destruct (json_parse c); [| discriminate].
  intros H. injection H as -> <-. auto.
Qed.

(** When the steps before the page loop return, the build was ready, the
    renderer is made of the two manifests and the template, and the
    operations were those of [setup_events]. *)
Lemma prepare_renderer_returns_inv (options : SiteOptions) (w w1 : World)
    (renderer : RenderContext -> RenderResult) :
  prepare_renderer options w = (Returned renderer, w1) ->
  exists stats m sb cm style app S A tpl m3,
    build_ready options w stats m sb cm style app S A tpl m3 /\
    renderer = createBundleRenderer sb cm tpl /\
    w1 = {| fs := m3;
            trace := trace w ++ setup_events (outDir options) style app S A |}.
Proof.
  unfold build_ready, setup_events. cbv zeta.
  intros Hrun. unfold prepare_renderer in Hrun.
  rewrite bind_run, rimraf_run, bind_run, compile_run in Hrun.
  cbv zeta in Hrun. simpl fs in Hrun. simpl trace in Hrun.
  destruct (webpack options (rimraf_fs (outDir options) (fs w)))
    as [[err|stats] m]; [discriminate Hrun |].
  destruct (hasErrors stats) eqn:Herr; [discriminate Hrun |].
  rewrite bind_run in Hrun.
  destruct (require_json _ _) as [[sb|e] w2] eqn:Hsb in Hrun; [| discriminate Hrun].
  apply require_loadable in Hsb as [Hsb ->].
  rewrite bind_run in Hrun.
  destruct (require_json _ _) as [[cm|e] w3] eqn:Hcm in Hrun; [| discriminate Hrun].
  apply require_loadable in Hcm as [Hcm ->].
  rewrite bind_run, rimraf_run, bind_run in Hrun. simpl fs in Hrun.
  destruct (workaroundEmptyStyleChunk _ _ _) as [[[]|e] w4] eqn:Hst in Hrun;
    [| discriminate Hrun].
  apply workaround_returns_inv in Hst
    as (target & rest & style & app & S & A & Hch & Hs & Ha & HS & HA & ->).
  cbv zeta in HS, HA. simpl fs in HS, HA.
  rewrite bind_run, readFile_run in Hrun. cbv zeta in Hrun. simpl fs in Hrun.
  destruct (_ !! template_path) as [tpl|] eqn:Htpl in Hrun; [| discriminate Hrun].
  unfold ret in Hrun. injection Hrun as <- <-.
  exists stats, m, sb, cm, style, app, S, A, tpl. eexists.
  split; [| split; [reflexivity |]].
  + repeat split; eauto.
  + simpl. rewrite <- !app_assoc. reflexivity.
Qed.

End Readiness.

(** X17. A build succeeds only when it was ready for its page loop: the
    compilation has no errors, both manifests are there and are JSON, the
    first target lists a style chunk and an app chunk whose files are
    there after the manifest directory is removed, and the template is
    there.  Its operations are then, in order: clean the output directory,
    compile, load the server manifest, load the client manifest, remove
    the manifest directory, stitch, read the template; then the calls of
    the page loop, all of them calls made for the pages, every page
    rendered in the order of the list; and at last the success line. *)
Theorem build_returns_only_if {E : Externals}
    (prepared : SiteOptions) (cliOutDir : option string) (w w' : World) :
  build prepared cliOutDir w = (Returned tt, w') ->
  exists stats m sb cm style app S A tpl m3 evs,
    let options := apply_cli prepared cliOutDir in
    let out := outDir options in
    let uht := render_user_head_tags (head options) in
    let renderer := createBundleRenderer sb cm tpl in
    build_ready options w stats m sb cm style app S A tpl m3 /\
    trace w' = trace w ++ setup_events out style app S A ++ evs ++
               [EvConsoleLog (success_message out)] /\
    Forall (page_event_of renderer out uht (all_pages (pages options))) evs /\
    rendered_contexts evs = map (page_context uht) (all_pages (pages options)).
Proof.
  intros Hrun.
  destruct (build_returns_inv _ _ _ _ Hrun) as (renderer & w1 & Hprep).
  destruct (build_loop_spec _ _ _ _ _ _ _ Hprep Hrun)
    as (evs & Hsound & _ & _ & Ht & (before & Hevs & _ & Hctx & _) & _).
  apply prepare_renderer_returns_inv in Hprep
    as (stats & m & sb & cm & style & app & S & A & tpl & m3 & Hready & -> & ->).
  exists stats, m, sb, cm, style, app, S, A, tpl, m3, evs. cbv zeta.
  split; [exact Hready |]. split; [| split; [exact Hsound |]].
  - rewrite Ht. simpl. now rewrite <- app_assoc.
  - rewrite Hevs, rendered_contexts_app, Hctx. unfold all_pages. rewrite map_app.
    f_equal. destruct (has_custom_404 _); [reflexivity |].
    apply rendered_contexts_page_events.
Qed.

Lemma build_returns_only_if_witness :
  let w' := snd (build (E := Demo.node) (Demo.site ["/"; "/broken.html"]) None Demo.start) in
  exists stats m sb cm style app S A tpl m3 evs,
    let options := apply_cli (Demo.site ["/"; "/broken.html"]) None in
    let out := outDir options in
    let uht := render_user_head_tags (head options) in
    let renderer := createBundleRenderer (Externals := Demo.node) sb cm tpl in
    build_ready (E := Demo.node) options Demo.start stats m sb cm style app S A tpl m3 /\
    trace w' = trace Demo.start ++ setup_events (E := Demo.node) out style app S A ++ evs ++
               [EvConsoleLog (success_message (E := Demo.node) out)] /\
    Forall (page_event_of (E := Demo.node) renderer out uht (all_pages (pages options))) evs /\
    rendered_contexts evs = map (page_context uht) (all_pages (pages options)).
Proof.
  apply (build_returns_only_if (E := Demo.node) (Demo.site ["/"; "/broken.html"]) None
           Demo.start).
  vm_compute. reflexivity.
Defined.

Example build_returns_demo :
  exists w',
    build (E := Demo.node) (Demo.site ["/"]) None Demo.start = (Returned tt, w') /\
    trace w' =
      setup_events (E := Demo.node) Demo.out
        {| name := "styles.ab12cd34.js" |} {| name := "app.ef56gh78.js" |} "S" "A" ++
      [EvRender (page_context "" (Demo.page "/"));
       EvMkdirp "/work/dist"; EvWriteFile "/work/dist/index.html" "<html>/</html>";
       EvRender (page_context "" default_404);
       EvMkdirp "/work/dist"; EvWriteFile "/work/dist/404.html" "<html>/404.html</html>";
       EvConsoleLog (success_message (E := Demo.node) Demo.out)].
Proof. eexists. split; vm_compute; reflexivity. Qed.

(** An output directory given relative to the working directory, with a
    trailing slash: the stale file in it is removed all the same. *)
Example relative_outDir_cleaned :
  let w' := snd (build (E := Demo.node) (Demo.site_relative ["/"]) None Demo.start) in
  fst (build (E := Demo.node) (Demo.site_relative ["/"]) None Demo.start) = Returned tt /\
  fs Demo.start !! "/work/dist/old.html" = Some "stale" /\
  fs w' !! "/work/dist/old.html" = None /\
  fs w' !! "/work/dist/index.html" = Some "<html>/</html>".
Proof. vm_compute. auto. Qed.

(** X18. After a successful build the app chunk file holds the content
    webpack gave the style chunk followed by the content webpack gave the
    app chunk, and the style chunk file is gone, unless a page that
    rendered has been written to that very path. *)
Theorem stitched_chunk_in_output {E : Externals}
    (prepared : SiteOptions) (cliOutDir : option string) (w w' : World) :
  build prepared cliOutDir w = (Returned tt, w') ->
  exists stats m sb cm style app S A tpl m3,
    let options := apply_cli prepared cliOutDir in
    let out := outDir options in
    let uht := render_user_head_tags (head options) in
    let renderer := createBundleRenderer sb cm tpl in
    let sp := path_resolve out (name style) in
    let ap := path_resolve out (name app) in
    let page_files :=
      map (page_file out)
        (List.filter (rendered_ok renderer uht) (all_pages (pages options))) in
    build_ready options w stats m sb cm style app S A tpl m3 /\
    m !! sp = Some S /\
    m !! ap = Some A /\
    (~ In ap page_files -> fs w' !! ap = Some (S +:+ A)) /\
    (~ In sp page_files -> fs w' !! sp = None).
Proof.
  intros Hrun.
  destruct (build_returns_inv _ _ _ _ Hrun) as (renderer & w1 & Hprep).
  destruct (build_loop_spec _ _ _ _ _ _ _ Hprep Hrun) as (evs & _ & Hframe & _).
  apply prepare_renderer_returns_inv in Hprep
    as (stats & m & sb & cm & style & app & S & A & tpl & m3 & Hready & -> & ->).
  exists stats, m, sb, cm, style, app, S, A, tpl, m3. cbv zeta.
  split; [exact Hready |].
  destruct Hready as (_ & _ & _ & _ & _ & HS & HA & -> & _).
  cbv zeta in HS, HA.
  apply rimraf_only_removes in HS.
  apply lookup_rimraf_fs_Some in HA as [HA Hu].
  apply rimraf_only_removes in HA.
  split; [exact HS |]. split; [exact HA |]. split.
  - intros Hap. rewrite Hframe by (now apply not_in_page_files).
    simpl. apply lookup_insert_eq.
  - intros Hsp. rewrite Hframe by (now apply not_in_page_files).
    simpl. rewrite lookup_insert_ne.
    + apply rimraf_fs_gone.
    + intros Heq. rewrite Heq, under_refl in Hu. discriminate Hu.
Qed.

Lemma stitched_chunk_in_output_witness :
  let w' := snd (build (E := Demo.node) (Demo.site ["/"; "/guide.html"]) None Demo.start) in
  exists stats m sb cm style app S A tpl m3,
    let options := apply_cli (Demo.site ["/"; "/guide.html"]) None in
    let out := outDir options in
    let uht := render_user_head_tags (head options) in
    let renderer := createBundleRenderer (Externals := Demo.node) sb cm tpl in
    let sp := path_resolve (Externals := Demo.node) out (name style) in
    let ap := path_resolve (Externals := Demo.node) out (name app) in
    let page_files :=
      map (page_file (E := Demo.node) out)
        (List.filter (rendered_ok renderer uht) (all_pages (pages options))) in
    build_ready (E := Demo.node) options Demo.start stats m sb cm style app S A tpl m3 /\
    m !! sp = Some S /\
    m !! ap = Some A /\
    (~ In ap page_files -> fs w' !! ap = Some (S +:+ A)) /\
    (~ In sp page_files -> fs w' !! sp = None).
Proof.
  apply (stitched_chunk_in_output (E := Demo.node) (Demo.site ["/"; "/guide.html"]) None
           Demo.start).
  vm_compute. reflexivity.
Defined.

Example stitched_chunk_demo :
  let w' := snd (build (E := Demo.node) (Demo.site ["/"; "/guide.html"]) None Demo.start) in
  fs w' !! "/work/dist/app.ef56gh78.js" = Some "SA" /\
  fs w' !! "/work/dist/styles.ab12cd34.js" = None.
Proof. vm_compute. auto. Qed.
